(** * NLP-Habbit: a shallow embedding of the analytics routes

    The development follows the API routes of the habit tracker:
    gamification (points, badges, levels), heatmaps, statistics (trend
    buckets and streaks), habit stacking, the fallback text classifier
    and the entry-creation route with its goal-progress update.

    Conventions of the embedding.
    - A JavaScript number that only ever holds an integer (counts, points,
      thresholds) is a [Z]; a number that may hold a fraction (quantities,
      averages) is a [Q].  Sums and quotients are the exact rationals: the
      rounding error of IEEE doubles is outside the model, and a theorem
      that gives the value of a sum of quantities assumes quantities on
      which the sums of doubles are exact ([Inv.wholeQuantities]).
    - A [Date] is its epoch time in milliseconds, a [Z].  A calendar day is
      its day number (days since 1970-01-01); the string [yyyy-MM-dd] the
      code builds is an injective, order-preserving function of the day
      number in the years 1000 to 9999, so it is used as the key in its
      place; a theorem on the order of such keys, or on the days they
      stand for, assumes dates in these years ([Inv.fourDigitYears]).
      Moving a date by calendar days is moving it by multiples of 24
      hours, which is what [setDate] does in a zone without clock changes
      ([Time.fixedOffset]).
    - A text is a [string] of bytes; [toLowerCase] maps the ASCII letters.
    - An object used as a dictionary is an association list in insertion
      order, which is the order of [Object.entries] for keys that are not
      array indices.  The list is the object on its own keys only: a
      theorem on a dictionary keyed by a label of the entries assumes
      that no label names a member inherited from [Object.prototype]
      ([Js.ownKey], [Inv.plainMoods], [Inv.plainActivities],
      [Inv.plainCategories]). *)

From Stdlib Require Import ZArith QArith Qround List String Ascii Bool Lia.
From Stdlib Require Import Permutation Sorted.
Import ListNotations.

Local Open Scope string_scope.
Local Open Scope Z_scope.

(** ** JavaScript primitives shared by the routes *)

Module Js.

(** [Math.round]: the nearest integer, halves towards plus infinity. *)
Definition Math_round (x : Q) : Z := Qfloor (x + (1 # 2)).

(** [a / b] on numbers that hold integers. *)
Definition div (a b : Z) : Q := (inject_Z a / inject_Z b)%Q.

Definition lowerAscii (c : ascii) : ascii :=
  let n := nat_of_ascii c in
  if (Nat.leb 65 n && Nat.leb n 90)%bool then ascii_of_nat (n + 32) else c.

(** [String.prototype.toLowerCase] on ASCII text. *)
Fixpoint toLowerCase (s : string) : string :=
  match s with
  | EmptyString => EmptyString
  | String c s' => String (lowerAscii c) (toLowerCase s')
  end.

(** [s.includes(p)]: [p] occurs in [s] as a substring. *)
Fixpoint includes (s p : string) : bool :=
  if String.prefix p s then true
  else match s with
       | EmptyString => false
       | String _ s' => includes s' p
       end.

(** [ps.some(p => s.includes(p))]. *)
Definition someIncluded (s : string) (ps : list string) : bool :=
  existsb (includes s) ps.

(** [xs.includes(x)] on an array of strings. *)
Definition arrayIncludes (xs : list string) (x : string) : bool :=
  existsb (String.eqb x) xs.

(** Truthiness of a nullable string: [null] and the empty string are falsy. *)
Definition truthy (o : option string) : bool :=
  match o with
  | Some s => negb (String.eqb s "")
  | None => false
  end.

(** [o?.includes(p)] used as a condition: [undefined] is falsy. *)
Definition optIncludes (o : option string) (p : string) : bool :=
  match o with
  | Some s => includes s p
  | None => false
  end.

(** A condition as the number it adds to a counter. *)
Definition indicator (c : bool) : Z := if c then 1 else 0.

(** [xs.filter(p).length]. *)
Definition count {A} (p : A -> bool) (xs : list A) : Z :=
  Z.of_nat (List.length (filter p xs)).

(** [Array.prototype.sort] is stable.  [before a b] says that the
    comparator does not put [b] strictly before [a]. *)
Fixpoint insertSorted {A} (before : A -> A -> bool) (x : A) (l : list A)
  : list A :=
  match l with
  | [] => [x]
  | y :: l' => if before x y then x :: y :: l'
               else y :: insertSorted before x l'
  end.

Definition sortBy {A} (before : A -> A -> bool) (l : list A) : list A :=
  fold_right (insertSorted before) [] l.

(** [Set.prototype.add] on a set kept in insertion order. *)
Definition setAdd {A} (eqb : A -> A -> bool) (x : A) (s : list A) : list A :=
  if existsb (eqb x) s then s else (s ++ [x])%list.

(** [[...new Set(xs)]]: the distinct elements, in order of first occurrence. *)
Definition distinct {A} (eqb : A -> A -> bool) (xs : list A) : list A :=
  fold_left (fun s x => setAdd eqb x s) xs [].

(** *** Objects used as dictionaries

    [get] is [obj[k]], [has] the test [if (obj[k])] on a dictionary whose
    values are all truthy, [update] the idiom
    [if (!obj[k]) obj[k] = dflt; obj[k] = f(obj[k])]. *)
Section Dictionary.
Context {K V : Type} (eqb : K -> K -> bool).

Fixpoint get (k : K) (m : list (K * V)) : option V :=
  match m with
  | [] => None
  | (k', v) :: m' => if eqb k k' then Some v else get k m'
  end.

Definition has (k : K) (m : list (K * V)) : bool :=
  match get k m with Some _ => true | None => false end.

Fixpoint alter (f : V -> V) (k : K) (m : list (K * V)) : list (K * V) :=
  match m with
  | [] => []
  | (k', v) :: m' => if eqb k k' then (k', f v) :: m'
                     else (k', v) :: alter f k m'
  end.

Definition update (dflt : V) (f : V -> V) (k : K) (m : list (K * V))
  : list (K * V) :=
  if has k m then alter f k m else (m ++ [(k, f dflt)])%list.

(** Grouping by a key: the turn of a [forEach] that creates the value
    of the key of [e] on first sight and then updates it, and what the
    turn does to the value stored under one key [k]. *)
Context {E : Type} (key : E -> K) (dflt : K -> V) (upd : E -> V -> V).

Definition groupStep (m : list (K * V)) (e : E) : list (K * V) :=
  update (dflt (key e)) (upd e) (key e) m.

Definition bucketStep (k : K) (o : option V) (e : E) : option V :=
  if eqb k (key e)
  then Some (upd e (match o with Some v => v | None => dflt k end))
  else o.
End Dictionary.

(** [obj[k] = (obj[k] || 0) + 1], for an own key [k]. *)
Definition increment (k : string) (m : list (string * Z)) : list (string * Z) :=
  update String.eqb 0 (fun n => n + 1) k m.

(** [Math.round(x * 10) / 10]. *)
Definition round1 (x : Q) : Q := (inject_Z (Math_round (x * 10)) / 10)%Q.

(** The names of the members that every object literal inherits from
    [Object.prototype].  Under such a name [obj[k]] finds the inherited
    member, a function or an object, which is truthy and is no number,
    and an assignment to [obj['__proto__']] stores nothing.  The
    dictionaries above are the objects of the source on the other keys
    only, the own keys. *)
Definition inheritedKeys : list string :=
  [ "constructor"; "__proto__"; "hasOwnProperty"; "isPrototypeOf";
    "propertyIsEnumerable"; "toLocaleString"; "toString"; "valueOf";
    "__defineGetter__"; "__defineSetter__"; "__lookupGetter__";
    "__lookupSetter__" ].

Definition ownKey (k : string) : bool := negb (arrayIncludes inheritedKeys k).

End Js.

(** ** Time *)

Module Time.

Definition msPerDay : Z := 86400000.
Definition msPerHour : Z := 3600000.

(** The zone of the process: the offset (in milliseconds) that local time
    is ahead of UTC at a given instant. *)
Definition Zone := Z -> Z.

(** [toISOString().split('T')[0]]: the UTC calendar day. *)
Definition utcDay (t : Z) : Z := t / msPerDay.

(** [format(date, 'yyyy-MM-dd')] of date-fns: the local calendar day. *)
Definition localDay (z : Zone) (t : Z) : Z := (t + z t) / msPerDay.

(** [getHours()]. *)
Definition getHours (z : Zone) (t : Z) : Z := ((t + z t) mod msPerDay) / msPerHour.

(** [getDay()]: 0 is Sunday; day number 0 was a Thursday. *)
Definition getDay (z : Zone) (t : Z) : Z := (localDay z t + 4) mod 7.

(** [today.setHours(0, 0, 0, 0)]: local midnight of the current day. *)
Definition localMidnight (z : Zone) (now : Z) : Z :=
  now - (now + z now) mod msPerDay.

(** The key [checkStr] of the streak loops at step [i]:
    [checkDate.setDate(today.getDate() - i)] moves local midnight back by
    [i] days, which is [i] times 24 hours in a zone without clock changes
    ([fixedOffset], below), and [toISOString] reads the UTC day of that
    instant. *)
Definition checkDay (z : Zone) (now : Z) (i : Z) : Z :=
  utcDay (localMidnight z now - i * msPerDay).

(** A zone without clock changes: local time is ahead of UTC by the same
    offset at every instant.  In such a zone [setDate(getDate() - i)]
    moves an instant by [i] times 24 hours; across a clock change it does
    not, and the day arithmetic of this development (the steps of the
    streak loops, the week key, the goal windows) is the arithmetic of
    the source in a zone of fixed offset only. *)
Definition fixedOffset (z : Zone) : Prop := forall t, z t = z 0.

(** A day number of the years 1000 to 9999 (1000-01-01 is day -354285,
    9999-12-31 is day 2932896).  The keys [yyyy-MM-dd] and [yyyy-MM] of
    such days have a year of four digits, padded or not, so that the keys
    are ordered as strings the way the days are ordered. *)
Definition fourDigitYear (d : Z) : bool := (-354285 <=? d) && (d <=? 2932896).

(** The civil date of a day number, as [(year, month, day)] with months
    from 1; the proleptic Gregorian calendar that [Date] implements. *)
Definition civil (d : Z) : Z * Z * Z :=
  let z := d + 719468 in
  let era := z / 146097 in
  let doe := z - era * 146097 in
  let yoe := (doe - doe / 1460 + doe / 36524 - doe / 146096) / 365 in
  let doy := doe - (365 * yoe + yoe / 4 - yoe / 100) in
  let mp := (5 * doy + 2) / 153 in
  let day := doy - (153 * mp + 2) / 5 + 1 in
  let m := if mp <? 10 then mp + 3 else mp - 9 in
  let y := yoe + era * 400 + (if m <=? 2 then 1 else 0) in
  (y, m, day).

End Time.

(** ** Data model (the Prisma records the routes read) *)

Record HabitEntry := mkEntry {
  entry_id : nat;
  rawText : string;
  activity : string;
  type : option string;
  category : option string;
  quantity : option Q;
  unit : option string;
  mood : option string;
  sentiment : option string;
  trigger : option string;
  notes : option string;
  tags : option string;
  date : Z
}.

Record Goal := mkGoal {
  goal_id : nat;
  goal_activity : string;
  targetValue : Q;
  currentValue : Q;
  period : string;
  isActive : bool
}.

(** ** Gamification route *)

Module Gamification.

(** *** Points *)

Record PointsConfig := mkPoints {
  positiveHabit : Z;
  negativeBehavior : Z;
  streak : Z;
  goalComplete : Z;
  firstOfDay : Z
}.

Definition POINTS_CONFIG : PointsConfig := mkPoints 10 (-5) 5 50 15.

(** *** Badge catalogue (the icons, display glyphs, are left out) *)

Record Requirement := mkReq {
  req_entries : option Z;
  req_streak : option Z;
  req_goalsCompleted : option Z;
  req_moodEntries : option Z;
  req_morningEntries : option Z;
  req_eveningEntries : option Z;
  req_uniqueActivities : option Z;
  req_positiveCount : option Z;
  req_insightsViewed : option Z;
  req_streakSaved : option Z;
  req_categories : option Z;
  req_positiveRatio : option Q;
  req_days : option Z
}.

Definition noReq : Requirement :=
  mkReq None None None None None None None None None None None None None.

Record BadgeDef := mkBadgeDef {
  def_id : string;
  def_name : string;
  def_description : string;
  def_requirement : Requirement
}.

Definition BADGES : list BadgeDef :=
  [ mkBadgeDef "first-step" "First Step" "Log your first habit"
      (mkReq (Some 1) None None None None None None None None None None None None);
    mkBadgeDef "week-warrior" "Week Warrior" "7-day streak"
      (mkReq None (Some 7) None None None None None None None None None None None);
    mkBadgeDef "two-week-champion" "Two Week Champion" "14-day streak"
      (mkReq None (Some 14) None None None None None None None None None None None);
    mkBadgeDef "month-master" "Month Master" "30-day streak"
      (mkReq None (Some 30) None None None None None None None None None None None);
    mkBadgeDef "hundred-club" "100 Club" "Log 100 habits"
      (mkReq (Some 100) None None None None None None None None None None None None);
    mkBadgeDef "goal-crusher" "Goal Crusher" "Complete your first goal"
      (mkReq None None (Some 1) None None None None None None None None None None);
    mkBadgeDef "mood-tracker" "Mood Tracker" "Log 10 entries with mood"
      (mkReq None None None (Some 10) None None None None None None None None None);
    mkBadgeDef "early-bird" "Early Bird" "Log 5 morning habits (before 8am)"
      (mkReq None None None None (Some 5) None None None None None None None None);
    mkBadgeDef "night-owl" "Night Owl" "Log 5 evening habits (after 9pm)"
      (mkReq None None None None None (Some 5) None None None None None None None);
    mkBadgeDef "variety-king" "Variety King" "Log 10 different activities"
      (mkReq None None None None None None (Some 10) None None None None None None);
    mkBadgeDef "positive-vibes" "Positive Vibes" "Log 20 positive habits"
      (mkReq None None None None None None None (Some 20) None None None None None);
    mkBadgeDef "insight-seeker" "Insight Seeker" "View AI insights 10 times"
      (mkReq None None None None None None None None (Some 10) None None None None);
    mkBadgeDef "streak-saver" "Streak Saver" "Log a habit when streak was at risk"
      (mkReq None None None None None None None None None (Some 1) None None None);
    mkBadgeDef "triple-threat" "Triple Threat" "Log 3 different categories"
      (mkReq None None None None None None None None None None (Some 3) None None);
    mkBadgeDef "iron-will" "Iron Will" "Maintain 90% positive habits for a week"
      (mkReq None None None None None None None None None None None
         (Some (9 # 10)%Q) (Some 7)) ].

(** *** recalculateStats *)

(** The stored profile row. *)
Record UserProfile := mkProfile {
  profile_id : string;
  totalPoints : Z;
  currentStreak : Z;
  longestStreak : Z;
  lastActivityDate : option Z
}.

(** The profile fields spread into the result, with the derived counters. *)
Record Stats := mkStats {
  profile : UserProfile;
  totalEntries : Z;
  positiveCount : Z;
  negativeCount : Z;
  uniqueActivities : Z;
  categories : Z;
  moodEntries : Z;
  morningEntries : Z;
  eveningEntries : Z;
  goalsCompleted : Z
}.

(** The variables the [forEach] over the entries updates. *)
Record Totals := mkTotals {
  t_points : Z;
  t_positive : Z;
  t_negative : Z;
  t_dates : list Z;
  t_activities : list string;
  t_categories : list string;
  t_mood : Z;
  t_morning : Z;
  t_evening : Z
}.

Definition totals0 : Totals := mkTotals 0 0 0 [] [] [] 0 0 0.

Definition bump (c : bool) (n : Z) : Z := if c then n + 1 else n.

Definition tally (z : Time.Zone) (t : Totals) (entry : HabitEntry) : Totals :=
  let '(pts, pos, neg) :=
    if Js.optIncludes (type entry) "positive" then
      (t_points t + positiveHabit POINTS_CONFIG, t_positive t + 1, t_negative t)
    else if Js.optIncludes (type entry) "negative" then
      (t_points t + negativeBehavior POINTS_CONFIG, t_positive t, t_negative t + 1)
    else (t_points t + 5, t_positive t, t_negative t) in
  let acts := if Js.truthy (Some (activity entry))
              then Js.setAdd String.eqb (activity entry) (t_activities t)
              else t_activities t in
  let cats := match category entry with
              | Some c => if Js.truthy (Some c)
                          then Js.setAdd String.eqb c (t_categories t)
                          else t_categories t
              | None => t_categories t
              end in
  let dates := Js.setAdd Z.eqb (Time.utcDay (date entry)) (t_dates t) in
  let hour := Time.getHours z (date entry) in
  mkTotals pts pos neg dates acts cats
    (bump (Js.truthy (mood entry)) (t_mood t))
    (bump (hour <? 8) (t_morning t))
    (bump (21 <=? hour) (t_evening t)).

(** The streak loop: [bound] iterations at most, from step [i]. *)
Fixpoint streakLoop (sortedDates : list Z) (z : Time.Zone) (now : Z)
    (i : Z) (bound : nat) : Z :=
  match bound with
  | O => 0
  | S bound' =>
      if existsb (Z.eqb (Time.checkDay z now i)) sortedDates
      then 1 + streakLoop sortedDates z now (i + 1) bound'
      else 0
  end.

Definition streakOf (dates : list Z) (z : Time.Zone) (now : Z) : Z :=
  let sortedDates := rev (Js.sortBy Z.leb dates) in
  streakLoop sortedDates z now 0 (List.length sortedDates).

Definition completed (g : Goal) : bool := Qle_bool (targetValue g) (currentValue g).

(** [stored] is the profile row before the update, [entries] the result
    of [findMany] in ascending date order. *)
Definition recalculateStats (z : Time.Zone) (now : Z) (stored : UserProfile)
    (entries : list HabitEntry) (goals : list Goal) : Stats :=
  let t := fold_left (tally z) entries totals0 in
  let completedGoals := filter completed goals in
  let points1 := t_points t
                 + Z.of_nat (List.length completedGoals) * goalComplete POINTS_CONFIG in
  let cur := streakOf (t_dates t) z now in
  let points2 := points1 + cur * streak POINTS_CONFIG in
  let updatedProfile :=
    mkProfile (profile_id stored) points2 cur
      (Z.max cur (longestStreak stored))
      (option_map date (last (map Some entries) None)) in
  mkStats updatedProfile
    (Z.of_nat (List.length entries))
    (t_positive t) (t_negative t)
    (Z.of_nat (List.length (t_activities t)))
    (Z.of_nat (List.length (t_categories t)))
    (t_mood t) (t_morning t) (t_evening t)
    (Z.of_nat (List.length completedGoals)).

(** *** checkForNewBadges *)

(** A stored badge; [badge_requirement] stands for its JSON text. *)
Record Badge := mkBadge {
  badge_name : string;
  badge_description : string;
  badge_category : string;
  badge_requirement : Requirement;
  badge_userId : string
}.

(** [req && stat >= req]: the key is present, not zero, and reached. *)
Definition reached (req : option Z) (stat : Z) : bool :=
  match req with
  | Some r => negb (r =? 0) && (r <=? stat)
  | None => false
  end.

Definition present (req : option Z) : bool :=
  match req with
  | Some r => negb (r =? 0)
  | None => false
  end.

(** The nine tests that set [earned]. *)
Definition earned (r : Requirement) (stats : Stats) : bool :=
  reached (req_entries r) (totalEntries stats)
  || reached (req_streak r) (currentStreak (profile stats))
  || reached (req_goalsCompleted r) (goalsCompleted stats)
  || reached (req_moodEntries r) (moodEntries stats)
  || reached (req_morningEntries r) (morningEntries stats)
  || reached (req_eveningEntries r) (eveningEntries stats)
  || reached (req_uniqueActivities r) (uniqueActivities stats)
  || reached (req_positiveCount r) (positiveCount stats)
  || reached (req_categories r) (categories stats).

Definition categoryOf (r : Requirement) : string :=
  if present (req_streak r) then "streak"
  else if present (req_entries r) then "consistency"
  else if present (req_goalsCompleted r) then "achievement"
  else "special".

Definition createBadge (profileId : string) (badge : BadgeDef) : Badge :=
  mkBadge (def_name badge) (def_description badge)
    (categoryOf (def_requirement badge)) (def_requirement badge) profileId.

(** One turn of the loop over the catalogue; the state is
    [(newBadges, allBadges)]. *)
Definition checkBadge (profileId : string) (existingBadgeIds : list string)
    (stats : Stats) (acc : list Badge * list Badge) (badge : BadgeDef)
  : list Badge * list Badge :=
  if Js.arrayIncludes existingBadgeIds (def_name badge) then acc
  else if earned (def_requirement badge) stats then
    let newBadge := createBadge profileId badge in
    ((fst acc ++ [newBadge])%list, (snd acc ++ [newBadge])%list)
  else acc.

Definition checkForNewBadges (profileId : string) (existingBadges : list Badge)
    (stats : Stats) : list Badge * list Badge :=
  let existingBadgeIds := map badge_name existingBadges in
  fold_left (checkBadge profileId existingBadgeIds stats) BADGES
    ([], existingBadges).

(** *** Levels *)

Record Progress := mkProgress { current : Z; needed : Z; progress : Z }.

Definition levelThresholds : list Z :=
  [0; 50; 150; 300; 500; 800; 1200; 1700; 2500; 3500; 5000].

(** The loop of [getNextLevelProgress] over [i] and [i + 1]. *)
Fixpoint nextLevelLoop (points : Z) (ths : list Z) : option Progress :=
  match ths with
  | lo :: ((hi :: _) as rest) =>
      if ((lo <=? points) && (points <? hi))%bool then
        let current := points - lo in
        let needed := hi - lo in
        Some (mkProgress current needed
                (Js.Math_round (Js.div current needed * 100)))
      else nextLevelLoop points rest
  | _ => None
  end.

Definition getNextLevelProgress (points : Z) : Progress :=
  match nextLevelLoop points levelThresholds with
  | Some p => p
  | None => mkProgress points 100 100
  end.

Record Level := mkLevel { min : Z; level : Z; title : string }.

Definition levels : list Level :=
  [ mkLevel 0 1 "Beginner"; mkLevel 50 2 "Apprentice";
    mkLevel 150 3 "Habit Builder"; mkLevel 300 4 "Consistent";
    mkLevel 500 5 "Dedicated"; mkLevel 800 6 "Habit Master";
    mkLevel 1200 7 "Champion"; mkLevel 1700 8 "Legend";
    mkLevel 2500 9 "Habit God"; mkLevel 3500 10 "Transcendent" ].

(** The loop of [calculateLevel] runs from the last level down. *)
Definition calculateLevel (points : Z) : Level :=
  match find (fun l => min l <=? points) (rev levels) with
  | Some l => l
  | None => mkLevel 0 1 "Beginner"
  end.

End Gamification.

(** ** Heatmap route *)

Module Heatmap.

Definition moodScores : list (string * Z) :=
  [ ("happy", 5); ("great", 5); ("amazing", 5); ("proud", 5);
    ("accomplished", 5); ("energized", 5);
    ("good", 4); ("motivated", 4); ("calm", 4); ("relaxed", 4);
    ("neutral", 3); ("indifferent", 3);
    ("tired", 2); ("stressed", 2); ("anxious", 2); ("bored", 2);
    ("sad", 1); ("guilty", 1); ("ashamed", 1); ("bad", 1); ("angry", 1);
    ("frustrated", 1) ].

Definition moodColors : list (string * string) :=
  [ ("happy", "#22c55e"); ("great", "#22c55e"); ("amazing", "#16a34a");
    ("energized", "#84cc16"); ("motivated", "#84cc16");
    ("good", "#a3e635"); ("calm", "#14b8a6"); ("relaxed", "#14b8a6");
    ("neutral", "#6b7280");
    ("tired", "#f59e0b"); ("stressed", "#f97316"); ("anxious", "#fb923c");
    ("sad", "#ef4444"); ("guilty", "#dc2626"); ("ashamed", "#b91c1c");
    ("bad", "#dc2626"); ("angry", "#b91c1c"); ("frustrated", "#ea580c") ].

(** [moodScores[m]] where it is used as a condition or added, for a label
    [m] that is an own key ([Js.ownKey]): every stored score is a non-zero
    number, so the entry is truthy when present. *)
Definition scoreOf (m : string) : option Z := Js.get String.eqb m moodScores.

(** [moodScores[m] || 3]. *)
Definition scoreOr3 (m : string) : Z :=
  match scoreOf m with Some v => v | None => 3 end.

(** *** Mood view *)

Record MoodDay := mkMoodDay {
  md_score : Z;
  md_count : Z;
  md_moods : list string
}.

Definition moodDay0 : MoodDay := mkMoodDay 0 0 [].

(** The guarded update of a day by one entry:
    [if (entry.mood && moodScores[entry.mood])]. *)
Definition addMood (entry : HabitEntry) (d : MoodDay) : MoodDay :=
  match mood entry with
  | Some m =>
      if Js.truthy (Some m) then
        match scoreOf m with
        | Some v => mkMoodDay (md_score d + v) (md_count d + 1)
                      (md_moods d ++ [m])%list
        | None => d
        end
      else d
  | None => d
  end.

Definition moodDayData (z : Time.Zone) (entries : list HabitEntry)
  : list (Z * MoodDay) :=
  fold_left
    (fun dayData entry =>
       Js.update Z.eqb moodDay0 (addMood entry) (Time.localDay z (date entry))
         dayData)
    entries [].

Definition occurrences (m : string) (moods : list string) : Z :=
  Js.count (String.eqb m) moods.

(** [moods.sort((a, b) => count(b) - count(a))[0]], or ['neutral']. *)
Definition dominantMood (moods : list string) : string :=
  match Js.sortBy (fun a b => occurrences b moods <=? occurrences a moods)
          moods with
  | m :: _ => m
  | [] => "neutral"
  end.

(** A row of [daily] (the display fields [day], [dayNum] and [month], which
    only reformat the date, are left out). *)
Record MoodRow := mkMoodRow {
  mr_date : Z;
  mr_score : Q;
  mr_count : Z;
  mr_mood : string;
  mr_color : string;
  mr_intensity : Z
}.

Definition avgScore (d : MoodDay) : Q :=
  if 0 <? md_count d then Js.div (md_score d) (md_count d) else 3%Q.

Definition moodRow (kv : Z * MoodDay) : MoodRow :=
  let '(date, data) := kv in
  let avg := avgScore data in
  let dominant := dominantMood (md_moods data) in
  mkMoodRow date (Js.round1 avg) (md_count data) dominant
    (match Js.get String.eqb dominant moodColors with
     | Some c => c
     | None => "#6b7280"
     end)
    (Js.Math_round (avg / 5 * 100)).

(** The rows in the order of [Object.entries(dayData)]. *)
Definition moodRows (z : Time.Zone) (entries : list HabitEntry) : list MoodRow :=
  map moodRow (moodDayData z entries).

(** [b.score - a.score <= 0]. *)
Definition scoreDesc (a b : MoodRow) : bool := Qle_bool (mr_score b) (mr_score a).
Definition scoreAsc (a b : MoodRow) : bool := Qle_bool (mr_score a) (mr_score b).

Record MoodSummary := mkMoodSummary {
  ms_totalDays : Z;
  ms_averageMood : Q;
  ms_bestDay : option MoodRow;
  ms_worstDay : option MoodRow
}.

Record MoodHeatmap := mkMoodHeatmap {
  mh_daily : list MoodRow;
  mh_summary : MoodSummary
}.

(** The daily rows and the summary of [generateMoodHeatmap] (the hourly
    and weekly distributions are separate passes over the entries and are
    not part of this development).  The two sorts of the summary are in
    place on the array that [daily] refers to, so [daily] is returned in
    the order the second sort leaves. *)
Definition generateMoodHeatmap (z : Time.Zone) (entries : list HabitEntry)
  : MoodHeatmap :=
  let heatmap := moodRows z entries in
  let n := Z.of_nat (List.length heatmap) in
  let total := fold_left (fun acc d => (acc + mr_score d)%Q) heatmap 0%Q in
  let averageMood :=
    if n =? 0 then 3%Q
    else let r := Js.round1 (total / inject_Z n) in
         if Qeq_bool r 0 then 3%Q else r in
  let byBest := Js.sortBy scoreDesc heatmap in
  let byWorst := Js.sortBy scoreAsc byBest in
  mkMoodHeatmap byWorst
    (mkMoodSummary n averageMood (hd_error byBest) (hd_error byWorst)).

(** *** Sentiment view *)

Record SentimentDay := mkSentimentDay {
  sd_positive : Z;
  sd_neutral : Z;
  sd_negative : Z;
  sd_total : Z
}.

Definition sentimentDay0 : SentimentDay := mkSentimentDay 0 0 0 0.

(** [dayData[dateKey][entry.sentiment]++]: the label is the property name;
    a label that is none of the four counters creates a property that no
    row reads. *)
Definition bumpSentiment (label : string) (d : SentimentDay) : SentimentDay :=
  if String.eqb label "positive" then
    mkSentimentDay (sd_positive d + 1) (sd_neutral d) (sd_negative d) (sd_total d)
  else if String.eqb label "neutral" then
    mkSentimentDay (sd_positive d) (sd_neutral d + 1) (sd_negative d) (sd_total d)
  else if String.eqb label "negative" then
    mkSentimentDay (sd_positive d) (sd_neutral d) (sd_negative d + 1) (sd_total d)
  else if String.eqb label "total" then
    mkSentimentDay (sd_positive d) (sd_neutral d) (sd_negative d) (sd_total d + 1)
  else d.

Definition addSentiment (entry : HabitEntry) (d : SentimentDay) : SentimentDay :=
  let d1 := mkSentimentDay (sd_positive d) (sd_neutral d) (sd_negative d)
              (sd_total d + 1) in
  match sentiment entry with
  | Some label => if Js.truthy (Some label) then bumpSentiment label d1 else d1
  | None => d1
  end.

Definition sentimentDayData (z : Time.Zone) (entries : list HabitEntry)
  : list (Z * SentimentDay) :=
  fold_left
    (fun dayData entry =>
       Js.update Z.eqb sentimentDay0 (addSentiment entry)
         (Time.localDay z (date entry)) dayData)
    entries [].

Definition dominantSentiment (data : SentimentDay) : string :=
  if (sd_negative data <? sd_positive data)
     && (sd_neutral data <? sd_positive data)
  then "positive"
  else if sd_neutral data <? sd_negative data then "negative"
  else "neutral".

Definition sentimentColor (data : SentimentDay) : string :=
  if (sd_negative data <? sd_positive data)
     && (sd_neutral data <? sd_positive data)
  then "#22c55e"
  else if sd_neutral data <? sd_negative data then "#ef4444"
  else "#6b7280".

Record SentimentRow := mkSentimentRow {
  sr_date : Z;
  sr_positive : Z;
  sr_neutral : Z;
  sr_negative : Z;
  sr_total : Z;
  sr_dominantSentiment : string;
  sr_positiveRatio : Z;
  sr_color : string
}.

Definition sentimentRow (kv : Z * SentimentDay) : SentimentRow :=
  let '(date, data) := kv in
  mkSentimentRow date (sd_positive data) (sd_neutral data) (sd_negative data)
    (sd_total data) (dominantSentiment data)
    (Js.Math_round (Js.div (sd_positive data) (sd_total data) * 100))
    (sentimentColor data).

Definition hasSentiment (label : string) (e : HabitEntry) : bool :=
  match sentiment e with
  | Some s => String.eqb s label
  | None => false
  end.

Record SentimentSummary := mkSentimentSummary {
  ss_totalPositive : Z;
  ss_totalNegative : Z;
  ss_totalNeutral : Z;
  ss_positiveRatio : Z
}.

Record SentimentHeatmap := mkSentimentHeatmap {
  sh_daily : list SentimentRow;
  sh_summary : SentimentSummary
}.

(** The daily rows and the summary of [generateSentimentHeatmap] (the
    weekly roll-up over date-fns intervals is not part of this
    development). *)
Definition generateSentimentHeatmap (z : Time.Zone) (entries : list HabitEntry)
  : SentimentHeatmap :=
  let positives := Js.count (hasSentiment "positive") entries in
  mkSentimentHeatmap
    (map sentimentRow (sentimentDayData z entries))
    (mkSentimentSummary positives
       (Js.count (hasSentiment "negative") entries)
       (Js.count (hasSentiment "neutral") entries)
       (if 0 <? Z.of_nat (List.length entries)
        then Js.Math_round
               (Js.div positives (Z.of_nat (List.length entries)) * 100)
        else 0)).

End Heatmap.

(** ** Statistics route *)

Module Stats.

Definition moodToScore : list (string * Z) :=
  [ ("happy", 5); ("great", 5); ("amazing", 5); ("energized", 4); ("good", 4);
    ("relaxed", 3); ("neutral", 3); ("tired", 2); ("stressed", 2); ("sad", 1);
    ("bad", 1) ].

(** [moodToScore[m] || 3]. *)
Definition scoreOr3 (m : string) : Z :=
  match Js.get String.eqb m moodToScore with Some v => v | None => 3 end.

(** The bucket key.  Keys of one call are all of one kind, and each kind
    is ordered as its strings are in the years 1000 to 9999: a day by its
    day number, a week by the day number of the instant
    [setDate(getDate() - getDay())] yields in a zone without clock
    changes, a month [yyyy-MM] by [12 * year + (month - 1)]. *)
Definition periodKey (z : Time.Zone) (groupBy : string) (t : Z) : Z :=
  if String.eqb groupBy "week" then
    Time.utcDay (t - Time.getDay z t * Time.msPerDay)
  else if String.eqb groupBy "month" then
    let '(y, m, _) := Time.civil (Time.localDay z t) in 12 * y + (m - 1)
  else Time.utcDay t.

Record Bucket := mkBucket {
  b_date : Z;
  b_count : Z;
  b_totalQuantity : Q;
  b_activities : list (string * Z);
  b_avgMood : Q;
  b_moodCounts : list (string * Z)
}.

Definition bucket0 (key : Z) : Bucket := mkBucket key 0 0 [] 0 [].

(** The body of the [forEach] on the bucket of the entry. *)
Definition addEntry (entry : HabitEntry) (b : Bucket) : Bucket :=
  let count := b_count b + 1 in
  let totalQuantity := match quantity entry with
                       | Some q => (b_totalQuantity b + q)%Q
                       | None => b_totalQuantity b
                       end in
  let activities := if Js.truthy (Some (activity entry))
                    then Js.increment (activity entry) (b_activities b)
                    else b_activities b in
  match mood entry with
  | Some m =>
      if Js.truthy (Some m) then
        let score := scoreOr3 m in
        mkBucket (b_date b) count totalQuantity activities
          ((b_avgMood b * inject_Z (count - 1) + inject_Z score)
           / inject_Z count)%Q
          (Js.increment m (b_moodCounts b))
      else mkBucket (b_date b) count totalQuantity activities (b_avgMood b)
             (b_moodCounts b)
  | None => mkBucket (b_date b) count totalQuantity activities (b_avgMood b)
              (b_moodCounts b)
  end.

Definition grouped (z : Time.Zone) (groupBy : string) (entries : list HabitEntry)
  : list (Z * Bucket) :=
  fold_left
    (fun g entry =>
       let key := periodKey z groupBy (date entry) in
       Js.update Z.eqb (bucket0 key) (addEntry entry) key g)
    entries [].

Definition groupEntriesByPeriod (z : Time.Zone) (entries : list HabitEntry)
    (groupBy : string) : list Bucket :=
  Js.sortBy (fun a b => b_date a <=? b_date b)
    (map snd (grouped z groupBy entries)).

(** *** Streaks *)

Record Streaks := mkStreaks { current : Z; longest : Z; totalDays : Z }.

(** The first loop: at most [bound] steps from step [i], stopping at the
    first day that is not in [dates]. *)
Fixpoint currentLoop (dates : list Z) (z : Time.Zone) (now : Z)
    (i : Z) (bound : nat) : Z :=
  match bound with
  | O => 0
  | S bound' =>
      if existsb (Z.eqb (Time.checkDay z now i)) dates
      then 1 + currentLoop dates z now (i + 1) bound'
      else 0
  end.

(** The second loop, from index 1: [prev] is [dates[i - 1]]. *)
Fixpoint longestLoop (prev tempStreak longestStreak : Z) (rest : list Z) : Z :=
  match rest with
  | [] => longestStreak
  | curr :: rest' =>
      let tempStreak' := if prev - curr =? 1 then tempStreak + 1 else 1 in
      longestLoop curr tempStreak' (Z.max longestStreak tempStreak') rest'
  end.

Definition calculateStreaks (z : Time.Zone) (now : Z) (entries : list HabitEntry)
  : Streaks :=
  let dates :=
    rev (Js.sortBy Z.leb
           (Js.distinct Z.eqb (map (fun e => Time.utcDay (date e)) entries))) in
  let currentStreak := currentLoop dates z now 0 (List.length dates) in
  let longestStreak := match dates with
                       | [] => 0
                       | d0 :: rest => longestLoop d0 1 (Z.max 0 1) rest
                       end in
  mkStreaks currentStreak longestStreak (Z.of_nat (List.length dates)).

End Stats.

(** ** Parse route: the fallback classifier *)

Module Parse.

Record ParsedHabit := mkParsed {
  p_activity : string;
  p_category : option string;
  p_quantity : option Q;
  p_unit : option string;
  p_mood : option string;
  p_sentiment : string;
  p_notes : option string;
  p_tags : list string;
  p_type : option string;
  p_trigger : option string;
  p_context : option (option string)
}.

(** [p_context] tells a missing property from a [null] one: it is [None]
    for an object without a [context] property, as the fallback
    classifier returns it, and [Some None] for [context: null]. *)

Record Rule := mkRule {
  patterns : list string;
  rule_activity : string;
  rule_type : string;
  rule_category : string;
  moodHint : option string;
  rule_sentiment : string
}.

Definition behaviorPatterns : list Rule :=
  [
    mkRule ["skip school"; "skipped school"; "don't go to school"; "miss school"; "missed school"]
      "skip school" "negative behavior" "education" (Some "guilty") "negative";
    mkRule ["skip work"; "skipped work"; "miss work"; "missed work"; "didn't go to work"]
      "skip work" "negative behavior" "work" (Some "guilty") "negative";
    mkRule ["skip class"; "skipped class"; "miss class"]
      "skip class" "negative behavior" "education" (Some "guilty") "negative";
    mkRule ["procrastinate"; "procrastinated"; "putting off"; "avoiding work"; "didn't do"]
      "procrastinate" "negative behavior" "productivity" (Some "frustrated") "negative";
    mkRule ["stayed up"; "stay up"; "up all night"; "couldn't sleep"; "insomnia"]
      "sleep late" "negative behavior" "sleep" (Some "tired") "negative";
    mkRule ["oversleep"; "overslept"; "slept in"; "slept through"]
      "oversleep" "negative behavior" "sleep" (Some "groggy") "negative";
    mkRule ["doom scroll"; "doom scrolling"; "scrolling all night"]
      "doom scroll" "negative behavior" "habits" (Some "regretful") "negative";
    mkRule ["binge eat"; "binge eating"; "overeat"; "ate too much"; "stuff myself"]
      "binge eat" "negative behavior" "nutrition" (Some "disgusted") "negative";
    mkRule ["skip meal"; "skipped meal"; "didn't eat"; "forgot to eat"]
      "skip meal" "negative behavior" "nutrition" (Some "tired") "negative";
    mkRule ["argue"; "argument"; "argued with"; "fight with"; "fought with"]
      "argue" "negative behavior" "relationships" (Some "angry") "negative";
    mkRule ["ghost"; "ghosted"; "ignore"; "ignored"]
      "ignore someone" "negative behavior" "relationships" (Some "guilty") "negative";
    mkRule ["yell"; "yelled"; "shout"; "shouted"; "scream"; "screamed"]
      "yell" "negative behavior" "relationships" (Some "angry") "negative";
    mkRule ["smoke"; "smoked"; "had a cigarette"; "vape"]
      "smoke" "negative behavior" "health" (Some "guilty") "negative";
    mkRule ["drink too much"; "got drunk"; "binge drink"; "hungover"]
      "drink alcohol" "negative behavior" "health" (Some "regretful") "negative";
    mkRule ["panic attack"; "anxiety attack"; "panic"]
      "panic attack" "emotional event" "mental health" (Some "anxious") "negative";
    mkRule ["cry"; "cried"; "crying"; "breakdown"]
      "cry" "emotional event" "mental health" (Some "sad") "negative";
    mkRule ["depressed"; "depression"; "hopeless"]
      "feel depressed" "emotional event" "mental health" (Some "sad") "negative";
    mkRule ["mom mad"; "mom angry"; "mom yelled"; "mother angry"; "mastiffs on me"; "parent angry"; "parents mad"]
      "family conflict" "negative behavior" "family" (Some "stressed") "negative";
    mkRule ["dad mad"; "dad angry"; "father angry"; "father mad"]
      "family conflict" "negative behavior" "family" (Some "stressed") "negative";
    mkRule ["grounded"; "in trouble"; "got in trouble"]
      "get in trouble" "emotional event" "family" (Some "stressed") "negative";
    mkRule ["ran"; "run"; "running"; "jog"; "jogging"]
      "run" "positive habit" "exercise" None "positive";
    mkRule ["walk"; "walking"; "walked"]
      "walk" "positive habit" "exercise" None "positive";
    mkRule ["swim"; "swam"; "swimming"]
      "swim" "positive habit" "exercise" None "positive";
    mkRule ["gym"; "workout"; "work out"; "exercised"; "lift weights"]
      "workout" "positive habit" "exercise" None "positive";
    mkRule ["yoga"; "stretching"; "stretched"]
      "yoga" "positive habit" "mindfulness" None "positive";
    mkRule ["meditat"; "mindful"; "meditation"]
      "meditate" "positive habit" "mindfulness" None "positive";
    mkRule ["journal"; "wrote in journal"; "journaling"]
      "journal" "positive habit" "self care" None "positive";
    mkRule ["read"; "reading"; "studied"; "study"]
      "read" "positive habit" "productivity" None "positive";
    mkRule ["finish"; "finished"; "completed"; "complete"]
      "complete task" "positive habit" "productivity" None "positive";
    mkRule ["clean"; "cleaned"; "tidy"; "organized"]
      "clean" "positive habit" "personal growth" None "positive";
    mkRule ["sleep"; "slept"; "nap"; "napped"]
      "sleep" "positive habit" "sleep" None "neutral";
    mkRule ["water"; "drank water"; "hydration"; "hydrated"]
      "drink water" "positive habit" "hydration" None "positive";
    mkRule ["eat"; "ate"; "food"; "meal"; "salad"; "lunch"; "dinner"; "breakfast"]
      "eat" "positive habit" "nutrition" None "neutral" ].

Definition triggerPatterns : list (list string * string) :=
  [ (["mom"; "mother"; "mom angry"; "mom mad"; "mastiffs on me"], "mom upset");
    (["dad"; "father"], "dad upset");
    (["because"; "cause"; "since"], "stated reason");
    (["deadline"; "due"], "deadline pressure");
    (["tired"; "exhausted"; "no energy"], "fatigue");
    (["stressed"; "anxious"; "worried"], "stress");
    (["bored"; "boring"], "boredom") ].

Definition moodPatterns : list (list string * list string) :=
  [ (["happy"; "great"; "amazing"],
     ["happy"; "great"; "amazing"; "wonderful"; "fantastic"; "awesome"; "excited"; "joy"]);
    (["proud"; "accomplished"],
     ["proud"; "accomplished"; "achieved"; "success"; "finally"; "finished"]);
    (["calm"; "relaxed"],
     ["calm"; "relaxed"; "peaceful"; "serene"; "chill"; "zen"]);
    (["energized"; "motivated"],
     ["energized"; "energetic"; "motivated"; "pumped"; "ready"]);
    (["guilty"; "ashamed"],
     ["guilty"; "ashamed"; "shouldn't"; "bad about"; "regret"; "mastiffs on me"; "mad at me"; "angry at me"]);
    (["stressed"; "anxious"],
     ["stressed"; "anxious"; "worried"; "overwhelmed"; "nervous"; "pressure"]);
    (["sad"; "depressed"],
     ["sad"; "depressed"; "down"; "hopeless"; "crying"; "cry"; "tears"]);
    (["angry"; "frustrated"],
     ["angry"; "frustrated"; "mad"; "furious"; "annoyed"; "irritated"]);
    (["tired"; "exhausted"],
     ["tired"; "exhausted"; "drained"; "sleepy"; "fatigue"]);
    (["disgusted"; "disappointed"],
     ["disgusting"; "disgusted"; "disappointed"; "failure"; "gross"]) ].

Definition positiveWords : list string :=
  ["happy"; "great"; "good"; "amazing"; "wonderful"; "proud"; "accomplished";
   "excited"; "love"; "enjoy"; "finally"; "success"; "achieved"; "feel good";
   "feels good"].

Definition negativeWords : list string :=
  ["bad"; "sad"; "angry"; "mad"; "stressed"; "anxious"; "worried"; "guilty";
   "ashamed"; "fail"; "failure"; "disgusting"; "hate"; "terrible"; "awful";
   "horrible"; "mastiffs on me"; "conflict"; "argue"; "skip";
   "procrastinate"; "panic"; "cry"].

(** *** Inference helpers *)

Definition inferMoodFromText (text : string) : string :=
  let lower := Js.toLowerCase text in
  match find (fun mp => Js.someIncluded lower (snd mp)) moodPatterns with
  | Some mp => hd "" (fst mp)
  | None => "neutral"
  end.

Definition inferSentimentFromText (text : string) : string :=
  let lower := Js.toLowerCase text in
  let positiveCount := Js.count (Js.includes lower) positiveWords in
  let negativeCount := Js.count (Js.includes lower) negativeWords in
  if positiveCount <? negativeCount then "negative"
  else if negativeCount <? positiveCount then "positive"
  else "neutral".

(** [if (cond) tags.push(tag)] in sequence. *)
Definition extractTags (text : string) : list string :=
  let lower := Js.toLowerCase text in
  let has := Js.includes lower in
  let tag (c : bool) (t : string) : list string := if c then [t] else [] in
  (tag (has "morning") "morning"
   ++ tag (has "afternoon") "afternoon"
   ++ tag (has "evening" || has "night") "evening"
   ++ tag (has "today") "today"
   ++ tag (has "yesterday") "yesterday"
   ++ tag (has "weekend") "weekend"
   ++ tag (has "home") "home"
   ++ tag (has "school") "school"
   ++ tag (has "work") "work"
   ++ tag (has "gym") "gym"
   ++ tag (has "outdoor" || has "outside") "outdoor"
   ++ tag (has "alone" || has "by myself") "alone"
   ++ tag (has "family" || has "mom" || has "dad") "family"
   ++ tag (has "friend") "friends"
   ++ tag (has "group") "group"
   ++ tag (has "recurring" || has "again" || has "still") "recurring"
   ++ tag (has "first time" || has "finally") "milestone")%list.

Definition inferCategoryFromActivity (activity : string) : string :=
  let lower := Js.toLowerCase activity in
  let has := Js.includes lower in
  if has "run" || has "gym" || has "workout" || has "swim" then "exercise"
  else if has "eat" || has "food" then "nutrition"
  else if has "sleep" || has "nap" then "sleep"
  else if has "meditat" || has "yoga" then "mindfulness"
  else if has "read" || has "study" then "education"
  else if has "argue" || has "conflict" then "relationships"
  else if has "skip" || has "procrastinate" then "productivity"
  else if has "school" || has "class" then "education"
  else if has "work" then "work"
  else if has "cry" || has "panic" || has "anxiety" then "mental health"
  else "habits".

(** *** The quantity pattern

    [/(\d+(?:\.\d+)?)\s*(km|mi|miles|minutes?|...)/i] on the lower-cased
    text.  Nothing follows the unit group, so at a given start the greedy
    choices decide the match, and the first alternative that is a prefix
    of the rest wins.  [\s] is taken over the ASCII white space. *)

Definition isDigit (c : ascii) : bool :=
  let n := nat_of_ascii c in (Nat.leb 48 n && Nat.leb n 57)%bool.

Definition isSpace (c : ascii) : bool :=
  let n := nat_of_ascii c in
  (Nat.eqb n 32 || (Nat.leb 9 n && Nat.leb n 13))%bool.

(** The longest prefix of characters that satisfy [p], and the rest. *)
Fixpoint span (p : ascii -> bool) (s : string) : string * string :=
  match s with
  | EmptyString => (EmptyString, EmptyString)
  | String c s' =>
      if p c then let '(a, b) := span p s' in (String c a, b)
      else (EmptyString, s)
  end.

(** The alternatives of the unit group in the order the pattern tries
    them; an optional last letter is tried present first. *)
Definition unitAlternatives : list string :=
  [ "km"; "mi"; "miles"; "minutes"; "minute"; "mins"; "min"; "hours"; "hour";
    "hrs"; "hr"; "pages"; "page"; "glasses"; "glasse"; "times"; "time";
    "reps"; "rep"; "sets"; "set"; "cups"; "cup"; "days"; "day"; "weeks";
    "week" ].

Definition matchUnit (s : string) : option string :=
  find (fun u => String.prefix u s) unitAlternatives.

(** The value of a digit string, most significant digit first. *)
Fixpoint digitsValue (acc : Z) (s : string) : Z :=
  match s with
  | EmptyString => acc
  | String c s' => digitsValue (10 * acc + Z.of_nat (nat_of_ascii c - 48)) s'
  end.

(** [parseFloat] of [int] or [int.frac]: the number the digits write.
    [parseFloat] gives the double nearest to it, which is the number
    itself for a whole number up to 2^53. *)
Definition parseFloat (int frac : string) : Q :=
  (inject_Z (digitsValue 0 int)
   + inject_Z (digitsValue 0 frac)
     / inject_Z (10 ^ Z.of_nat (String.length frac)))%Q.

(** The match that starts at the first character of [s], if any: the two
    capture groups as (number, unit). *)
Definition matchQuantityHere (s : string) : option (Q * string) :=
  let '(int, rest) := span isDigit s in
  match int with
  | EmptyString => None
  | _ =>
      let withFraction :=
        match rest with
        | String "." rest1 =>
            let '(frac, rest2) := span isDigit rest1 in
            match frac with
            | EmptyString => None
            | _ => match matchUnit (snd (span isSpace rest2)) with
                   | Some u => Some (parseFloat int frac, u)
                   | None => None
                   end
            end
        | _ => None
        end in
      match withFraction with
      | Some m => Some m
      | None => match matchUnit (snd (span isSpace rest)) with
                | Some u => Some (parseFloat int EmptyString, u)
                | None => None
                end
      end
  end.

(** [lowerText.match(quantityRegex)]: the leftmost match. *)
Fixpoint matchQuantity (s : string) : option (Q * string) :=
  match matchQuantityHere s with
  | Some m => Some m
  | None => match s with
            | EmptyString => None
            | String _ s' => matchQuantity s'
            end
  end.

Definition canonicalUnit (u : string) : string :=
  let u1 := if String.eqb u "min" || String.eqb u "mins" then "minutes" else u in
  let u2 := if String.eqb u1 "hr" || String.eqb u1 "hrs" then "hours" else u1 in
  if String.eqb u2 "mi" then "miles" else u2.

(** *** enhancedFallbackParse *)

Definition ruleMatches (lowerText : string) (r : Rule) : bool :=
  Js.someIncluded lowerText (patterns r).

Definition orNull (o : option string) : option string :=
  if Js.truthy o then o else None.

Definition enhancedFallbackParse (text : string) : ParsedHabit :=
  let lowerText := Js.toLowerCase text in
  let '(detectedActivity, detectedType, detectedCategory, detectedMood,
        detectedSentiment) :=
    match find (ruleMatches lowerText) behaviorPatterns with
    | Some pattern =>
        (rule_activity pattern, rule_type pattern, rule_category pattern,
         moodHint pattern, rule_sentiment pattern)
    | None =>
        ("unspecified activity", "neutral activity", "habits", None, "neutral")
    end in
  let detectedTrigger :=
    option_map snd
      (find (fun tp => Js.someIncluded lowerText (fst tp)) triggerPatterns) in
  let '(quantity, unit) :=
    match matchQuantity lowerText with
    | Some (q, u) => (Some q, Some (canonicalUnit u))
    | None => (None, None)
    end in
  let detectedMood' :=
    if Js.truthy detectedMood then detectedMood
    else Some (inferMoodFromText text) in
  let detectedSentiment' :=
    if String.eqb detectedSentiment "neutral" then inferSentimentFromText text
    else detectedSentiment in
  let tags := extractTags text in
  mkParsed detectedActivity (Some detectedCategory) quantity unit
    (orNull detectedMood') detectedSentiment'
    (option_map (fun t => "Trigger: " ++ t) detectedTrigger)
    tags (Some detectedType) detectedTrigger None.

(** *** parseHabitText on the paths that end in the fallback

    Every failure of the oracle inside the outer [try] (the client cannot
    be created, the completion call throws, the response is empty) reaches
    the outer [catch]; a response without a parsable JSON object reaches
    the inner [catch], whose result passes through the defaults of the
    [return].  The path on which the JSON parses is not part of this
    development. *)
Inductive OracleFailure := OracleThrew | ResponseNotJson.

(** [o || d] on strings. *)
Definition orElse (o : option string) (d : string) : string :=
  match o with
  | Some v => if Js.truthy o then v else d
  | None => d
  end.

Definition parseHabitText (failure : OracleFailure) (text : string)
  : ParsedHabit :=
  match failure with
  | OracleThrew => enhancedFallbackParse text
  | ResponseNotJson =>
      let parsed := enhancedFallbackParse text in
      mkParsed
        (orElse (Some (p_activity parsed)) "unspecified activity")
        (Some (orElse (p_category parsed)
                 (inferCategoryFromActivity
                    (orElse (Some (p_activity parsed)) text))))
        (p_quantity parsed)
        (orNull (p_unit parsed))
        (Some (orElse (p_mood parsed) (inferMoodFromText text)))
        (orElse (Some (p_sentiment parsed)) (inferSentimentFromText text))
        (orNull (p_notes parsed))
        (p_tags parsed)
        (Some (orElse (p_type parsed) "neutral activity"))
        (orNull (p_trigger parsed))
        (Some (orNull (match p_context parsed with
                       | Some context => context
                       | None => None
                       end)))
  end.

(** A rule names its activity, type and category and carries one of the
    three sentiments. *)
Definition wellFormedRule (r : Rule) : bool :=
  negb (String.eqb (rule_activity r) "")
  && negb (String.eqb (rule_type r) "")
  && negb (String.eqb (rule_category r) "")
  && (String.eqb (rule_sentiment r) "positive"
      || String.eqb (rule_sentiment r) "neutral"
      || String.eqb (rule_sentiment r) "negative").

End Parse.

(** ** Habit-stacks route *)

Module Stacks.

Record Suggestion := mkSuggestion {
  triggerHabit : string;
  linkedHabit : string;
  strength : Z;
  tip : string
}.

(** The [findMany] of the miner: entries from [thirtyDaysAgo] on whose
    type mentions ['positive'], in ascending date order.  [thirtyDaysAgo]
    is the instant the route computes from the clock, the time of the
    request moved back thirty calendar days in local time.  The filter
    [contains] is taken as [includes], and entries of equal date keep
    their stored order. *)
Definition recentPositive (thirtyDaysAgo : Z) (stored : list HabitEntry)
  : list HabitEntry :=
  Js.sortBy (fun a b => date a <=? date b)
    (filter (fun e => (thirtyDaysAgo <=? date e)
                      && Js.optIncludes (type e) "positive")
       stored).

(** [dayGroups]: the activities logged on each UTC day. *)
Definition dayGroups (entries : list HabitEntry) : list (Z * list string) :=
  fold_left
    (fun groups entry =>
       Js.update Z.eqb []
         (fun acts => if Js.truthy (Some (activity entry))
                      then (acts ++ [activity entry])%list else acts)
         (Time.utcDay (date entry)) groups)
    entries [].

Definition CoOccurrences := list (string * list (string * Z)).

(** [if (!coOccurrences[a]) coOccurrences[a] = {}]. *)
Definition ensure (a : string) (co : CoOccurrences) : CoOccurrences :=
  if Js.has String.eqb a co then co else (co ++ [(a, [])])%list.

(** The body of the inner loop on the pair [a1], [a2]. *)
Definition countPair (a1 : string) (co : CoOccurrences) (a2 : string)
  : CoOccurrences :=
  let co := ensure a2 (ensure a1 co) in
  let co := Js.alter String.eqb (Js.increment a2) a1 co in
  Js.alter String.eqb (Js.increment a1) a2 co.

(** The two nested loops over [i < j]. *)
Fixpoint countPairs (uniqueActivities : list string) (co : CoOccurrences)
  : CoOccurrences :=
  match uniqueActivities with
  | [] => co
  | a1 :: rest => countPairs rest (fold_left (countPair a1) rest co)
  end.

(** One day of the [forEach] over [Object.values(dayGroups)]; the state is
    [(coOccurrences, activityCounts)]. *)
Definition countDay (st : CoOccurrences * list (string * Z))
    (activities : list string) : CoOccurrences * list (string * Z) :=
  let uniqueActivities := Js.distinct String.eqb activities in
  (countPairs uniqueActivities (fst st),
   fold_left (fun counts a => Js.increment a counts) uniqueActivities (snd st)).

Definition countAll (groups : list (Z * list string))
  : CoOccurrences * list (string * Z) :=
  fold_left countDay (map snd groups) ([], []).

(** The co-occurrence table keeps distinct keys, in the table and in
    every row. *)
Definition tableOk (co : CoOccurrences) : Prop :=
  NoDup (map fst co) /\ Forall (fun row => NoDup (map fst (snd row))) co.

(** [counts[a] || 0], and [(coOccurrences[a] || {})[b] || 0]. *)
Definition countOf (counts : list (string * Z)) (a : string) : Z :=
  match Js.get String.eqb a counts with
  | Some n => n
  | None => 0
  end.

Definition coCountOf (co : CoOccurrences) (a b : string) : Z :=
  match Js.get String.eqb a co with
  | Some row => countOf row b
  | None => 0
  end.

(** [activityCounts[a] || 1]. *)
Definition countOr1 (counts : list (string * Z)) (a : string) : Z :=
  match Js.get String.eqb a counts with
  | Some n => if n =? 0 then 1 else n
  | None => 1
  end.

Definition quote : string := String (ascii_of_nat 34) EmptyString.

Definition tipFor (activity coActivity : string) : string :=
  "After you " ++ quote ++ activity ++ quote ++ ", you often do "
  ++ quote ++ coActivity ++ quote
  ++ ". Stack these for better consistency!".

(** The suggestions pushed for one activity and its co-activities. *)
Definition suggestFor (counts : list (string * Z))
    (row : string * list (string * Z)) : list Suggestion :=
  let '(activity, coActs) := row in
  flat_map
    (fun '(coActivity, count) =>
       let strength :=
         Js.div count (Z.min (countOr1 counts activity)
                         (countOr1 counts coActivity)) in
       if Qle_bool (1 # 2) strength && (2 <=? count)
       then [mkSuggestion activity coActivity
               (Js.Math_round (strength * 100))
               (tipFor activity coActivity)]
       else [])
    coActs.

(** [[a, b].sort().join('-')]. *)
Definition pairKey (s : Suggestion) : string :=
  if String.ltb (linkedHabit s) (triggerHabit s)
  then linkedHabit s ++ "-" ++ triggerHabit s
  else triggerHabit s ++ "-" ++ linkedHabit s.

(** The [filter] with the [seenPairs] set. *)
Fixpoint dropSeen (seenPairs : list string) (l : list Suggestion)
  : list Suggestion :=
  match l with
  | [] => []
  | s :: l' =>
      if Js.arrayIncludes seenPairs (pairKey s) then dropSeen seenPairs l'
      else s :: dropSeen (seenPairs ++ [pairKey s])%list l'
  end.

(** The candidates pushed to [suggestions], in push order. *)
Definition candidates (entries : list HabitEntry) : list Suggestion :=
  let '(coOccurrences, activityCounts) := countAll (dayGroups entries) in
  flat_map (suggestFor activityCounts) coOccurrences.

(** [stored] is the table of entries, [thirtyDaysAgo] the start of the
    window. *)
Definition generateStackingSuggestions (thirtyDaysAgo : Z)
    (stored : list HabitEntry) : list Suggestion :=
  let entries := recentPositive thirtyDaysAgo stored in
  if Z.of_nat (List.length entries) <? 3 then []
  else
    firstn 5
      (dropSeen []
         (Js.sortBy (fun a b => strength b <=? strength a)
            (candidates entries))).

End Stacks.

(** ** Habits route: creating an entry *)

Module Habits.

(** *** The store and the effects of a request

    A request runs against the store, counts its calls to the database
    and appends to the console.  [faults n] says that the [n]-th database
    call of the request throws; a call that throws leaves the store as it
    was. *)
Record World := mkWorld {
  entries : list HabitEntry;
  goals : list Goal;
  calls : nat;
  console : list string
}.

Inductive Outcome (A : Type) :=
| Returned (a : A)
| Thrown (error : string).
Arguments Returned {A} a.
Arguments Thrown {A} error.

Definition M (A : Type) : Type := World -> World * Outcome A.

Definition ret {A} (a : A) : M A := fun w => (w, Returned a).

Definition bind {A B} (m : M A) (k : A -> M B) : M B :=
  fun w => match m w with
           | (w', Returned a) => k a w'
           | (w', Thrown e) => (w', Thrown e)
           end.

Notation "x <- m ;; k" := (bind m (fun x => k))
  (at level 61, m at next level, right associativity).
Notation "m ;;; k" := (bind m (fun _ => k))
  (at level 61, right associativity).

(** [try { m } catch (error) { handler }]. *)
Definition tryCatch {A} (m : M A) (handler : string -> M A) : M A :=
  fun w => match m w with
           | (w', Returned a) => (w', Returned a)
           | (w', Thrown e) => handler e w'
           end.

(** [console.error(line, error)]. *)
Definition consoleError (line : string) : M Datatypes.unit :=
  fun w => (mkWorld (entries w) (goals w) (calls w) (console w ++ [line])%list,
            Returned tt).

Section Database.
Variable faults : nat -> bool.

(** A database call: it throws when the fault plan says so, and runs
    [op] on the store otherwise. *)
Definition dbCall {A}
    (op : list HabitEntry -> list Goal -> list HabitEntry * list Goal * A)
  : M A :=
  fun w =>
    if faults (calls w) then
      (mkWorld (entries w) (goals w) (S (calls w)) (console w),
       Thrown "database error")
    else
      let '(es, gs, a) := op (entries w) (goals w) in
      (mkWorld es gs (S (calls w)) (console w), Returned a).

(** [contains] in mode [insensitive]. *)
Definition containsInsensitive (field value : string) : bool :=
  Js.includes (Js.toLowerCase field) (Js.toLowerCase value).

Definition goalFindMany (activity : string) : M (list Goal) :=
  dbCall (fun es gs =>
            (es, gs,
             filter (fun g => containsInsensitive (goal_activity g) activity
                              && isActive g) gs)).

Definition entryFindMany (wanted : string) (startDate endDate : Z)
  : M (list HabitEntry) :=
  dbCall (fun es gs =>
            (es, gs,
             filter (fun e => containsInsensitive (activity e) wanted
                              && (startDate <=? date e)
                              && (date e <=? endDate)) es)).

Definition goalUpdate (id : nat) (value : Q) : M Datatypes.unit :=
  dbCall (fun es gs =>
            (es,
             map (fun g => if Nat.eqb (goal_id g) id
                           then mkGoal (goal_id g) (goal_activity g)
                                  (targetValue g) value (period g)
                                  (isActive g)
                           else g) gs,
             tt)).

(** The fields of the request body the route reads; a field is [None]
    when it is absent or falsy.  [b_quantity] is the number that
    [parseFloat(quantity)] yields. *)
Record Body := mkBody {
  b_rawText : option string;
  b_activity : option string;
  b_type : option string;
  b_category : option string;
  b_quantity : option Q;
  b_unit : option string;
  b_mood : option string;
  b_sentiment : option string;
  b_trigger : option string;
  b_notes : option string;
  b_tags : option string;
  b_date : option Z
}.

Definition truthyNumber (q : option Q) : bool :=
  match q with
  | Some v => negb (Qeq_bool v 0)
  | None => false
  end.

(** [db.habitEntry.create]: the stored record gets a fresh id. *)
Definition entryCreate (data : nat -> HabitEntry) : M HabitEntry :=
  dbCall (fun es gs =>
            let habit := data (List.length es) in
            ((es ++ [habit])%list, gs, habit)).

(** *** updateGoalProgress *)

(** The period windows at [now], the time that [updateGoalProgress] reads
    from the clock, in a zone without clock changes. *)
Definition dayWindow (z : Time.Zone) (now : Z) : Z * Z :=
  let start := Time.localMidnight z now in
  (start, start + Time.msPerDay - 1).

Definition weekWindow (z : Time.Zone) (now : Z) : Z * Z :=
  let startOfWeek := now - Time.getDay z now * Time.msPerDay in
  (startOfWeek, startOfWeek + 6 * Time.msPerDay).

Definition monthWindow (z : Time.Zone) (now : Z) : Z * Z :=
  let today := Time.localDay z now in
  let '(_, m, d) := Time.civil today in
  let first := Time.localMidnight z now - (d - 1) * Time.msPerDay in
  let extra :=
    Js.count (fun j => let '(_, m', _) := Time.civil (today - (d - 1) + j) in
                       m' =? m) [28; 29; 30] in
  (first, first + (27 + extra) * Time.msPerDay).

Definition sumQuantity (es : list HabitEntry) : Q :=
  fold_left (fun sum entry =>
               match quantity entry with
               | Some q => (sum + q)%Q
               | None => (sum + 0)%Q
               end) es 0%Q.

(** One turn of the loop over the goals. *)
Definition updateGoal (z : Time.Zone) (now : Z) (activity : string)
    (goal : Goal) : M Datatypes.unit :=
  let window :=
    if String.eqb (period goal) "daily" then Some (dayWindow z now)
    else if String.eqb (period goal) "weekly" then Some (weekWindow z now)
    else if String.eqb (period goal) "monthly" then Some (monthWindow z now)
    else None in
  match window with
  | None => ret tt
  | Some (startDate, endDate) =>
      found <- entryFindMany activity startDate endDate ;;
      goalUpdate (goal_id goal) (sumQuantity found)
  end.

Fixpoint forEachGoal (f : Goal -> M Datatypes.unit) (gs : list Goal) : M Datatypes.unit :=
  match gs with
  | [] => ret tt
  | g :: gs' => f g ;;; forEachGoal f gs'
  end.

(** The [try] block of [updateGoalProgress]. *)
Definition updateGoalProgressTry (z : Time.Zone) (now : Z) (activity : string)
  : M Datatypes.unit :=
  found <- goalFindMany activity ;;
  forEachGoal (updateGoal z now activity) found.

Definition updateGoalProgress (z : Time.Zone) (now : Z) (activity : string)
    (quantity : Q) : M Datatypes.unit :=
  tryCatch (updateGoalProgressTry z now activity)
    (fun _ => consoleError "Error updating goal progress:").

(** *** POST *)

Inductive Response :=
| Success (data : HabitEntry)
| Failure (status : Z) (error : string).

Definition newEntry (now : Z) (body : Body) (rawText activity : string)
    (id : nat) : HabitEntry :=
  mkEntry id rawText activity
    (Parse.orNull (b_type body)) (Parse.orNull (b_category body))
    (if truthyNumber (b_quantity body) then b_quantity body else None)
    (Parse.orNull (b_unit body)) (Parse.orNull (b_mood body))
    (Parse.orNull (b_sentiment body)) (Parse.orNull (b_trigger body))
    (Parse.orNull (b_notes body)) (b_tags body)
    (match b_date body with Some d => d | None => now end).

(** [body] is [None] when [request.json()] throws.  [now] stands for the
    two readings of the clock, the default date of the entry and the time
    of the progress update; they are one instant when the body gives the
    date. *)
Definition POST (z : Time.Zone) (now : Z) (body : option Body) : M Response :=
  tryCatch
    (match body with
     | None => fun w => (w, Thrown "invalid JSON")
     | Some body =>
         match b_rawText body, b_activity body with
         | Some rawText, Some activity =>
             if Js.truthy (Some rawText) && Js.truthy (Some activity) then
               habit <- entryCreate (newEntry now body rawText activity) ;;
               (match b_quantity body with
                | Some q =>
                    if truthyNumber (Some q)
                    then updateGoalProgress z now activity q
                    else ret tt
                | None => ret tt
                end) ;;;
               ret (Success habit)
             else ret (Failure 400 "rawText and activity are required")
         | _, _ => ret (Failure 400 "rawText and activity are required")
         end
     end)
    (fun _ =>
       consoleError "Error creating habit:" ;;;
       ret (Failure 500 "Failed to create habit entry")).

End Database.

(** A computation that, whatever its outcome, leaves the stored entries
    and the console as they were. *)
Definition quiet {A} (m : M A) : Prop :=
  forall w, entries (fst (m w)) = entries w
            /\ console (fst (m w)) = console w.

End Habits.

(** ** The quantities the specification speaks of

    These definitions follow the words of the specification, not the
    code; the theorems compare the routes with them. *)

Module Spec.

(** The scores of the entries that carry a mood label, under a lookup
    that gives a default to the labels it does not know. *)
Definition labelledScores (score : string -> Z) (es : list HabitEntry)
  : list Z :=
  flat_map (fun e => match mood e with
                     | Some m => if Js.truthy (Some m) then [score m] else []
                     | None => []
                     end) es.

Definition total (xs : list Z) : Z := fold_right Z.add 0 xs.

(** The arithmetic mean. *)
Definition mean (xs : list Z) : Q := Js.div (total xs) (Z.of_nat (List.length xs)).

(** The mean mood of a local day over all its entries that carry a mood
    label, unknown labels scoring 3, to one decimal. *)
Definition dayMoodAverage (z : Time.Zone) (entries : list HabitEntry) (day : Z)
  : Q :=
  Js.round1
    (mean (labelledScores Heatmap.scoreOr3
             (filter (fun e => Time.localDay z (date e) =? day) entries))).

(** The mean mood of a trend bucket over its entries that carry a mood. *)
Definition bucketMoodMean (z : Time.Zone) (groupBy : string)
    (entries : list HabitEntry) (key : Z) : Q :=
  mean (labelledScores Stats.scoreOr3
          (filter (fun e => Stats.periodKey z groupBy (date e) =? key) entries)).

(** The scores of the entries whose mood label the heatmap lookup lists. *)
Definition knownScores (es : list HabitEntry) : list Z :=
  flat_map (fun e => match mood e with
                     | Some m => match Heatmap.scoreOf m with
                                 | Some v => [v]
                                 | None => []
                                 end
                     | None => []
                     end) es.

(** The three classes of the point table. *)
Definition isPositive (e : HabitEntry) : bool := Js.optIncludes (type e) "positive".
Definition isNegative (e : HabitEntry) : bool :=
  negb (isPositive e) && Js.optIncludes (type e) "negative".
Definition isOther (e : HabitEntry) : bool :=
  negb (isPositive e) && negb (isNegative e).

(** Some entry falls on the UTC day [d]. *)
Definition hasEntryOn (entries : list HabitEntry) (d : Z) : Prop :=
  exists e, In e entries /\ Time.utcDay (date e) = d.

(** The days on which the activity [a] was logged, and the counts of the
    habit-stack miner: the number of days with [a], and with both. *)
Definition loggedOn (entries : list HabitEntry) (a : string) (d : Z) : bool :=
  Js.truthy (Some a)
  && existsb (fun e => (Time.utcDay (date e) =? d) && String.eqb (activity e) a)
       entries.

Definition days (entries : list HabitEntry) : list Z :=
  Js.distinct Z.eqb (map (fun e => Time.utcDay (date e)) entries).

Definition totalDayCount (entries : list HabitEntry) (a : string) : Z :=
  Js.count (loggedOn entries a) (days entries).

Definition coOccurrenceCount (entries : list HabitEntry) (a b : string) : Z :=
  Js.count (fun d => loggedOn entries a d && loggedOn entries b d)
    (days entries).

End Spec.

(** ** Sample data *)

Module Sample.

Definition utc : Time.Zone := fun _ => 0.

(** An entry at time [t] with the given activity, type, mood and
    sentiment. *)
Definition entry (t : Z) (act : string) (ty md sn : option string)
  : HabitEntry :=
  mkEntry 0 act act ty None None None md sn None None None t.

(** Noon of the day [d]. *)
Definition noon (d : Z) : Z := d * Time.msPerDay + 12 * Time.msPerHour.

(** Two positive and two negative entries on one day, none neutral. *)
Definition positiveNegativeTie : list HabitEntry :=
  [ entry (noon 100) "run" None None (Some "positive");
    entry (noon 100) "argue" None None (Some "negative");
    entry (noon 100) "walk" None None (Some "positive");
    entry (noon 100) "yell" None None (Some "negative") ].

(** The row the sentiment heatmap reports for that day. *)
Definition tieRow : Heatmap.SentimentRow :=
  Heatmap.mkSentimentRow 100 2 0 2 4 "negative" 50 "#ef4444".

(** One negative and one neutral entry on one day, none positive. *)
Definition negativeNeutralTie : list HabitEntry :=
  [ entry (noon 100) "argue" None None (Some "negative");
    entry (noon 100) "sleep" None None (Some "neutral") ].

(** A known mood and one the heatmap lookup does not list. *)
Definition happyAndGroggy : list HabitEntry :=
  [ entry (noon 100) "run" None (Some "happy") None;
    entry (noon 100) "oversleep" None (Some "groggy") None ].

(** The row the mood heatmap reports for that day. *)
Definition happyRow : Heatmap.MoodRow :=
  Heatmap.mkMoodRow 100 (50 # 10) 1 "happy" "#22c55e" 100.

(** The stats after a first neutral entry, and the badge they earn. *)
Definition firstEntryStats : Gamification.Stats :=
  Gamification.mkStats (Gamification.mkProfile "p" 5 0 0 (Some (noon 100)))
    1 0 0 1 0 0 0 0 0.

Definition firstStepBadge : Gamification.Badge :=
  Gamification.mkBadge "First Step" "Log your first habit" "consistency"
    (Gamification.mkReq (Some 1) None None None None None None None None None
       None None None) "p".

(** Entries on day 100 and on the day before. *)
Definition todayAndYesterday : list HabitEntry :=
  [ entry (noon 99) "walk" None None None;
    entry (noon 100) "run" None None None ].

(** A request that logs a quantified run, and a store with one daily
    goal for it. *)
Definition runBody : Habits.Body :=
  Habits.mkBody (Some "ran 5km") (Some "run") (Some "positive habit")
    (Some "exercise") (Some 5%Q) (Some "km") None (Some "positive") None
    None None None.

Definition oneGoal : Habits.World :=
  Habits.mkWorld [] [mkGoal 0 "run" 10 0 "daily" true] 0 [].

(** A run and a stretch on each of two days, all positive habits. *)
Definition runAndStretch : list HabitEntry :=
  [ entry (noon 100) "run" (Some "positive habit") None None;
    entry (noon 100) "stretch" (Some "positive habit") None None;
    entry (noon 101) "run" (Some "positive habit") None None;
    entry (noon 101) "stretch" (Some "positive habit") None None ].

(** An entry without a mood, then a happy one, on the same day. *)
Definition moodlessThenHappy : list HabitEntry :=
  [ entry (noon 100) "walk" None None None;
    entry (noon 100) "run" None (Some "happy") None ].

(** A zone six hours ahead of UTC all year (Asia/Dhaka). *)
Definition dhaka : Time.Zone := fun _ => 6 * Time.msPerHour.

(** The instant at which a clock of [dhaka] shows the hour [h] of the
    day [d]. *)
Definition dhakaTime (d h : Z) : Z :=
  d * Time.msPerDay + h * Time.msPerHour - 6 * Time.msPerHour.

(** Day 20760 is 2026-11-03.  A request at ten in the morning of that day
    in [dhaka], an entry logged at nine that morning and one logged at
    nine the morning before. *)
Definition tenOClock : Z := dhakaTime 20760 10.

Definition loggedToday : HabitEntry :=
  entry (dhakaTime 20760 9) "run" None None None.

Definition loggedYesterday : HabitEntry :=
  entry (dhakaTime 20759 9) "walk" None None None.

(** Two pairs of activities whose names join to one pair key: 'cool' and
    'down-stretch' on 2026-10-30 and 2026-10-31, 'cool-down' and 'stretch'
    on 2026-11-01 and 2026-11-02, all positive habits. *)
Definition twoCoolDowns : list HabitEntry :=
  [ entry (noon 20756) "cool" (Some "positive habit") None None;
    entry (noon 20756) "down-stretch" (Some "positive habit") None None;
    entry (noon 20757) "cool" (Some "positive habit") None None;
    entry (noon 20757) "down-stretch" (Some "positive habit") None None;
    entry (noon 20758) "cool-down" (Some "positive habit") None None;
    entry (noon 20758) "stretch" (Some "positive habit") None None;
    entry (noon 20759) "cool-down" (Some "positive habit") None None;
    entry (noon 20759) "stretch" (Some "positive habit") None None ].

(** The start of the window of a request on 2026-11-03: 2026-10-04. *)
Definition windowStart : Z := noon 20730.

End Sample.

(** ** Invariants and closed forms

    What the theorems below say about the loops of the routes: the
    statements that the turns of a loop keep, and the closed forms that a
    loop is compared with.  None of these is a function of the source;
    each names the code it speaks of. *)

Module Inv.

(** What every turn of the loop over the entries keeps, [n] being the
    number of entries seen. *)
Definition talliesBounded (t : Gamification.Totals) (n : Z) : Prop :=
  0 <= Gamification.t_positive t /\ 0 <= Gamification.t_negative t
  /\ Gamification.t_positive t + Gamification.t_negative t <= n
  /\ Z.of_nat (List.length (Gamification.t_dates t)) <= n
  /\ Z.of_nat (List.length (Gamification.t_activities t)) <= n
  /\ Z.of_nat (List.length (Gamification.t_categories t)) <= n
  /\ 0 <= Gamification.t_mood t <= n
  /\ 0 <= Gamification.t_morning t /\ 0 <= Gamification.t_evening t
  /\ Gamification.t_morning t + Gamification.t_evening t <= n.

(** What the loop of [checkForNewBadges] grants: the name is not stored
    yet and the requirement is earned. *)
Definition grantable (existingBadgeIds : list string)
    (stats : Gamification.Stats) (badge : Gamification.BadgeDef) : bool :=
  negb (Js.arrayIncludes existingBadgeIds (Gamification.def_name badge))
  && Gamification.earned (Gamification.def_requirement badge) stats.

(** What the guarded update keeps of a day of the mood view: every score
    added is between 1 and 5. *)
Definition moodDayInRange (d : Heatmap.MoodDay) : Prop :=
  0 <= Heatmap.md_count d
  /\ Heatmap.md_count d <= Heatmap.md_score d <= 5 * Heatmap.md_count d
  /\ Heatmap.md_count d = Z.of_nat (List.length (Heatmap.md_moods d)).

(** The mood labels of the entries that the guarded update pushes: those
    the score table of the heatmap lists. *)
Definition knownMoods (es : list HabitEntry) : list string :=
  flat_map (fun e => match mood e with
                     | Some m => if Js.truthy (Some m)
                                 then match Heatmap.scoreOf m with
                                      | Some _ => [m]
                                      | None => []
                                      end
                                 else []
                     | None => []
                     end) es.

(** What a day of the sentiment view keeps: the three counters are
    non-negative and together within the total, which is at least [lo]. *)
Definition sentimentDayBounded (lo : Z) (d : Heatmap.SentimentDay) : Prop :=
  0 <= Heatmap.sd_positive d /\ 0 <= Heatmap.sd_neutral d
  /\ 0 <= Heatmap.sd_negative d
  /\ Heatmap.sd_positive d + Heatmap.sd_neutral d + Heatmap.sd_negative d
       <= Heatmap.sd_total d
  /\ lo <= Heatmap.sd_total d.

(** The quantities of the entries that carry one, and their sum. *)
Definition quantities (es : list HabitEntry) : list Q :=
  flat_map (fun e => match quantity e with Some q => [q] | None => [] end) es.

Definition Qtotal (xs : list Q) : Q := fold_right Qplus 0%Q xs.

(** Entries whose labels are own keys of the objects that count them:
    no mood, activity or category names a member of [Object.prototype]. *)
Definition plainMoods (es : list HabitEntry) : bool :=
  forallb (fun e => match mood e with
                    | Some m => Js.ownKey m
                    | None => true
                    end) es.

Definition plainActivities (es : list HabitEntry) : bool :=
  forallb (fun e => Js.ownKey (activity e)) es.

Definition plainCategories (es : list HabitEntry) : bool :=
  forallb (fun e => match category e with
                    | Some c => Js.ownKey c
                    | None => true
                    end) es.

(** Entries dated in the years 1000 to 9999, by the UTC day and by the
    local day. *)
Definition fourDigitYears (z : Time.Zone) (es : list HabitEntry) : bool :=
  forallb (fun e => Time.fourDigitYear (Time.utcDay (date e))
                    && Time.fourDigitYear (Time.localDay z (date e))) es.

(** Quantities on which the sums of the source are exact: every quantity
    is a whole number that is not negative, and sixty times their sum is
    at most 2^53, so that every sum of some of them, also with hours
    turned into minutes, is a whole number that a double holds
    exactly. *)
Definition wholeQuantities (qs : list Q) : Prop :=
  (forall q, In q qs -> exists n : Z, 0 <= n /\ q = inject_Z n)
  /\ (60 * Qtotal qs <= inject_Z (2 ^ 53))%Q.

(** The units the fallback classifier can report. *)
Definition reportedUnits : list string :=
  [ "km"; "miles"; "hours"; "hour"; "pages"; "page"; "glasses"; "glasse";
    "times"; "time"; "reps"; "rep"; "sets"; "set"; "cups"; "cup"; "days";
    "day"; "weeks"; "week" ].

(** The tags of [extractTags] in the order of its tests. *)
Definition allTags : list string :=
  [ "morning"; "afternoon"; "evening"; "today"; "yesterday"; "weekend";
    "home"; "school"; "work"; "gym"; "outdoor"; "alone"; "family"; "friends";
    "group"; "recurring"; "milestone" ].

(** A string of decimal digits. *)
Fixpoint allDigits (s : string) : bool :=
  match s with
  | EmptyString => true
  | String c s' => Parse.isDigit c && allDigits s'
  end.

(** The record of the fallback classifier with the property
    [context: null] added. *)
Definition withNullContext (r : Parse.ParsedHabit) : Parse.ParsedHabit :=
  Parse.mkParsed (Parse.p_activity r) (Parse.p_category r)
    (Parse.p_quantity r) (Parse.p_unit r) (Parse.p_mood r)
    (Parse.p_sentiment r) (Parse.p_notes r) (Parse.p_tags r)
    (Parse.p_type r) (Parse.p_trigger r) (Some None).

(** Two goal records that differ at most in [currentValue]. *)
Definition sameGoalButValue (g g' : Goal) : Prop :=
  goal_id g' = goal_id g /\ goal_activity g' = goal_activity g
  /\ targetValue g' = targetValue g /\ period g' = period g
  /\ isActive g' = isActive g.

(** A computation that, whatever its outcome, leaves the stored entries
    as they were and changes no goal but in its [currentValue]. *)
Definition keepsEntries {A} (m : Habits.M A) : Prop :=
  forall w,
    Forall2 sameGoalButValue (Habits.goals w) (Habits.goals (fst (m w)))
    /\ Habits.entries (fst (m w)) = Habits.entries w.

(** A computation that, whatever its outcome, only appends to the stored
    entries, one entry at most, and changes no goal but in its
    [currentValue]. *)
Definition keepsGoals {A} (m : Habits.M A) : Prop :=
  forall w,
    Forall2 sameGoalButValue (Habits.goals w) (Habits.goals (fst (m w)))
    /\ exists added,
         Habits.entries (fst (m w)) = (Habits.entries w ++ added)%list
         /\ (List.length added <= 1)%nat.



Definition setValue (g : Goal) (value : Q) : Goal :=
  mkGoal (goal_id g) (goal_activity g) (targetValue g) value (period g)
    (isActive g).



End Inv.

(** ** Heatmap route: the hourly and weekly patterns of the mood view *)

Module Patterns.






(** *** Hours of the day (the display label is left out) *)





(** *** Days of the week *)







End Patterns.

(** ** Further sample data *)

Module Examples.

(** The suggestion mined from [Sample.runAndStretch]. *)
Definition runThenStretch : Stacks.Suggestion :=
  Stacks.mkSuggestion "run" "stretch" 100 (Stacks.tipFor "run" "stretch").


(** Three runs with whole quantities: 5 km, 3 miles and 2 hours. *)
Definition threeRuns : list HabitEntry :=
  [ mkEntry 0 "ran 5km" "run" None (Some "exercise") (Some 5%Q) (Some "km")
      None None None None None (Sample.noon 100);
    mkEntry 1 "ran 3 miles" "run" None (Some "exercise") (Some 3%Q)
      (Some "miles") None None None None None (Sample.noon 101);
    mkEntry 2 "ran 2 hours" "run" None (Some "exercise") (Some 2%Q)
      (Some "hours") None None None None None (Sample.noon 102) ].

End Examples.

(** ** Habits route: listing the entries *)

Module Listing.

(** The search parameters of the request.  A text parameter is [None]
    when it is absent or empty; the two dates are the instants that
    [new Date] reads, [limit] and [offset] the non-negative integers that
    [parseInt] reads (their defaults are 100 and 0). *)
Record Query := mkQuery {
  q_activity : option string;
  q_category : option string;
  q_mood : option string;
  q_startDate : option Z;
  q_endDate : option Z;
  q_limit : nat;
  q_offset : nat
}.

(** An optional condition of the [where] object. *)
Definition whenSet {A} (o : option A) (test : A -> bool) : bool :=
  match o with
  | Some a => test a
  | None => true
  end.

Definition hasValue (field : option string) (value : string) : bool :=
  match field with
  | Some v => String.eqb v value
  | None => false
  end.

(** The [where] object built from the parameters. *)
Definition matches (q : Query) (e : HabitEntry) : bool :=
  whenSet (if Js.truthy (q_activity q) then q_activity q else None)
    (Habits.containsInsensitive (activity e))
  && whenSet (if Js.truthy (q_category q) then q_category q else None)
       (hasValue (category e))
  && whenSet (if Js.truthy (q_mood q) then q_mood q else None)
       (hasValue (mood e))
  && whenSet (q_startDate q) (fun d => d <=? date e)
  && whenSet (q_endDate q) (fun d => date e <=? d).

Record Pagination := mkPagination {
  total : nat;
  limit : nat;
  offset : nat;
  hasMore : bool
}.

Inductive Response :=
| Page (data : list HabitEntry) (pagination : Pagination)
| Failure (status : Z) (error : string).

Section Database.
Variable faults : nat -> bool.

(** [findMany] with [orderBy: { date: 'desc' }], [take] and [skip];
    entries of equal date are taken in their stored order. *)
Definition entryFindPage (q : Query) : Habits.M (list HabitEntry) :=
  Habits.dbCall faults
    (fun es gs =>
       (es, gs,
        firstn (q_limit q)
          (skipn (q_offset q)
             (Js.sortBy (fun a b => date b <=? date a)
                (filter (matches q) es))))).

Definition entryCount (q : Query) : Habits.M nat :=
  Habits.dbCall faults
    (fun es gs => (es, gs, List.length (filter (matches q) es))).

Definition GET (q : Query) : Habits.M Response :=
  Habits.tryCatch
    (Habits.bind (entryFindPage q) (fun habits =>
     Habits.bind (entryCount q) (fun total =>
     Habits.ret
       (Page habits
          (mkPagination total (q_limit q) (q_offset q)
             (Nat.ltb (q_offset q + List.length habits) total))))))
    (fun _ =>
       Habits.bind (Habits.consoleError "Error fetching habits:") (fun _ =>
       Habits.ret (Failure 500 "Failed to fetch habits"))).

End Database.

End Listing.

(** ** Statistics route: the summary *)

Module Summary.

(** The variables that the [forEach] over the entries updates. *)
Record Running := mkRunning {
  r_activityCounts : list (string * Z);
  r_categoryCounts : list (string * Z);
  r_quantities : list Q;
  r_totalDistance : Q;
  r_totalDuration : Q;
  r_moodDistribution : list (string * Z);
  r_sentimentDistribution : list (string * Z)
}.

Definition running0 : Running := mkRunning [] [] [] 0%Q 0%Q [] [].

(** [if (label) counts[label] = (counts[label] || 0) + 1]. *)
Definition countLabel (label : option string) (counts : list (string * Z))
  : list (string * Z) :=
  match label with
  | Some l => if Js.truthy (Some l) then Js.increment l counts else counts
  | None => counts
  end.

Definition unitIs (e : HabitEntry) (u : string) : bool :=
  match unit e with
  | Some v => String.eqb v u
  | None => false
  end.

Definition tally (r : Running) (entry : HabitEntry) : Running :=
  let '(quantities, distance, duration) :=
    match quantity entry with
    | Some q =>
        ((r_quantities r ++ [q])%list,
         (if unitIs entry "km" || unitIs entry "miles"
          then r_totalDistance r + q else r_totalDistance r)%Q,
         (if unitIs entry "minutes" || unitIs entry "hours"
          then r_totalDuration r + (if unitIs entry "hours" then q * 60 else q)
          else r_totalDuration r)%Q)
    | None => (r_quantities r, r_totalDistance r, r_totalDuration r)
    end in
  mkRunning
    (countLabel (Some (activity entry)) (r_activityCounts r))
    (countLabel (category entry) (r_categoryCounts r))
    quantities distance duration
    (countLabel (mood entry) (r_moodDistribution r))
    (countLabel (sentiment entry) (r_sentimentDistribution r)).

Record Summary := mkSummary {
  totalEntries : Z;
  totalDistance : Q;
  totalDuration : Q;
  avgQuantity : Q;
  mostFrequentActivity : string;
  mostFrequentCategory : string;
  moodDistribution : list (string * Z);
  sentimentDistribution : list (string * Z);
  activityBreakdown : list (string * Z);
  categoryBreakdown : list (string * Z)
}.

(** [Object.entries(counts).sort((a, b) => b[1] - a[1])[0][0]], or the
    initial [''] when there is no entry. *)
Definition mostFrequent (counts : list (string * Z)) : string :=
  match Js.sortBy (fun a b => snd b <=? snd a) counts with
  | (label, _) :: _ => label
  | [] => ""
  end.

Definition summarize (entries : list HabitEntry) : Summary :=
  let r := fold_left tally entries running0 in
  mkSummary
    (Z.of_nat (List.length entries))
    (r_totalDistance r) (r_totalDuration r)
    (match r_quantities r with
     | [] => 0%Q
     | _ :: _ => (fold_left Qplus (r_quantities r) 0
                  / inject_Z (Z.of_nat (List.length (r_quantities r))))%Q
     end)
    (mostFrequent (r_activityCounts r))
    (mostFrequent (r_categoryCounts r))
    (r_moodDistribution r) (r_sentimentDistribution r)
    (r_activityCounts r) (r_categoryCounts r).

(** The labels a counter sees: those that are present and not empty. *)
Definition labelsOf (field : HabitEntry -> option string)
    (es : list HabitEntry) : list string :=
  flat_map (fun e => match field e with
                     | Some l => if Js.truthy (Some l) then [l] else []
                     | None => []
                     end) es.

(** The quantities of the entries with one of the given units. *)
Definition quantitiesIn (units : list string) (es : list HabitEntry) : list Q :=
  Inv.quantities (filter (fun e => existsb (unitIs e) units) es).

End Summary.

(** ** Rounding *)

Lemma Math_round_div (c n : Z) :
  0 < n -> Js.Math_round (Js.div c n * 100) = (200 * c + n) / (2 * n).
Proof.
  intros Hn. unfold Js.Math_round, Js.div.
  assert (E : (inject_Z c / inject_Z n * 100 + (1 # 2) ==
               (200 * c + n) # (Z.to_pos (2 * n)))%Q).
  { destruct n as [|p|p]; try lia.
    unfold Qeq, Qdiv, Qmult, Qplus, Qinv, inject_Z. cbn [Qnum Qden].
    change (Z.pos (Z.to_pos (2 * Z.pos p))) with (2 * Z.pos p).
    rewrite ?Pos.mul_1_l, ?Pos.mul_1_r, !Pos2Z.inj_mul. ring. }
  rewrite E. unfold Qfloor. rewrite Z2Pos.id by lia. reflexivity.
Qed.

(** ** Levels *)

Ltac decide_cmp :=
  repeat match goal with
    | |- context [?a <=? ?b] => destruct (Z.leb_spec a b); try lia
    | |- context [?a <? ?b] => destruct (Z.ltb_spec a b); try lia
    end; simpl.

(** C1 as stated fails: one point above 3500 the progress is measured
    against the further threshold 5000. *)
Lemma next_level_3501_not_saturated :
  3500 < 3501
  /\ Gamification.getNextLevelProgress 3501 = Gamification.mkProgress 1 1500 0
  /\ Gamification.progress (Gamification.getNextLevelProgress 3501) <> 100
  /\ Gamification.needed (Gamification.getNextLevelProgress 3501) <> 100.
Proof. repeat split; try lia; discriminate. Qed.

(** C1 (amended): above 3500 the next-level progress is saturated
    (progress 100, needed 100) exactly from 5000 points on; from 3501 to
    4999 points it is measured against the further threshold 5000:
    needed is 1500, current is the points above 3500 and progress is that
    fraction of 1500 as a rounded percent, between 0 and 100. *)
Theorem next_level_above_top_threshold (points : Z) :
  3500 < points ->
  (5000 <= points /\
   Gamification.getNextLevelProgress points
     = Gamification.mkProgress points 100 100)
  \/
  (points < 5000 /\
   Gamification.getNextLevelProgress points
     = Gamification.mkProgress (points - 3500) 1500
         (Js.Math_round (Js.div (points - 3500) 1500 * 100)) /\
   0 <= Gamification.progress (Gamification.getNextLevelProgress points) <= 100).
Proof.
  intros H. destruct (Z_lt_le_dec points 5000) as [Hlt | Hge].
  - right. split; [exact Hlt |].
    assert (E : Gamification.getNextLevelProgress points
                = Gamification.mkProgress (points - 3500) 1500
                    (Js.Math_round (Js.div (points - 3500) 1500 * 100))).
    { unfold Gamification.getNextLevelProgress, Gamification.levelThresholds,
        Gamification.nextLevelLoop. decide_cmp. reflexivity. }
    split; [exact E |]. rewrite E. cbn [Gamification.progress].
    rewrite Math_round_div by lia. split.
    + apply Z.div_pos; lia.
    + apply Z.lt_succ_r, Z.div_lt_upper_bound; lia.
  - left. split; [exact Hge |].
    unfold Gamification.getNextLevelProgress, Gamification.levelThresholds,
      Gamification.nextLevelLoop. decide_cmp. reflexivity.
Qed.

Lemma next_level_above_top_threshold_witness :
  3500 < 6000 /\
  Gamification.getNextLevelProgress 6000 = Gamification.mkProgress 6000 100 100.
Proof.
  split; [lia |].
  destruct (next_level_above_top_threshold 6000 ltac:(lia)) as [[_ E] | [Hlt _]].
  - exact E.
  - exfalso. lia.
Defined.

(** ** Dictionaries *)

Section DictionaryFacts.
Context {K V : Type} (eqb : K -> K -> bool).
Hypothesis eqb_spec : forall a b, reflect (a = b) (eqb a b).

Lemma eqb_refl_true k : eqb k k = true.
Proof. destruct (eqb_spec k k); congruence. Qed.

Lemma get_app k (m m' : list (K * V)) :
  Js.get eqb k (m ++ m') =
  match Js.get eqb k m with Some v => Some v | None => Js.get eqb k m' end.
Proof.
  induction m as [|[k1 v1] m IH]; simpl; [reflexivity |].
  destruct (eqb k k1); [reflexivity | exact IH].
Qed.

Lemma get_alter f k k' (m : list (K * V)) :
  Js.get eqb k' (Js.alter eqb f k m) =
  if eqb k' k then option_map f (Js.get eqb k' m) else Js.get eqb k' m.
Proof.
  induction m as [|[k1 v1] m IH]; simpl.
  - destruct (eqb k' k); reflexivity.
  - destruct (eqb_spec k k1) as [-> | Hk]; simpl.
    + destruct (eqb_spec k' k1) as [-> | Hk']; reflexivity.
    + destruct (eqb_spec k' k1) as [-> | Hk'].
      * destruct (eqb_spec k1 k); [congruence | reflexivity].
      * exact IH.
Qed.

Lemma get_update d f k k' (m : list (K * V)) :
  Js.get eqb k' (Js.update eqb d f k m) =
  if eqb k' k
  then Some (f (match Js.get eqb k m with Some v => v | None => d end))
  else Js.get eqb k' m.
Proof.
  unfold Js.update, Js.has.
  destruct (Js.get eqb k m) as [v|] eqn:E.
  - rewrite get_alter. destruct (eqb_spec k' k) as [-> | _]; [| reflexivity].
    rewrite E. reflexivity.
  - rewrite get_app. simpl.
    destruct (eqb_spec k' k) as [-> | _].
    + rewrite E. reflexivity.
    + destruct (Js.get eqb k' m); reflexivity.
Qed.

Lemma keys_alter f k (m : list (K * V)) :
  map fst (Js.alter eqb f k m) = map fst m.
Proof.
  induction m as [|[k1 v1] m IH]; simpl; [reflexivity |].
  destruct (eqb k k1); simpl; [reflexivity | now rewrite IH].
Qed.

Lemma get_None_not_key k (m : list (K * V)) :
  Js.get eqb k m = None -> ~ In k (map fst m).
Proof.
  induction m as [|[k1 v1] m IH]; simpl; [tauto |].
  destruct (eqb_spec k k1) as [-> | Hk]; [discriminate |].
  intros E [H | H]; [congruence | exact (IH E H)].
Qed.

Lemma get_Some_In k v (m : list (K * V)) :
  Js.get eqb k m = Some v -> In (k, v) m.
Proof.
  induction m as [|[k1 v1] m IH]; simpl; [discriminate |].
  destruct (eqb_spec k k1) as [-> | Hk].
  - intros [= ->]. now left.
  - intros E. right. exact (IH E).
Qed.

Lemma In_get k v (m : list (K * V)) :
  NoDup (map fst m) -> In (k, v) m -> Js.get eqb k m = Some v.
Proof.
  induction m as [|[k1 v1] m IH]; simpl; [tauto |].
  intros Hnd [H | H].
  - injection H as -> ->. now rewrite eqb_refl_true.
  - inversion Hnd as [|? ? Hnotin Hnd']; subst.
    destruct (eqb_spec k k1) as [-> | Hk].
    + exfalso. apply Hnotin. change k1 with (fst (k1, v)).
      now apply in_map.
    + now apply IH.
Qed.

Lemma keys_update_NoDup d f k (m : list (K * V)) :
  NoDup (map fst m) -> NoDup (map fst (Js.update eqb d f k m)).
Proof.
  intros Hnd. unfold Js.update, Js.has.
  destruct (Js.get eqb k m) eqn:E.
  - now rewrite keys_alter.
  - rewrite map_app. simpl.
    apply NoDup_app_remove_l with (l := []). simpl.
    apply Permutation_NoDup with (l := k :: map fst m).
    + apply Permutation_cons_append.
    + constructor; [now apply get_None_not_key | exact Hnd].
Qed.

(** Grouping a list by a key: the dictionary a [forEach] builds when it
    creates the value of a key on first sight and updates it. *)
Section Grouping.
Context {E : Type} (key : E -> K) (dflt : K -> V) (upd : E -> V -> V).

Let groupStep := Js.groupStep eqb key dflt upd.
Let bucketStep := Js.bucketStep eqb key dflt upd.

Lemma get_group es : forall m k,
  Js.get eqb k (fold_left groupStep es m) =
  fold_left (bucketStep k) es (Js.get eqb k m).
Proof.
  induction es as [|e es IH]; intros m k; simpl; [reflexivity |].
  rewrite IH. f_equal. unfold groupStep, bucketStep, Js.groupStep, Js.bucketStep.
  rewrite get_update.
  destruct (eqb_spec k (key e)) as [-> | _]; reflexivity.
Qed.

Lemma group_NoDup es : forall m,
  NoDup (map fst m) -> NoDup (map fst (fold_left groupStep es m)).
Proof.
  induction es as [|e es IH]; intros m Hnd; simpl; [exact Hnd |].
  apply IH. now apply keys_update_NoDup.
Qed.

Lemma In_group k v es :
  In (k, v) (fold_left groupStep es []) ->
  fold_left (bucketStep k) es None = Some v.
Proof.
  intros H. change None with (Js.get eqb k (@nil (K * V))).
  rewrite <- get_group.
  apply In_get; [| exact H]. apply group_NoDup. constructor.
Qed.

(** The keys of the dictionary are the keys of the elements. *)
Lemma bucket_defined k es : forall o,
  fold_left (bucketStep k) es o <> None
  <-> o <> None \/ exists e, In e es /\ key e = k.
Proof.
  induction es as [|e es IH]; intros o; simpl.
  - split; [now left | intros [H | (e & [] & _)]; exact H].
  - rewrite IH. unfold bucketStep, Js.bucketStep.
    destruct (eqb_spec k (key e)) as [Hk | Hk].
    + split.
      * intros _. right. exists e. split; [now left | now symmetry].
      * intros _. left. discriminate.
    + split.
      * intros [H | (e' & He' & Hkey)]; [now left |].
        right. exists e'. split; [now right | exact Hkey].
      * intros [H | (e' & [<- | He'] & Hkey)];
          [now left | congruence | right; exists e'; now split].
Qed.

Lemma group_keys k es :
  In k (map fst (fold_left groupStep es []))
  <-> exists e, In e es /\ key e = k.
Proof.
  split.
  - intros H. apply in_map_iff in H as ([k' v] & <- & H). cbn [fst].
    apply In_group in H.
    destruct (proj1 (bucket_defined k' es None)) as [H0 | H0];
      [rewrite H; discriminate | congruence | exact H0].
  - intros H.
    assert (G : Js.get eqb k (fold_left groupStep es []) <> None).
    { rewrite get_group. apply bucket_defined. now right. }
    destruct (Js.get eqb k (fold_left groupStep es [])) as [v|] eqn:Hget;
      [| congruence].
    apply get_Some_In in Hget. apply in_map_iff. exists (k, v). now split.
Qed.
End Grouping.
End DictionaryFacts.

(** ** Counting and sorting *)

Lemma count_nil {A} (p : A -> bool) : Js.count p [] = 0.
Proof. reflexivity. Qed.

Lemma count_cons {A} (p : A -> bool) x l :
  Js.count p (x :: l) = (if p x then 1 else 0) + Js.count p l.
Proof.
  unfold Js.count. simpl. destruct (p x); simpl List.length; lia.
Qed.

Lemma count_nonneg {A} (p : A -> bool) l : 0 <= Js.count p l.
Proof. unfold Js.count. lia. Qed.

Lemma insertSorted_perm {A} (before : A -> A -> bool) x l :
  Permutation (Js.insertSorted before x l) (x :: l).
Proof.
  induction l as [|y l IH]; simpl; [reflexivity |].
  destruct (before x y); [reflexivity |].
  rewrite IH. apply perm_swap.
Qed.

Lemma sortBy_perm {A} (before : A -> A -> bool) l :
  Permutation (Js.sortBy before l) l.
Proof.
  induction l as [|x l IH]; simpl; [reflexivity |].
  rewrite insertSorted_perm. now constructor.
Qed.

Lemma In_sortBy {A} (before : A -> A -> bool) l x :
  In x (Js.sortBy before l) <-> In x l.
Proof.
  split; apply Permutation_in;
    [apply sortBy_perm | apply Permutation_sym, sortBy_perm].
Qed.

(** ** Sentiment heatmap *)

Section SentimentHeatmap.
Variable z : Time.Zone.

Let onDay (k : Z) (e : HabitEntry) : bool := Time.localDay z (date e) =? k.

Let bucket (k : Z) :=
  Js.bucketStep Z.eqb (fun e => Time.localDay z (date e))
    (fun _ => Heatmap.sentimentDay0) Heatmap.addSentiment k.

Let base (o : option Heatmap.SentimentDay) : Heatmap.SentimentDay :=
  match o with Some v => v | None => Heatmap.sentimentDay0 end.

Lemma addSentiment_counts e d label :
  label = "positive" \/ label = "neutral" \/ label = "negative" ->
  let c (d : Heatmap.SentimentDay) :=
    if String.eqb label "positive" then Heatmap.sd_positive d
    else if String.eqb label "neutral" then Heatmap.sd_neutral d
    else Heatmap.sd_negative d in
  c (Heatmap.addSentiment e d)
  = c d + (if Heatmap.hasSentiment label e then 1 else 0).
Proof.
  unfold Heatmap.addSentiment, Heatmap.hasSentiment, Heatmap.bumpSentiment.
  intros [-> | [-> | ->]]; simpl;
    (destruct (sentiment e) as [s|]; simpl; [| lia]);
    destruct (String.eqb_spec s "positive") as [-> | ?]; simpl; try lia;
    destruct (String.eqb_spec s "neutral") as [-> | ?]; simpl; try lia;
    destruct (String.eqb_spec s "negative") as [-> | ?]; simpl; try lia;
    destruct (String.eqb_spec s "total") as [-> | ?]; simpl; try lia;
    destruct (String.eqb_spec s ""); simpl; lia.
Qed.

(** What the entries of a day add to the counters of its bucket. *)
Lemma sentiment_bucket k es : forall o,
  match fold_left (bucket k) es o with
  | Some v =>
      Heatmap.sd_positive v
      = Heatmap.sd_positive (base o)
        + Js.count (fun e => onDay k e && Heatmap.hasSentiment "positive" e) es
      /\ Heatmap.sd_neutral v
         = Heatmap.sd_neutral (base o)
           + Js.count (fun e => onDay k e && Heatmap.hasSentiment "neutral" e) es
      /\ Heatmap.sd_negative v
         = Heatmap.sd_negative (base o)
           + Js.count (fun e => onDay k e && Heatmap.hasSentiment "negative" e) es
  | None => o = None
  end.
Proof.
  induction es as [|e es IH]; intros o; simpl.
  - destruct o; simpl; rewrite ?count_nil; [lia | reflexivity].
  - specialize (IH (bucket k o e)).
    destruct (fold_left (bucket k) es (bucket k o e)) as [v|].
    + rewrite !count_cons. unfold bucket, Js.bucketStep, onDay in *.
      rewrite (Z.eqb_sym (Time.localDay z (date e)) k).
      destruct (k =? Time.localDay z (date e)); simpl in *.
      * pose proof (addSentiment_counts e (base o) "positive"
                      (or_introl eq_refl)) as Hp.
        pose proof (addSentiment_counts e (base o) "neutral"
                      (or_intror (or_introl eq_refl))) as Hu.
        pose proof (addSentiment_counts e (base o) "negative"
                      (or_intror (or_intror eq_refl))) as Hn.
        simpl in Hp, Hu, Hn. unfold base in *.
        destruct o; lia.
      * exact IH.
    + unfold bucket, Js.bucketStep in IH.
      destruct (k =? Time.localDay z (date e)); [discriminate | exact IH].
Qed.

Lemma sentiment_row_counts entries row :
  In row (Heatmap.sh_daily (Heatmap.generateSentimentHeatmap z entries)) ->
  Heatmap.sr_positive row
  = Js.count (fun e => onDay (Heatmap.sr_date row) e
                       && Heatmap.hasSentiment "positive" e) entries
  /\ Heatmap.sr_neutral row
     = Js.count (fun e => onDay (Heatmap.sr_date row) e
                          && Heatmap.hasSentiment "neutral" e) entries
  /\ Heatmap.sr_negative row
     = Js.count (fun e => onDay (Heatmap.sr_date row) e
                          && Heatmap.hasSentiment "negative" e) entries
  /\ Heatmap.sr_dominantSentiment row
     = Heatmap.dominantSentiment
         (Heatmap.mkSentimentDay (Heatmap.sr_positive row)
            (Heatmap.sr_neutral row) (Heatmap.sr_negative row)
            (Heatmap.sr_total row)).
Proof.
  simpl. intros H. apply in_map_iff in H as [[k v] [<- H]].
  apply (In_group Z.eqb Z.eqb_spec (fun e => Time.localDay z (date e))
           (fun _ => Heatmap.sentimentDay0) Heatmap.addSentiment) in H.
  pose proof (sentiment_bucket k entries None) as B.
  unfold bucket in B. rewrite H in B. simpl in B.
  destruct B as (Bp & Bu & Bn). simpl.
  split; [exact Bp | split; [exact Bu | split; [exact Bn |]]].
  now destruct v.
Qed.
End SentimentHeatmap.

(** C2 as stated fails on both of its instances: with as many positive as
    negative entries and fewer neutral ones the day is reported negative,
    and with as many negative as neutral entries and fewer positive ones
    it is reported neutral. *)
Lemma sentiment_ties_counterexample :
  (exists row,
      In row (Heatmap.sh_daily
                (Heatmap.generateSentimentHeatmap Sample.utc
                   Sample.positiveNegativeTie))
      /\ Heatmap.sr_positive row = Heatmap.sr_negative row
      /\ Heatmap.sr_neutral row < Heatmap.sr_positive row
      /\ Heatmap.sr_dominantSentiment row = "negative"
      /\ Heatmap.sr_dominantSentiment row <> "positive")
  /\
  (exists row,
      In row (Heatmap.sh_daily
                (Heatmap.generateSentimentHeatmap Sample.utc
                   Sample.negativeNeutralTie))
      /\ Heatmap.sr_negative row = Heatmap.sr_neutral row
      /\ Heatmap.sr_positive row < Heatmap.sr_negative row
      /\ Heatmap.sr_dominantSentiment row = "neutral"
      /\ Heatmap.sr_dominantSentiment row <> "negative").
Proof.
  split.
  - exists (Heatmap.mkSentimentRow 100 2 0 2 4 "negative" 50 "#ef4444").
    repeat split; try (now left); try reflexivity; try discriminate.
  - exists (Heatmap.mkSentimentRow 100 0 1 1 2 "neutral" 0 "#6b7280").
    repeat split; try (now left); try reflexivity; try discriminate.
Qed.

(** C2 (amended): in every per-day bucket of the sentiment heatmap the
    three counters are the numbers of the day's entries with that
    sentiment, and the dominant sentiment is decided by strict
    comparisons: 'positive' exactly when the positive count exceeds both
    the negative and the neutral count; otherwise 'negative' exactly when
    the negative count exceeds the neutral count; otherwise 'neutral'.
    So no tie goes to 'positive', and a tie between negative and neutral
    goes to 'neutral'. *)
Theorem sentiment_dominant_is_strict (z : Time.Zone)
    (entries : list HabitEntry) (row : Heatmap.SentimentRow) :
  In row (Heatmap.sh_daily (Heatmap.generateSentimentHeatmap z entries)) ->
  let onDay e := Time.localDay z (date e) =? Heatmap.sr_date row in
  let pos := Js.count (fun e => onDay e && Heatmap.hasSentiment "positive" e)
               entries in
  let neu := Js.count (fun e => onDay e && Heatmap.hasSentiment "neutral" e)
               entries in
  let neg := Js.count (fun e => onDay e && Heatmap.hasSentiment "negative" e)
               entries in
  Heatmap.sr_positive row = pos
  /\ Heatmap.sr_neutral row = neu
  /\ Heatmap.sr_negative row = neg
  /\ (Heatmap.sr_dominantSentiment row = "positive" <-> neg < pos /\ neu < pos)
  /\ (Heatmap.sr_dominantSentiment row = "negative"
      <-> ~ (neg < pos /\ neu < pos) /\ neu < neg)
  /\ (Heatmap.sr_dominantSentiment row = "neutral"
      <-> ~ (neg < pos /\ neu < pos) /\ neg <= neu).
Proof.
  intros H. destruct (sentiment_row_counts z entries row H) as (Hp & Hu & Hn & Hd).
  cbv beta zeta. rewrite <- Hp, <- Hu, <- Hn.
  split; [reflexivity | split; [reflexivity | split; [reflexivity |]]].
  rewrite Hd. unfold Heatmap.dominantSentiment. cbn [Heatmap.sd_positive
    Heatmap.sd_neutral Heatmap.sd_negative].
  destruct (Z.ltb_spec (Heatmap.sr_negative row) (Heatmap.sr_positive row));
    destruct (Z.ltb_spec (Heatmap.sr_neutral row) (Heatmap.sr_positive row));
    destruct (Z.ltb_spec (Heatmap.sr_neutral row) (Heatmap.sr_negative row));
    cbn [andb];
    (split; [| split]); split;
      try discriminate; try (intros _; lia); try (intros; reflexivity);
      try (intros [? ?]; lia); try (intros; split; lia).
Qed.

Lemma sentiment_dominant_is_strict_witness :
  In Sample.tieRow
    (Heatmap.sh_daily
       (Heatmap.generateSentimentHeatmap Sample.utc Sample.positiveNegativeTie))
  /\ (Heatmap.sr_dominantSentiment Sample.tieRow = "negative"
      <-> ~ (2 < 2 /\ 0 < 2) /\ 0 < 2).
Proof.
  split; [now left |].
  exact (proj1 (proj2 (proj2 (proj2 (proj2
           (sentiment_dominant_is_strict Sample.utc Sample.positiveNegativeTie
              Sample.tieRow (or_introl eq_refl))))))).
Defined.

(** ** Mood heatmap *)

Section MoodHeatmap.
Variable z : Time.Zone.

Let bucket (k : Z) :=
  Js.bucketStep Z.eqb (fun e => Time.localDay z (date e))
    (fun _ => Heatmap.moodDay0) Heatmap.addMood k.

Let base (o : option Heatmap.MoodDay) : Heatmap.MoodDay :=
  match o with Some v => v | None => Heatmap.moodDay0 end.

Lemma total_app xs ys : Spec.total (xs ++ ys) = Spec.total xs + Spec.total ys.
Proof. induction xs as [|x xs IH]; simpl; [reflexivity | rewrite IH; lia]. Qed.

Lemma knownScores_cons e es :
  Spec.knownScores (e :: es)
  = (Spec.knownScores [e] ++ Spec.knownScores es)%list.
Proof. unfold Spec.knownScores. simpl. now rewrite app_nil_r. Qed.

Lemma addMood_scores e d :
  Heatmap.md_score (Heatmap.addMood e d)
  = Heatmap.md_score d + Spec.total (Spec.knownScores [e])
  /\ Heatmap.md_count (Heatmap.addMood e d)
     = Heatmap.md_count d + Z.of_nat (List.length (Spec.knownScores [e])).
Proof.
  unfold Heatmap.addMood, Spec.knownScores. simpl.
  destruct (mood e) as [m|]; simpl; [| lia].
  destruct (String.eqb_spec m "") as [-> | _]; simpl; [lia |].
  destruct (Heatmap.scoreOf m); simpl; lia.
Qed.

(** What the entries of a day add to the score and count of its bucket. *)
Lemma mood_bucket k es : forall o,
  let known :=
    Spec.knownScores (filter (fun e => Time.localDay z (date e) =? k) es) in
  match fold_left (bucket k) es o with
  | Some v =>
      Heatmap.md_score v = Heatmap.md_score (base o) + Spec.total known
      /\ Heatmap.md_count v
         = Heatmap.md_count (base o) + Z.of_nat (List.length known)
  | None => o = None
  end.
Proof.
  induction es as [|e es IH]; intros o; cbv zeta; simpl.
  - destruct o; simpl; [lia | reflexivity].
  - specialize (IH (bucket k o e)). cbv zeta in IH.
    unfold bucket, Js.bucketStep in *.
    rewrite (Z.eqb_sym (Time.localDay z (date e)) k).
    destruct (k =? Time.localDay z (date e)).
    + destruct (fold_left _ es _) as [v|]; [| discriminate].
      destruct IH as [IHs IHc]. simpl in IHs, IHc.
      destruct (addMood_scores e (base o)) as [As Ac].
      rewrite knownScores_cons, total_app, length_app. unfold base in *.
      destruct o; lia.
    + exact IH.
Qed.

Lemma mood_row_score entries row :
  In row (Heatmap.moodRows z entries) ->
  let known :=
    Spec.knownScores
      (filter (fun e => Time.localDay z (date e) =? Heatmap.mr_date row)
         entries) in
  Heatmap.mr_count row = Z.of_nat (List.length known)
  /\ Heatmap.mr_score row
     = Js.round1 (match known with [] => 3%Q | _ => Spec.mean known end).
Proof.
  intros H. apply in_map_iff in H as [[k v] [<- H]].
  apply (In_group Z.eqb Z.eqb_spec (fun e => Time.localDay z (date e))
           (fun _ => Heatmap.moodDay0) Heatmap.addMood) in H.
  pose proof (mood_bucket k entries None) as B. cbv zeta in B.
  unfold bucket in B. rewrite H in B. simpl in B. destruct B as [Bs Bc].
  cbv zeta. simpl. split; [exact Bc |].
  unfold Heatmap.avgScore, Spec.mean. rewrite Bs, Bc.
  destruct (Spec.knownScores _) as [|x xs]; [reflexivity |].
  destruct (Z.ltb_spec 0 (Z.of_nat (List.length (x :: xs)))) as [_ | Hle];
    [reflexivity | simpl in Hle; lia].
Qed.
(** The daily rows are one per local day with an entry. *)
Lemma mood_rows_days entries :
  NoDup (map Heatmap.mr_date (Heatmap.moodRows z entries))
  /\ forall day,
       In day (map Heatmap.mr_date (Heatmap.moodRows z entries))
       <-> exists e, In e entries /\ Time.localDay z (date e) = day.
Proof.
  unfold Heatmap.moodRows. rewrite map_map.
  rewrite (map_ext _ fst) by (intros [k d]; reflexivity).
  split.
  - apply (group_NoDup Z.eqb Z.eqb_spec (fun e => Time.localDay z (date e))
             (fun _ => Heatmap.moodDay0) Heatmap.addMood).
    constructor.
  - intros day.
    apply (group_keys Z.eqb Z.eqb_spec (fun e => Time.localDay z (date e))
             (fun _ => Heatmap.moodDay0) Heatmap.addMood).
Qed.

Lemma mood_daily_perm entries :
  Permutation (Heatmap.moodRows z entries)
    (Heatmap.mh_daily (Heatmap.generateMoodHeatmap z entries)).
Proof.
  cbn [Heatmap.generateMoodHeatmap Heatmap.mh_daily].
  apply Permutation_sym. etransitivity; apply sortBy_perm.
Qed.
End MoodHeatmap.

(** C3 as stated fails: a day with a 'happy' entry and an entry whose mood
    the lookup does not list is reported at 5, not at the mean 4 that
    scores the unlisted label 3. *)
Lemma mood_day_average_counterexample :
  In Sample.happyRow
    (Heatmap.mh_daily
       (Heatmap.generateMoodHeatmap Sample.utc Sample.happyAndGroggy))
  /\ (Heatmap.mr_score Sample.happyRow == 5)%Q
  /\ (Spec.dayMoodAverage Sample.utc Sample.happyAndGroggy
        (Heatmap.mr_date Sample.happyRow) == 4)%Q
  /\ ~ (Heatmap.mr_score Sample.happyRow
        == Spec.dayMoodAverage Sample.utc Sample.happyAndGroggy
             (Heatmap.mr_date Sample.happyRow))%Q.
Proof.
  split; [now left |]. split; [reflexivity |]. split; [reflexivity |].
  intros H. vm_compute in H. discriminate.
Qed.

(** C3 (amended): over entries dated in the years 1000 to 9999 none of
    whose mood labels names a member of [Object.prototype], the mood
    heatmap has exactly one daily row for every local day that has at
    least one entry, and no other row.  The reported count of the row of
    a day is the number of the day's entries whose mood label is listed
    in the 1-to-5 lookup, and the reported score is the arithmetic mean of
    the lookup over exactly those entries, rounded to one decimal;
    entries whose label is not listed are left out of the mean, and a day
    with no listed label is reported at the default 3. *)
Theorem mood_day_average_over_listed_moods (z : Time.Zone)
    (entries : list HabitEntry) :
  Inv.plainMoods entries = true ->
  Inv.fourDigitYears z entries = true ->
  let daily := Heatmap.mh_daily (Heatmap.generateMoodHeatmap z entries) in
  NoDup (map Heatmap.mr_date daily)
  /\ (forall day,
        (exists e, In e entries /\ Time.localDay z (date e) = day)
        <-> exists row, In row daily /\ Heatmap.mr_date row = day)
  /\ forall row, In row daily ->
       let known :=
         Spec.knownScores
           (filter (fun e => Time.localDay z (date e) =? Heatmap.mr_date row)
              entries) in
       Heatmap.mr_count row = Z.of_nat (List.length known)
       /\ Heatmap.mr_score row
          = Js.round1 (match known with [] => 3%Q | _ => Spec.mean known end).
Proof.
  intros _ _ daily.
  pose proof (mood_daily_perm z entries) as P. fold daily in P.
  destruct (mood_rows_days z entries) as [Hnd Hdays].
  split; [| split].
  - apply (Permutation_NoDup (l := map Heatmap.mr_date
                                     (Heatmap.moodRows z entries)));
      [now apply Permutation_map | exact Hnd].
  - intros day. rewrite <- Hdays, !in_map_iff. split.
    + intros (row & E & Hrow). exists row. split; [| exact E].
      now apply (Permutation_in _ P).
    + intros (row & Hrow & E). exists row. split; [exact E |].
      now apply (Permutation_in _ (Permutation_sym P)).
  - intros row Hrow. apply mood_row_score.
    now apply (Permutation_in _ (Permutation_sym P)).
Qed.

Lemma mood_day_average_over_listed_moods_witness :
  In Sample.happyRow
    (Heatmap.mh_daily
       (Heatmap.generateMoodHeatmap Sample.utc Sample.happyAndGroggy))
  /\ Heatmap.mr_count Sample.happyRow = 1.
Proof.
  split; [now left |].
  exact (proj1 (proj2 (proj2 (mood_day_average_over_listed_moods Sample.utc
                                Sample.happyAndGroggy eq_refl eq_refl))
                  Sample.happyRow (or_introl eq_refl))).
Defined.

(** ** Trend buckets *)

Section TrendBuckets.
Variables (z : Time.Zone) (groupBy : string).

Let key (e : HabitEntry) : Z := Stats.periodKey z groupBy (date e).
Let bucket (k : Z) := Js.bucketStep Z.eqb key Stats.bucket0 Stats.addEntry k.

Let base (k : Z) (o : option Stats.Bucket) : Stats.Bucket :=
  match o with Some v => v | None => Stats.bucket0 k end.

Lemma labelledScores_cons score e es :
  Spec.labelledScores score (e :: es)
  = (Spec.labelledScores score [e] ++ Spec.labelledScores score es)%list.
Proof. unfold Spec.labelledScores. simpl. now rewrite app_nil_r. Qed.

(** On an entry that carries a mood, the running mean keeps
    [avgMood * count] equal to the sum of the scores, provided every
    entry counted so far carried one. *)
Lemma addEntry_mooded e b :
  Js.truthy (mood e) = true -> 0 <= Stats.b_count b ->
  Stats.b_count (Stats.addEntry e b) = Stats.b_count b + 1
  /\ Stats.b_date (Stats.addEntry e b) = Stats.b_date b
  /\ (Stats.b_avgMood (Stats.addEntry e b) * inject_Z (Stats.b_count b + 1)
      == Stats.b_avgMood b * inject_Z (Stats.b_count b)
         + inject_Z (Spec.total (Spec.labelledScores Stats.scoreOr3 [e])))%Q.
Proof.
  intros Hm Hc. unfold Stats.addEntry, Spec.labelledScores.
  cbn [flat_map].
  destruct (mood e) as [m|]; [| simpl in Hm; discriminate Hm].
  rewrite Hm.
  cbn [Stats.b_count Stats.b_date Stats.b_avgMood app Spec.total fold_right].
  split; [reflexivity |]. split; [reflexivity |].
  replace (Stats.b_count b + 1 - 1) with (Stats.b_count b) by lia.
  rewrite Z.add_0_r.
  rewrite Qmult_comm. apply Qmult_div_r.
  intros E. unfold Qeq in E. simpl in E. lia.
Qed.

Lemma bucket_mooded k es :
  (forall e, In e es -> Js.truthy (mood e) = true) ->
  forall o, 0 <= Stats.b_count (base k o) ->
  let mine := filter (fun e => key e =? k) es in
  match fold_left (bucket k) es o with
  | Some v =>
      Stats.b_count v
      = Stats.b_count (base k o) + Z.of_nat (List.length mine)
      /\ Stats.b_date v = Stats.b_date (base k o)
      /\ (o = None -> (1 <= List.length mine)%nat)
      /\ (Stats.b_avgMood v * inject_Z (Stats.b_count v)
          == Stats.b_avgMood (base k o) * inject_Z (Stats.b_count (base k o))
             + inject_Z (Spec.total (Spec.labelledScores Stats.scoreOr3 mine)))%Q
  | None => o = None
  end.
Proof.
  induction es as [|e es IH]; intros Hall o Hc; cbv zeta; simpl.
  - destruct o; simpl; [| reflexivity].
    split; [lia |]. split; [reflexivity |]. split; [discriminate |].
    now rewrite Qplus_0_r.
  - assert (Hall' : forall e', In e' es -> Js.truthy (mood e') = true)
      by (intros; apply Hall; now right).
    unfold bucket, Js.bucketStep in *. fold (base k o).
    rewrite (Z.eqb_sym (key e) k).
    destruct (k =? key e).
    + destruct (addEntry_mooded e (base k o) (Hall e (or_introl eq_refl)) Hc)
        as (Ac & Ad & Aq).
      specialize (IH Hall' (Some (Stats.addEntry e (base k o)))).
      cbv zeta in IH. simpl base in IH. specialize (IH ltac:(lia)).
      destruct (fold_left _ es _) as [v|]; [| discriminate].
      destruct IH as (Ic & Id & _ & Iq).
      rewrite labelledScores_cons, total_app. simpl List.length.
      split; [lia |]. split; [congruence |]. split; [lia |].
      rewrite Iq, Ac, Aq, inject_Z_plus. ring.
    + specialize (IH Hall' o Hc). cbv zeta in IH.
      destruct (fold_left _ es o) as [v|]; exact IH.
Qed.

Lemma labelledScores_length score es :
  (forall e, In e es -> Js.truthy (mood e) = true) ->
  List.length (Spec.labelledScores score es) = List.length es.
Proof.
  induction es as [|e es IH]; intros Hall; [reflexivity |].
  rewrite labelledScores_cons, length_app, IH by (intros; apply Hall; now right).
  specialize (Hall e (or_introl eq_refl)). unfold Spec.labelledScores.
  cbn [flat_map].
  destruct (mood e) as [m|]; [| simpl in Hall; discriminate Hall].
  now rewrite Hall.
Qed.

(** When every entry carries a mood, the running mean of a bucket is the
    mean of its scores: the formula is the incremental mean for a count
    of mood-bearing entries.  This is the formula in exact arithmetic,
    for mood labels that are own keys of the score table's object. *)
Lemma avgMood_is_mean_when_all_mooded entries b :
  (forall e, In e entries -> Js.truthy (mood e) = true) ->
  In b (Stats.groupEntriesByPeriod z entries groupBy) ->
  (Stats.b_avgMood b
   == Spec.bucketMoodMean z groupBy entries (Stats.b_date b))%Q.
Proof.
  intros Hall Hb. unfold Stats.groupEntriesByPeriod in Hb.
  apply In_sortBy, in_map_iff in Hb as ([k v] & <- & Hb). simpl snd.
  apply (In_group Z.eqb Z.eqb_spec key Stats.bucket0 Stats.addEntry) in Hb.
  pose proof (bucket_mooded k entries Hall None ltac:(simpl; lia)) as B.
  cbv zeta in B. unfold bucket in B. rewrite Hb in B.
  destruct B as (Bc & Bd & Bn & Bq).
  unfold base in Bc, Bd, Bq.
  cbn [Stats.bucket0 Stats.b_count Stats.b_date Stats.b_avgMood] in Bc, Bd, Bq.
  specialize (Bn eq_refl). rewrite Bd.
  unfold Spec.bucketMoodMean, Spec.mean, Js.div. unfold key in *.
  set (mine := filter _ entries) in *.
  rewrite labelledScores_length
    by (intros e He; apply Hall; unfold mine in He;
        now apply filter_In in He).
  assert (Bq' : (Stats.b_avgMood v * inject_Z (Z.of_nat (List.length mine))
                 == inject_Z (Spec.total
                                (Spec.labelledScores Stats.scoreOr3 mine)))%Q).
  { replace (Z.of_nat (List.length mine)) with (Stats.b_count v) by lia.
    rewrite Bq. ring. }
  rewrite <- Bq'. symmetry.
  apply Qdiv_mult_l. intros E. unfold Qeq in E. simpl in E. lia.
Qed.
End TrendBuckets.

(** C4 (the code at the failing input): a day bucket that holds an entry
    without a mood and then a 'happy' entry reports avgMood 5/2, because
    the running mean divides by the count of all entries of the bucket,
    while the mean over the mood-bearing entries of the bucket is 5. *)
Theorem trend_avgMood_divides_by_all_entries :
  exists b,
    Stats.groupEntriesByPeriod Sample.utc Sample.moodlessThenHappy "day" = [b]
    /\ Stats.b_count b = 2
    /\ (Stats.b_avgMood b == 5 # 2)%Q
    /\ (Spec.bucketMoodMean Sample.utc "day" Sample.moodlessThenHappy
          (Stats.b_date b) == 5)%Q
    /\ ~ (Stats.b_avgMood b
          == Spec.bucketMoodMean Sample.utc "day" Sample.moodlessThenHappy
               (Stats.b_date b))%Q.
Proof.
  eexists. split; [reflexivity |]. split; [reflexivity |].
  split; [reflexivity |]. split; [reflexivity |].
  intros H. vm_compute in H. discriminate.
Qed.

(** ** Points *)

Lemma tally_points z es : forall t,
  Gamification.t_points (fold_left (Gamification.tally z) es t)
  = Gamification.t_points t
    + 10 * Js.count Spec.isPositive es
    - 5 * Js.count Spec.isNegative es
    + 5 * Js.count Spec.isOther es.
Proof.
  induction es as [|e es IH]; intros t; cbn [fold_left].
  - rewrite !count_nil. lia.
  - rewrite IH, !count_cons.
    unfold Gamification.tally, Spec.isOther, Spec.isNegative, Spec.isPositive.
    destruct (Js.optIncludes (type e) "positive");
      destruct (Js.optIncludes (type e) "negative");
      cbn -[Z.mul Z.add Z.sub Js.count]; lia.
Qed.

(** C6: the total points of the recompute are 10 for every entry whose
    type mentions 'positive', minus 5 for every other entry whose type
    mentions 'negative', plus 5 for every entry of neither kind, plus 50
    for every goal with currentValue >= targetValue, plus 5 times the
    recomputed current streak. *)
Theorem total_points_formula (z : Time.Zone) (now : Z)
    (stored : Gamification.UserProfile) (entries : list HabitEntry)
    (goals : list Goal) :
  let stats := Gamification.recalculateStats z now stored entries goals in
  Gamification.totalPoints (Gamification.profile stats)
  = 10 * Js.count Spec.isPositive entries
    - 5 * Js.count Spec.isNegative entries
    + 5 * Js.count Spec.isOther entries
    + 50 * Js.count (fun g => Qle_bool (targetValue g) (currentValue g)) goals
    + 5 * Gamification.currentStreak (Gamification.profile stats).
Proof.
  cbv zeta. unfold Gamification.recalculateStats.
  cbn [Gamification.profile Gamification.totalPoints
       Gamification.currentStreak].
  rewrite tally_points. unfold Js.count, Gamification.completed.
  cbn [Gamification.t_points Gamification.totals0
       Gamification.goalComplete Gamification.streak
       Gamification.POINTS_CONFIG]. lia.
Qed.

(** ** Badges *)

Lemma checkBadge_new pid ids stats bds : forall acc b,
  In b (fst (fold_left (Gamification.checkBadge pid ids stats) bds acc)) ->
  In b (fst acc)
  \/ exists bd, In bd bds
                /\ Gamification.earned (Gamification.def_requirement bd) stats
                   = true
                /\ b = Gamification.createBadge pid bd.
Proof.
  induction bds as [|bd bds IH]; intros acc b H; simpl in H; [now left |].
  apply IH in H as [H | (bd' & Hin & He & Hb)].
  - unfold Gamification.checkBadge in H.
    destruct (Js.arrayIncludes ids (Gamification.def_name bd)); [now left |].
    destruct (Gamification.earned _ stats) eqn:He; [| now left].
    simpl in H. apply in_app_or in H as [H | [<- | []]]; [now left |].
    right. exists bd. repeat split; [now left | exact He].
  - right. exists bd'. repeat split; [now right | exact He | exact Hb].
Qed.

Lemma checkForNewBadges_fold profileId existingBadges stats :
  Gamification.checkForNewBadges profileId existingBadges stats
  = fold_left
      (Gamification.checkBadge profileId
         (map Gamification.badge_name existingBadges) stats)
      Gamification.BADGES ([], existingBadges).
Proof. reflexivity. Qed.

Lemma untested_badges_not_earned stats bd :
  In bd Gamification.BADGES ->
  Gamification.def_name bd = "Insight Seeker"
  \/ Gamification.def_name bd = "Streak Saver"
  \/ Gamification.def_name bd = "Iron Will" ->
  Gamification.earned (Gamification.def_requirement bd) stats = false.
Proof.
  intros Hin Hname. simpl in Hin.
  repeat (destruct Hin as [<- | Hin];
          [cbn [Gamification.def_name Gamification.def_requirement]
             in Hname |- *;
           destruct Hname as [Hn | [Hn | Hn]];
           first [discriminate Hn | reflexivity] |]).
  destruct Hin.
Qed.

(** C10: no requirement of 'Insight Seeker', 'Streak Saver' or 'Iron Will'
    is among the nine keys the badge check tests (the check gives the same
    answer whatever insightsViewed, streakSaved, positiveRatio and days
    hold), so for every stats state these three are not earned and no
    badge the pass creates bears one of their names. *)
Theorem unearnable_badges (profileId : string)
    (existingBadges : list Gamification.Badge) (stats : Gamification.Stats) :
  (forall r iv ss pr dy,
      Gamification.earned
        (Gamification.mkReq (Gamification.req_entries r)
           (Gamification.req_streak r) (Gamification.req_goalsCompleted r)
           (Gamification.req_moodEntries r) (Gamification.req_morningEntries r)
           (Gamification.req_eveningEntries r)
           (Gamification.req_uniqueActivities r)
           (Gamification.req_positiveCount r) iv ss
           (Gamification.req_categories r) pr dy) stats
      = Gamification.earned r stats)
  /\ (forall bd, In bd Gamification.BADGES ->
        Gamification.def_name bd = "Insight Seeker"
        \/ Gamification.def_name bd = "Streak Saver"
        \/ Gamification.def_name bd = "Iron Will" ->
        Gamification.earned (Gamification.def_requirement bd) stats = false)
  /\ (forall b,
        In b (fst (Gamification.checkForNewBadges profileId existingBadges
                     stats)) ->
        Gamification.badge_name b <> "Insight Seeker"
        /\ Gamification.badge_name b <> "Streak Saver"
        /\ Gamification.badge_name b <> "Iron Will").
Proof.
  split; [reflexivity |].
  split; [intros bd; apply untested_badges_not_earned |].
  intros b H. rewrite checkForNewBadges_fold in H.
  apply checkBadge_new in H. destruct H as [[] | (bd & Hin & He & ->)].
  cbn [Gamification.createBadge Gamification.badge_name].
  split; [| split]; intros Hn.
  - rewrite (untested_badges_not_earned stats bd Hin (or_introl Hn)) in He.
    discriminate He.
  - rewrite (untested_badges_not_earned stats bd Hin
               (or_intror (or_introl Hn))) in He.
    discriminate He.
  - rewrite (untested_badges_not_earned stats bd Hin
               (or_intror (or_intror Hn))) in He.
    discriminate He.
Qed.

Lemma unearnable_badges_witness :
  In Sample.firstStepBadge
    (fst (Gamification.checkForNewBadges "p" [] Sample.firstEntryStats))
  /\ Gamification.badge_name Sample.firstStepBadge <> "Iron Will".
Proof.
  assert (H : In Sample.firstStepBadge
                (fst (Gamification.checkForNewBadges "p" []
                        Sample.firstEntryStats))).
  { vm_compute. left. reflexivity. }
  split; [exact H |].
  exact (proj2 (proj2 (proj2 (proj2 (unearnable_badges "p" []
                                       Sample.firstEntryStats))
                         Sample.firstStepBadge H))).
Defined.

(** ** Sets in insertion order *)

Section DistinctFacts.
Context {A : Type} (eqb : A -> A -> bool).
Hypothesis eqb_spec : forall a b, reflect (a = b) (eqb a b).

Lemma existsb_eqb_In x (s : list A) : existsb (eqb x) s = true <-> In x s.
Proof.
  rewrite existsb_exists. split.
  - intros (y & Hy & E). destruct (eqb_spec x y); [now subst | discriminate].
  - intros H. exists x. split; [exact H |].
    destruct (eqb_spec x x); congruence.
Qed.

Lemma In_setAdd x y (s : list A) : In y (Js.setAdd eqb x s) <-> y = x \/ In y s.
Proof.
  unfold Js.setAdd. destruct (existsb (eqb x) s) eqn:E.
  - apply existsb_eqb_In in E. split; [now right | now intros [-> | H]].
  - rewrite in_app_iff. simpl. intuition congruence.
Qed.

Lemma NoDup_setAdd x (s : list A) : NoDup s -> NoDup (Js.setAdd eqb x s).
Proof.
  intros Hnd. unfold Js.setAdd. destruct (existsb (eqb x) s) eqn:E; [exact Hnd |].
  apply Permutation_NoDup with (l := x :: s);
    [apply Permutation_cons_append |].
  constructor; [| exact Hnd].
  intros H. apply existsb_eqb_In in H. congruence.
Qed.

Lemma In_fold_setAdd xs : forall s y,
  In y (fold_left (fun s x => Js.setAdd eqb x s) xs s) <-> In y s \/ In y xs.
Proof.
  induction xs as [|x xs IH]; intros s y; simpl; [tauto |].
  rewrite IH, In_setAdd. intuition congruence.
Qed.

Lemma NoDup_fold_setAdd xs : forall s,
  NoDup s -> NoDup (fold_left (fun s x => Js.setAdd eqb x s) xs s).
Proof.
  induction xs as [|x xs IH]; intros s Hnd; simpl; [exact Hnd |].
  apply IH. now apply NoDup_setAdd.
Qed.

Lemma In_distinct xs y : In y (Js.distinct eqb xs) <-> In y xs.
Proof. unfold Js.distinct. rewrite In_fold_setAdd. simpl. tauto. Qed.

Lemma NoDup_distinct xs : NoDup (Js.distinct eqb xs).
Proof. apply NoDup_fold_setAdd. constructor. Qed.
End DistinctFacts.

(** ** Streaks *)

Lemma checkDay_step z now i :
  Time.checkDay z now i = Time.checkDay z now 0 - i.
Proof.
  unfold Time.checkDay, Time.utcDay.
  replace (Time.localMidnight z now - i * Time.msPerDay)
    with (Time.localMidnight z now + (- i) * Time.msPerDay) by lia.
  rewrite Z.div_add by (unfold Time.msPerDay; lia).
  rewrite Z.mul_0_l, Z.sub_0_r. lia.
Qed.

(** With the process in UTC the anchor of the streak is the UTC day of
    [now]. *)
Lemma checkDay_utc now : Time.checkDay Sample.utc now 0 = Time.utcDay now.
Proof.
  unfold Time.checkDay, Time.localMidnight, Time.utcDay, Sample.utc.
  rewrite Z.mul_0_l, Z.sub_0_r, Z.add_0_r.
  assert (Hm : 0 < Time.msPerDay) by (unfold Time.msPerDay; lia).
  pose proof (Z.mod_pos_bound now Time.msPerDay Hm).
  pose proof (Z.div_mod now Time.msPerDay ltac:(lia)).
  symmetry. apply Z.div_unique with (r := 0); lia.
Qed.

Section CurrentStreak.
Variables (dates : list Z) (z : Time.Zone) (now : Z).

Let today := Time.checkDay z now 0.

Lemma currentLoop_run : forall bound i,
  let k := Stats.currentLoop dates z now i bound in
  0 <= k <= Z.of_nat bound
  /\ (forall j, 0 <= j < k -> In (today - (i + j)) dates)
  /\ (k < Z.of_nat bound -> ~ In (today - (i + k)) dates).
Proof.
  induction bound as [|bound IH]; intros i; cbv zeta; cbn [Stats.currentLoop].
  - repeat split; lia.
  - rewrite checkDay_step. fold today.
    destruct (existsb (Z.eqb (today - i)) dates) eqn:E.
    + apply (existsb_eqb_In Z.eqb Z.eqb_spec) in E.
      specialize (IH (i + 1)). cbv zeta in IH.
      destruct IH as (Hk & Hin & Hout).
      split; [lia |]. split.
      * intros j Hj. destruct (Z.eq_dec j 0) as [-> | Hj0].
        -- now rewrite Z.add_0_r.
        -- replace (i + j) with (i + 1 + (j - 1)) by lia. apply Hin. lia.
      * intros Hlt.
        replace (i + (1 + Stats.currentLoop dates z now (i + 1) bound))
          with (i + 1 + Stats.currentLoop dates z now (i + 1) bound) by lia.
        apply Hout. lia.
    + split; [lia |]. split; [intros j Hj; lia |].
      intros _ H. rewrite Z.add_0_r in H.
      apply (existsb_eqb_In Z.eqb Z.eqb_spec) in H. congruence.
Qed.

(** A run of as many days as there are distinct dates uses them all. *)
Lemma run_exhausts_dates :
  NoDup dates ->
  (forall j, 0 <= j < Z.of_nat (List.length dates) -> In (today - j) dates) ->
  ~ In (today - Z.of_nat (List.length dates)) dates.
Proof.
  intros Hnd Hrun Hin.
  set (n := List.length dates) in *.
  set (run := map (fun j => today - Z.of_nat j) (seq 0 n)).
  assert (Hincl : incl dates run).
  { apply NoDup_length_incl.
    - unfold run. apply Finite.Injective_map_NoDup; [| apply seq_NoDup].
      intros a b Hab. lia.
    - unfold run. rewrite length_map, length_seq. fold n. lia.
    - intros d Hd. unfold run in Hd. apply in_map_iff in Hd as (j & <- & Hj).
      apply in_seq in Hj. apply Hrun. lia. }
  apply Hincl in Hin. unfold run in Hin.
  apply in_map_iff in Hin as (j & Hj & Hjn). apply in_seq in Hjn. lia.
Qed.
End CurrentStreak.

Lemma streak_dates_In entries d :
  In d (rev (Js.sortBy Z.leb
               (Js.distinct Z.eqb
                  (map (fun e => Time.utcDay (date e)) entries))))
  <-> Spec.hasEntryOn entries d.
Proof.
  rewrite <- in_rev, In_sortBy, (In_distinct Z.eqb Z.eqb_spec), in_map_iff.
  unfold Spec.hasEntryOn. split; intros (e & H1 & H2); exists e; tauto.
Qed.

Lemma streak_dates_NoDup entries :
  NoDup (rev (Js.sortBy Z.leb
                (Js.distinct Z.eqb
                   (map (fun e => Time.utcDay (date e)) entries)))).
Proof.
  apply NoDup_rev.
  apply Permutation_NoDup with (l := Js.distinct Z.eqb
                                  (map (fun e => Time.utcDay (date e)) entries)).
  - apply Permutation_sym, sortBy_perm.
  - apply (NoDup_distinct Z.eqb Z.eqb_spec).
Qed.

Lemma current_streak_run z now entries :
  let today := Time.checkDay z now 0 in
  let k := Stats.current (Stats.calculateStreaks z now entries) in
  0 <= k
  /\ (forall i, 0 <= i < k -> Spec.hasEntryOn entries (today - i))
  /\ ~ Spec.hasEntryOn entries (today - k).
Proof.
  cbv zeta. unfold Stats.calculateStreaks. cbn [Stats.current].
  set (dates := rev _).
  pose proof (currentLoop_run dates z now (List.length dates) 0) as H.
  cbv zeta in H. destruct H as (Hk & Hin & Hout).
  split; [lia |]. split.
  - intros i Hi. apply streak_dates_In. fold dates.
    specialize (Hin i Hi). now rewrite Z.add_0_l in Hin.
  - intros H. apply streak_dates_In in H. fold dates in H.
    destruct (Z_lt_le_dec (Stats.currentLoop dates z now 0 (List.length dates))
                (Z.of_nat (List.length dates))) as [Hlt | Hge].
    + apply (Hout Hlt). now rewrite Z.add_0_l.
    + assert (E : Stats.currentLoop dates z now 0 (List.length dates)
                  = Z.of_nat (List.length dates)) by lia.
      rewrite E in H, Hin.
      apply (run_exhausts_dates dates z now); [apply streak_dates_NoDup | | exact H].
      intros j Hj. specialize (Hin j Hj). now rewrite Z.add_0_l in Hin.
Qed.

(** In a zone of fixed offset the loop starts from the UTC day of the
    local midnight before [now]: the local day of [now] when local time
    is behind UTC or equal to it, the day before it when local time is
    ahead of UTC. *)
Lemma checkDay_fixed_offset z now :
  Time.fixedOffset z ->
  Time.checkDay z now 0 = Time.localDay z now + (- z 0) / Time.msPerDay.
Proof.
  intros Hz. unfold Time.checkDay, Time.localMidnight, Time.localDay,
    Time.utcDay.
  rewrite (Hz now), Z.mul_0_l, Z.sub_0_r.
  assert (Hm : Time.msPerDay <> 0) by (unfold Time.msPerDay; lia).
  pose proof (Z.div_mod (now + z 0) Time.msPerDay Hm) as E.
  replace (now - (now + z 0) mod Time.msPerDay)
    with ((now + z 0) / Time.msPerDay * Time.msPerDay + - z 0) by lia.
  rewrite Z.div_add_l by exact Hm. reflexivity.
Qed.

(** What the loop computes in a zone of fixed offset: the current streak
    is the largest k such that each of the k UTC days anchor, anchor - 1,
    ..., anchor - (k - 1) has at least one entry, where the anchor is the
    day the loop starts from.  With the process in UTC the anchor is
    today ([checkDay_utc]), and then entries on today and yesterday only
    give 2, entries on today and three days ago only give 1, and no
    entries give 0. *)
Lemma current_streak_run_from_anchor (z : Time.Zone) (now : Z)
    (entries : list HabitEntry) :
  Time.fixedOffset z ->
  let anchor := Time.checkDay z now 0 in
  let k := Stats.current (Stats.calculateStreaks z now entries) in
  0 <= k
  /\ (forall i, 0 <= i < k -> Spec.hasEntryOn entries (anchor - i))
  /\ (forall k', (forall i, 0 <= i < k' -> Spec.hasEntryOn entries (anchor - i)) ->
                 k' <= k)
  /\ ((forall d, Spec.hasEntryOn entries d <-> d = anchor \/ d = anchor - 1) ->
      k = 2)
  /\ ((forall d, Spec.hasEntryOn entries d <-> d = anchor \/ d = anchor - 3) ->
      k = 1)
  /\ (entries = [] -> k = 0).
Proof.
  intros _ today k.
  destruct (current_streak_run z now entries) as (Hk & Hin & Hout).
  fold today k in Hk, Hin, Hout.
  assert (Hmax : forall k',
             (forall i, 0 <= i < k' -> Spec.hasEntryOn entries (today - i)) ->
             k' <= k).
  { intros k' Hrun. destruct (Z_le_gt_dec k' k) as [Hle | Hgt]; [exact Hle |].
    exfalso. apply Hout, Hrun. lia. }
  split; [exact Hk |]. split; [exact Hin |]. split; [exact Hmax |].
  split; [| split].
  - intros Hd.
    assert (2 <= k).
    { apply Hmax. intros i Hi. apply Hd. lia. }
    destruct (Z.eq_dec k 2) as [E | Hne]; [exact E |].
    specialize (Hin 2 ltac:(lia)). apply Hd in Hin. lia.
  - intros Hd.
    assert (1 <= k).
    { apply Hmax. intros i Hi. apply Hd. lia. }
    destruct (Z.eq_dec k 1) as [E | Hne]; [exact E |].
    specialize (Hin 1 ltac:(lia)). apply Hd in Hin. lia.
  - intros ->. destruct (Z.eq_dec k 0) as [E | Hne]; [exact E |].
    specialize (Hin 0 ltac:(lia)). destruct Hin as (e & [] & _).
Qed.

(** C7: the failing input.  The process runs six hours ahead of UTC and
    the request comes at ten in the morning of 2026-11-03 (day 20760).
    One entry was logged at nine that morning and one at nine the morning
    before: they fall on today and on yesterday, by the local calendar
    and by the UTC calendar alike.  The loop starts from local midnight,
    which is 18:00 of the day before in UTC, so the first day it looks for
    is yesterday: the streak of the two entries is 1, not 2, and the
    streak of the entry of today alone is 0, not 1. *)
Theorem current_streak_east_of_utc :
  let z := Sample.dhaka in
  let now := Sample.tenOClock in
  Time.fixedOffset z
  /\ Time.localDay z now = 20760 /\ Time.utcDay now = 20760
  /\ Time.localDay z (date Sample.loggedToday) = 20760
  /\ Time.utcDay (date Sample.loggedToday) = 20760
  /\ Time.localDay z (date Sample.loggedYesterday) = 20759
  /\ Time.utcDay (date Sample.loggedYesterday) = 20759
  /\ Time.checkDay z now 0 = 20759
  /\ Stats.current
       (Stats.calculateStreaks z now
          [Sample.loggedYesterday; Sample.loggedToday]) = 1
  /\ Stats.current (Stats.calculateStreaks z now [Sample.loggedToday]) = 0.
Proof.
  cbv zeta. split; [intros t; reflexivity |].
  repeat split; vm_compute; reflexivity.
Qed.

(** ** The fallback classifier *)

Lemma rules_well_formed r :
  In r Parse.behaviorPatterns -> Parse.wellFormedRule r = true.
Proof.
  assert (H : forallb Parse.wellFormedRule Parse.behaviorPatterns = true)
    by (vm_compute; reflexivity).
  rewrite forallb_forall in H. apply H.
Qed.

Lemma find_existsb {A} (f : A -> bool) l :
  existsb f l = false -> find f l = None.
Proof.
  induction l as [|x l IH]; simpl; [reflexivity |].
  destruct (f x); simpl; [discriminate | exact IH].
Qed.

Lemma inferSentiment_values text :
  Parse.inferSentimentFromText text = "positive"
  \/ Parse.inferSentimentFromText text = "neutral"
  \/ Parse.inferSentimentFromText text = "negative".
Proof.
  unfold Parse.inferSentimentFromText.
  destruct (_ <? _); [tauto |]. destruct (_ <? _); tauto.
Qed.

(** The two ways [enhancedFallbackParse] fills the fields of the claim:
    from the first rule that matches, or from the defaults. *)
Lemma enhancedFallbackParse_fields text :
  let lowerText := Js.toLowerCase text in
  let r := Parse.enhancedFallbackParse text in
  (exists rule,
      find (Parse.ruleMatches lowerText) Parse.behaviorPatterns = Some rule
      /\ Parse.p_activity r = Parse.rule_activity rule
      /\ Parse.p_type r = Some (Parse.rule_type rule)
      /\ Parse.p_category r = Some (Parse.rule_category rule)
      /\ Parse.p_sentiment r
         = if String.eqb (Parse.rule_sentiment rule) "neutral"
           then Parse.inferSentimentFromText text
           else Parse.rule_sentiment rule)
  \/ (find (Parse.ruleMatches lowerText) Parse.behaviorPatterns = None
      /\ Parse.p_activity r = "unspecified activity"
      /\ Parse.p_type r = Some "neutral activity"
      /\ Parse.p_category r = Some "habits"
      /\ Parse.p_sentiment r = Parse.inferSentimentFromText text).
Proof.
  cbv zeta. unfold Parse.enhancedFallbackParse.
  destruct (find _ Parse.behaviorPatterns) as [rule|];
    destruct (Parse.matchQuantity _) as [[q u]|];
    cbn [Parse.p_activity Parse.p_type Parse.p_category Parse.p_sentiment].
  - left. exists rule. repeat split.
  - left. exists rule. repeat split.
  - right. repeat split.
  - right. repeat split.
Qed.

Lemma orElse_nonempty o d : d <> "" -> Parse.orElse o d <> "".
Proof.
  intros Hd. unfold Parse.orElse, Js.truthy.
  destruct o as [v|]; [| exact Hd].
  destruct (String.eqb_spec v ""); simpl; [exact Hd | assumption].
Qed.

Lemma orElse_truthy v d : v <> "" -> Parse.orElse (Some v) d = v.
Proof.
  intros Hv. unfold Parse.orElse, Js.truthy.
  destruct (String.eqb_spec v ""); [contradiction | reflexivity].
Qed.

(** C8: on each path that ends in the deterministic fallback the
    classifier is a total function of the text (no operation of it can
    throw), and its record has a non-empty activity, a non-empty type and
    one of the three sentiments; when no activity rule matches, the
    activity is 'unspecified activity', the type 'neutral activity', the
    category 'habits' and the sentiment the one the sentiment inference
    gives for the text. *)
Theorem fallback_classifier_fields (failure : Parse.OracleFailure)
    (text : string) :
  let r := Parse.parseHabitText failure text in
  Parse.p_activity r <> ""
  /\ (exists t, Parse.p_type r = Some t /\ t <> "")
  /\ (Parse.p_sentiment r = "positive"
      \/ Parse.p_sentiment r = "neutral"
      \/ Parse.p_sentiment r = "negative")
  /\ (existsb (Parse.ruleMatches (Js.toLowerCase text)) Parse.behaviorPatterns
      = false ->
      Parse.p_activity r = "unspecified activity"
      /\ Parse.p_type r = Some "neutral activity"
      /\ Parse.p_category r = Some "habits"
      /\ Parse.p_sentiment r = Parse.inferSentimentFromText text).
Proof.
  cbv zeta.
  assert (F : let r := Parse.enhancedFallbackParse text in
              Parse.p_activity r <> ""
              /\ (exists t, Parse.p_type r = Some t /\ t <> "")
              /\ (exists c, Parse.p_category r = Some c /\ c <> "")
              /\ (Parse.p_sentiment r = "positive"
                  \/ Parse.p_sentiment r = "neutral"
                  \/ Parse.p_sentiment r = "negative")
              /\ (existsb (Parse.ruleMatches (Js.toLowerCase text))
                    Parse.behaviorPatterns = false ->
                  Parse.p_activity r = "unspecified activity"
                  /\ Parse.p_type r = Some "neutral activity"
                  /\ Parse.p_category r = Some "habits"
                  /\ Parse.p_sentiment r = Parse.inferSentimentFromText text)).
  { cbv zeta.
    destruct (enhancedFallbackParse_fields text)
      as [(rule & Hfind & -> & -> & -> & ->) | (Hfind & -> & -> & -> & ->)].
    - pose proof (rules_well_formed rule (proj1 (find_some _ _ Hfind))) as W.
      unfold Parse.wellFormedRule in W.
      apply andb_prop in W as [W Hs]. apply andb_prop in W as [W Hc].
      apply andb_prop in W as [Ha Ht].
      apply negb_true_iff in Ha, Ht, Hc.
      split; [intros E; rewrite E in Ha; discriminate |].
      split; [eexists; split; [reflexivity |];
              intros E; rewrite E in Ht; discriminate |].
      split; [eexists; split; [reflexivity |];
              intros E; rewrite E in Hc; discriminate |].
      split.
      + destruct (String.eqb_spec (Parse.rule_sentiment rule) "neutral");
          [apply inferSentiment_values |].
        destruct (String.eqb_spec (Parse.rule_sentiment rule) "positive");
          [tauto |].
        destruct (String.eqb_spec (Parse.rule_sentiment rule) "negative");
          [tauto | discriminate].
      + intros E. apply find_existsb in E. congruence.
    - split; [discriminate |].
      split; [eexists; split; [reflexivity | discriminate] |].
      split; [eexists; split; [reflexivity | discriminate] |].
      split; [apply inferSentiment_values | intros _; repeat split]. }
  cbv zeta in F. destruct F as (Fa & (t & Ft & Ht) & (c & Fc & Hc) & Fs & Fd).
  assert (Hs : Parse.p_sentiment (Parse.enhancedFallbackParse text) <> "")
    by (destruct Fs as [E | [E | E]]; rewrite E; discriminate).
  destruct failure; cbn [Parse.parseHabitText].
  - repeat split; try assumption; try (now apply Fd). now exists t.
  - cbn [Parse.p_activity Parse.p_type Parse.p_category Parse.p_sentiment].
    rewrite Ft, Fc, !orElse_truthy by assumption.
    split; [exact Fa |]. split; [now exists t |]. split; [exact Fs |].
    intros E. destruct (Fd E) as (Da & Dt & Dc & Ds).
    rewrite Ft in Dt. rewrite Fc in Dc.
    repeat split; congruence.
Qed.

Lemma fallback_classifier_fields_witness :
  existsb (Parse.ruleMatches (Js.toLowerCase "Hello there"))
    Parse.behaviorPatterns = false
  /\ Parse.p_activity (Parse.parseHabitText Parse.OracleThrew "Hello there")
     = "unspecified activity".
Proof.
  assert (H : existsb (Parse.ruleMatches (Js.toLowerCase "Hello there"))
                Parse.behaviorPatterns = false) by (vm_compute; reflexivity).
  split; [exact H |].
  exact (proj1 (proj2 (proj2 (proj2
           (fallback_classifier_fields Parse.OracleThrew "Hello there"))) H)).
Defined.

(** ** Creating an entry *)

Section GoalUpdateFailures.
Variable faults : nat -> bool.

Lemma quiet_ret {A} (a : A) : Habits.quiet (Habits.ret a).
Proof. intros w. split; reflexivity. Qed.

Lemma quiet_bind {A B} (m : Habits.M A) (k : A -> Habits.M B) :
  Habits.quiet m -> (forall a, Habits.quiet (k a)) ->
  Habits.quiet (Habits.bind m k).
Proof.
  intros Hm Hk w. unfold Habits.bind. specialize (Hm w).
  destruct (m w) as [w1 [a | e]]; simpl in *; [| exact Hm].
  destruct (Hk a w1) as [H1 H2]. destruct Hm as [H3 H4].
  split; congruence.
Qed.

Lemma quiet_dbCall {A}
    (op : list HabitEntry -> list Goal -> list HabitEntry * list Goal * A) :
  (forall es gs, fst (fst (op es gs)) = es) ->
  Habits.quiet (Habits.dbCall faults op).
Proof.
  intros Hop w. unfold Habits.dbCall.
  destruct (faults (Habits.calls w)); simpl; [split; reflexivity |].
  specialize (Hop (Habits.entries w) (Habits.goals w)).
  destruct (op (Habits.entries w) (Habits.goals w)) as [[es gs] a].
  simpl in *. split; [exact Hop | reflexivity].
Qed.

Lemma quiet_updateGoal z now activity goal :
  Habits.quiet (Habits.updateGoal faults z now activity goal).
Proof.
  unfold Habits.updateGoal.
  destruct (if String.eqb (period goal) "daily" then _ else _)
    as [[startDate endDate]|]; [| apply quiet_ret].
  apply quiet_bind; [now apply quiet_dbCall |].
  intros found. now apply quiet_dbCall.
Qed.

Lemma quiet_forEachGoal f gs :
  (forall g, Habits.quiet (f g)) -> Habits.quiet (Habits.forEachGoal f gs).
Proof.
  intros Hf. induction gs as [|g gs IH]; simpl; [apply quiet_ret |].
  apply quiet_bind; [apply Hf | intros _; exact IH].
Qed.

(** The goal update never throws: a failure inside its [try] block ends in
    its own [catch], which writes one line to the console. *)
Lemma updateGoalProgress_returns z now activity quantity w :
  exists w',
    Habits.updateGoalProgress faults z now activity quantity w
    = (w', Habits.Returned tt)
    /\ Habits.entries w' = Habits.entries w
    /\ Habits.console w'
       = match snd (Habits.updateGoalProgressTry faults z now activity w) with
         | Habits.Returned _ => Habits.console w
         | Habits.Thrown _ =>
             (Habits.console w ++ ["Error updating goal progress:"])%list
         end.
Proof.
  unfold Habits.updateGoalProgress, Habits.tryCatch.
  assert (Q : Habits.quiet (Habits.updateGoalProgressTry faults z now activity)).
  { apply quiet_bind; [now apply quiet_dbCall |].
    intros found. apply quiet_forEachGoal. intros g. apply quiet_updateGoal. }
  destruct (Q w) as [Qe Qc].
  destruct (Habits.updateGoalProgressTry faults z now activity w)
    as [w1 [[] | e]]; simpl in *.
  - exists w1. repeat split; assumption.
  - eexists. split; [reflexivity |]. simpl. split; [exact Qe |].
    now rewrite Qc.
Qed.
End GoalUpdateFailures.

(** C9: when the entry is created, the request answers with the stored
    record as a success and the record is in the store, whichever of the
    database calls of the goal-progress update throw.  A failure of the
    update (its [try] block throws, run on the store that holds the new
    entry) is caught inside it and logged with one line on the console;
    without a failure, or without a quantity, nothing is logged; the
    failure answer of the route is never given. *)
Theorem goal_update_failure_never_fails_creation (faults : nat -> bool)
    (z : Time.Zone) (now : Z) (body : Habits.Body) (rawText activity : string)
    (w : Habits.World) :
  Habits.b_rawText body = Some rawText -> rawText <> "" ->
  Habits.b_activity body = Some activity -> activity <> "" ->
  faults (Habits.calls w) = false ->
  let habit :=
    Habits.newEntry now body rawText activity
      (List.length (Habits.entries w)) in
  let created :=
    Habits.mkWorld (Habits.entries w ++ [habit])%list (Habits.goals w)
      (S (Habits.calls w)) (Habits.console w) in
  exists w',
    Habits.POST faults z now (Some body) w
    = (w', Habits.Returned (Habits.Success habit))
    /\ Habits.entries w' = (Habits.entries w ++ [habit])%list
    /\ Habits.console w'
       = if Habits.truthyNumber (Habits.b_quantity body) then
           match snd (Habits.updateGoalProgressTry faults z now activity
                        created) with
           | Habits.Returned _ => Habits.console w
           | Habits.Thrown _ =>
               (Habits.console w ++ ["Error updating goal progress:"])%list
           end
         else Habits.console w.
Proof.
  intros Hraw Hrawne Hact Hactne Hcreate habit created.
  unfold Habits.POST, Habits.tryCatch. rewrite Hraw, Hact.
  assert (Ht : Js.truthy (Some rawText) && Js.truthy (Some activity) = true).
  { unfold Js.truthy.
    destruct (String.eqb_spec rawText ""); [contradiction |].
    destruct (String.eqb_spec activity ""); [contradiction | reflexivity]. }
  rewrite Ht.
  unfold Habits.bind at 1. unfold Habits.entryCreate, Habits.dbCall at 1.
  rewrite Hcreate. cbv beta iota zeta. fold habit. fold created.
  unfold Habits.bind.
  destruct (Habits.b_quantity body) as [q|].
  - destruct (Habits.truthyNumber (Some q)).
    + destruct (updateGoalProgress_returns faults z now activity q created)
        as (w' & E & He & Hc).
      rewrite E. exists w'. split; [reflexivity |]. split; assumption.
    + exists created. repeat split.
  - exists created. repeat split.
Qed.

Lemma goal_update_failure_never_fails_creation_witness :
  exists w',
    Habits.POST (fun n => negb (Nat.eqb n 0)) Sample.utc (Sample.noon 100)
      (Some Sample.runBody) Sample.oneGoal
    = (w', Habits.Returned
             (Habits.Success
                (Habits.newEntry (Sample.noon 100) Sample.runBody
                   "ran 5km" "run" 0)))
    /\ Habits.console w' = ["Error updating goal progress:"].
Proof.
  destruct (goal_update_failure_never_fails_creation
              (fun n => negb (Nat.eqb n 0)) Sample.utc (Sample.noon 100)
              Sample.runBody "ran 5km" "run" Sample.oneGoal
              eq_refl ltac:(discriminate) eq_refl ltac:(discriminate) eq_refl)
    as (w' & E & _ & _).
  exists w'. split; [exact E |].
  vm_compute in E. injection E as <-. reflexivity.
Defined.

(** ** Habit stacks: the counters *)

Lemma countOf_increment a a' m :
  Stacks.countOf (Js.increment a' m) a
  = Stacks.countOf m a + Js.indicator (String.eqb a a').
Proof.
  unfold Stacks.countOf, Js.increment.
  rewrite (get_update String.eqb String.eqb_spec).
  destruct (String.eqb_spec a a') as [-> | _]; simpl; [| lia].
  destruct (Js.get String.eqb a' m); lia.
Qed.

Lemma keys_increment_NoDup a (m : list (string * Z)) :
  NoDup (map fst m) -> NoDup (map fst (Js.increment a m)).
Proof. apply (keys_update_NoDup String.eqb String.eqb_spec). Qed.

Lemma countOf_increments a us : forall m,
  NoDup us ->
  Stacks.countOf (fold_left (fun counts u => Js.increment u counts) us m) a
  = Stacks.countOf m a + Js.indicator (existsb (String.eqb a) us).
Proof.
  induction us as [|u us IH]; intros m Hnd; simpl; [unfold Js.indicator; lia |].
  inversion Hnd as [|? ? Hnotin Hnd']; subst.
  rewrite IH by assumption. rewrite countOf_increment.
  destruct (String.eqb_spec a u) as [-> | _]; simpl; [| unfold Js.indicator; lia].
  destruct (existsb (String.eqb u) us) eqn:E; [| simpl; lia].
  apply (existsb_eqb_In String.eqb String.eqb_spec) in E. contradiction.
Qed.

Lemma keys_increments_NoDup us : forall (m : list (string * Z)),
  NoDup (map fst m) ->
  NoDup (map fst (fold_left (fun counts u => Js.increment u counts) us m)).
Proof.
  induction us as [|u us IH]; intros m Hnd; simpl; [exact Hnd |].
  apply IH. now apply keys_increment_NoDup.
Qed.

Lemma ensure_ok a co : Stacks.tableOk co -> Stacks.tableOk (Stacks.ensure a co).
Proof.
  intros [Hk Hr]. unfold Stacks.ensure, Js.has.
  destruct (Js.get String.eqb a co) eqn:E; [now split |].
  split.
  - rewrite map_app. simpl.
    apply Permutation_NoDup with (l := a :: map fst co);
      [apply Permutation_cons_append |].
    constructor; [| exact Hk].
    now apply (get_None_not_key String.eqb String.eqb_spec).
  - apply Forall_app. split; [exact Hr |]. repeat constructor.
Qed.

Lemma coCountOf_ensure a b a' co :
  Stacks.coCountOf (Stacks.ensure a' co) a b = Stacks.coCountOf co a b.
Proof.
  unfold Stacks.ensure, Js.has, Stacks.coCountOf.
  destruct (Js.get String.eqb a' co) eqn:E; [reflexivity |].
  rewrite (get_app String.eqb).
  destruct (Js.get String.eqb a co) eqn:E'; [reflexivity |]. simpl.
  destruct (String.eqb a a'); reflexivity.
Qed.

Lemma has_ensure a co : Js.has String.eqb a (Stacks.ensure a co) = true.
Proof.
  unfold Stacks.ensure. destruct (Js.has String.eqb a co) eqn:E; [exact E |].
  unfold Js.has. rewrite (get_app String.eqb).
  destruct (Js.get String.eqb a co); [reflexivity |].
  simpl. now rewrite String.eqb_refl.
Qed.

Lemma has_ensure_other a a' co :
  Js.has String.eqb a co = true ->
  Js.has String.eqb a (Stacks.ensure a' co) = true.
Proof.
  intros H. unfold Stacks.ensure. destruct (Js.has String.eqb a' co); [exact H |].
  unfold Js.has in *. rewrite (get_app String.eqb).
  destruct (Js.get String.eqb a co); [reflexivity | discriminate].
Qed.

Lemma alter_ok f a co :
  (forall row, NoDup (map fst row) -> NoDup (map fst (f row))) ->
  Stacks.tableOk co -> Stacks.tableOk (Js.alter String.eqb f a co).
Proof.
  intros Hf [Hk Hr]. split; [now rewrite keys_alter |].
  clear Hk. induction co as [|[k row] co IH]; simpl; [constructor |].
  inversion Hr as [|? ? Hrow Hr']; subst.
  destruct (String.eqb a k); constructor; simpl in *; auto.
Qed.

Lemma coCountOf_alter_increment a b a1 a2 co :
  Js.has String.eqb a1 co = true ->
  Stacks.coCountOf (Js.alter String.eqb (Js.increment a2) a1 co) a b
  = Stacks.coCountOf co a b
    + Js.indicator (String.eqb a a1 && String.eqb b a2).
Proof.
  intros Hhas. unfold Stacks.coCountOf.
  rewrite (get_alter String.eqb String.eqb_spec).
  destruct (String.eqb_spec a a1) as [-> | _]; simpl; [| unfold Js.indicator; lia].
  unfold Js.has in Hhas.
  destruct (Js.get String.eqb a1 co) as [row|]; [| discriminate]. simpl.
  apply countOf_increment.
Qed.

Lemma has_alter f a a' (co : Stacks.CoOccurrences) :
  Js.has String.eqb a (Js.alter String.eqb f a' co) = Js.has String.eqb a co.
Proof.
  unfold Js.has. rewrite (get_alter String.eqb String.eqb_spec).
  destruct (String.eqb a a'); [| reflexivity].
  destruct (Js.get String.eqb a co); reflexivity.
Qed.

(** One pair adds one to its two cells. *)
Lemma countPair_spec a b a1 a2 co :
  Stacks.tableOk co ->
  Stacks.tableOk (Stacks.countPair a1 co a2)
  /\ Stacks.coCountOf (Stacks.countPair a1 co a2) a b
     = Stacks.coCountOf co a b
       + Js.indicator (String.eqb a a1 && String.eqb b a2)
       + Js.indicator (String.eqb a a2 && String.eqb b a1).
Proof.
  intros Hok. unfold Stacks.countPair. split.
  - apply alter_ok; [apply keys_increment_NoDup |].
    apply alter_ok; [apply keys_increment_NoDup |].
    now apply ensure_ok, ensure_ok.
  - rewrite coCountOf_alter_increment
      by (rewrite has_alter; apply has_ensure).
    rewrite coCountOf_alter_increment
      by (apply has_ensure_other, has_ensure).
    now rewrite !coCountOf_ensure.
Qed.

Lemma countPair_fold a b a1 rest : forall co,
  Stacks.tableOk co ->
  Stacks.tableOk (fold_left (Stacks.countPair a1) rest co)
  /\ (NoDup rest ->
      Stacks.coCountOf (fold_left (Stacks.countPair a1) rest co) a b
      = Stacks.coCountOf co a b
        + Js.indicator (String.eqb a a1 && existsb (String.eqb b) rest)
        + Js.indicator (String.eqb b a1 && existsb (String.eqb a) rest)).
Proof.
  induction rest as [|a2 rest IH]; intros co Hok; simpl.
  - split; [exact Hok |]. intros _. rewrite !andb_false_r. simpl. lia.
  - destruct (countPair_spec a b a1 a2 co Hok) as [Hok' Hc].
    destruct (IH _ Hok') as [Hok'' Hc'']. split; [exact Hok'' |].
    intros Hnd. inversion Hnd as [|? ? Hnotin Hnd']; subst.
    rewrite Hc'' by assumption. rewrite Hc.
    assert (Ha2 : existsb (String.eqb a2) rest = false).
    { destruct (existsb (String.eqb a2) rest) eqn:E; [| reflexivity].
      apply (existsb_eqb_In String.eqb String.eqb_spec) in E. contradiction. }
    destruct (String.eqb_spec a a1); destruct (String.eqb_spec b a1);
      destruct (String.eqb_spec a a2); destruct (String.eqb_spec b a2);
      destruct (existsb (String.eqb a) rest) eqn:Ma;
      destruct (existsb (String.eqb b) rest) eqn:Mb;
      simpl; try lia; exfalso; subst; congruence.
Qed.

Lemma countPairs_spec a b us : forall co,
  Stacks.tableOk co ->
  Stacks.tableOk (Stacks.countPairs us co)
  /\ (NoDup us ->
      Stacks.coCountOf (Stacks.countPairs us co) a b
      = Stacks.coCountOf co a b
        + Js.indicator (negb (String.eqb a b)
                     && existsb (String.eqb a) us
                     && existsb (String.eqb b) us)).
Proof.
  induction us as [|a1 rest IH]; intros co Hok; simpl.
  - split; [exact Hok |]. intros _. rewrite andb_false_r. simpl. lia.
  - destruct (countPair_fold a b a1 rest co Hok) as [Hok' Hc].
    destruct (IH _ Hok') as [Hok'' Hc'']. split; [exact Hok'' |].
    intros Hnd. inversion Hnd as [|? ? Hnotin Hnd']; subst.
    rewrite Hc'', Hc by assumption.
    assert (Ha1 : existsb (String.eqb a1) rest = false).
    { destruct (existsb (String.eqb a1) rest) eqn:E; [| reflexivity].
      apply (existsb_eqb_In String.eqb String.eqb_spec) in E. contradiction. }
    destruct (String.eqb_spec a a1); destruct (String.eqb_spec b a1);
      destruct (String.eqb_spec a b);
      destruct (existsb (String.eqb a) rest) eqn:Ma;
      destruct (existsb (String.eqb b) rest) eqn:Mb;
      simpl; try lia; exfalso; subst; congruence.
Qed.

(** The counters after all days: a cell counts the days that list both
    activities, a count the days that list the activity. *)
Lemma countAll_spec a b days : forall st,
  Stacks.tableOk (fst st) -> NoDup (map fst (snd st)) ->
  let st' := fold_left Stacks.countDay days st in
  Stacks.tableOk (fst st') /\ NoDup (map fst (snd st'))
  /\ Stacks.coCountOf (fst st') a b
     = Stacks.coCountOf (fst st) a b
       + Js.count (fun acts => negb (String.eqb a b)
                               && existsb (String.eqb a) acts
                               && existsb (String.eqb b) acts) days
  /\ Stacks.countOf (snd st') a
     = Stacks.countOf (snd st) a
       + Js.count (fun acts => existsb (String.eqb a) acts) days.
Proof.
  induction days as [|acts days IH]; intros [co counts] Hok Hnd; cbv zeta;
    cbn [fold_left fst snd] in *.
  - rewrite !count_nil. split; [exact Hok | split; [exact Hnd | split; lia]].
  - pose proof (NoDup_distinct String.eqb String.eqb_spec acts) as Hu.
    destruct (countPairs_spec a b (Js.distinct String.eqb acts) co Hok)
      as [Hok' Hco].
    specialize (Hco Hu).
    pose proof (keys_increments_NoDup (Js.distinct String.eqb acts) counts Hnd)
      as Hnd'.
    pose proof (countOf_increments a (Js.distinct String.eqb acts) counts Hu)
      as Hcn.
    specialize (IH (Stacks.countDay (co, counts) acts) Hok' Hnd').
    cbv zeta in IH. destruct IH as (I1 & I2 & I3 & I4).
    split; [exact I1 |]. split; [exact I2 |].
    rewrite I3, I4, !count_cons. unfold Stacks.countDay. cbn [fst snd].
    rewrite Hco, Hcn.
    assert (M : forall x, existsb (String.eqb x) (Js.distinct String.eqb acts)
                          = existsb (String.eqb x) acts).
    { intros x. apply eq_true_iff_eq.
      rewrite !(existsb_eqb_In String.eqb String.eqb_spec).
      apply (In_distinct String.eqb String.eqb_spec). }
    rewrite !M. unfold Js.indicator. split; lia.
Qed.

(** ** Habit stacks: the days *)

Section GroupKeys.
Context {K V E : Type} (eqb : K -> K -> bool).
Hypothesis eqb_spec : forall a b, reflect (a = b) (eqb a b).
Context (key : E -> K) (dflt : K -> V) (upd : E -> V -> V).

Lemma has_keys k (m : list (K * V)) :
  Js.has eqb k m = existsb (eqb k) (map fst m).
Proof.
  unfold Js.has. induction m as [|[k1 v1] m IH]; simpl; [reflexivity |].
  destruct (eqb k k1); [reflexivity | exact IH].
Qed.

Lemma keys_update d f k (m : list (K * V)) :
  map fst (Js.update eqb d f k m) = Js.setAdd eqb k (map fst m).
Proof.
  unfold Js.update, Js.setAdd. rewrite <- has_keys.
  destruct (Js.has eqb k m); [apply keys_alter |].
  now rewrite map_app.
Qed.

Lemma keys_group es : forall m,
  map fst (fold_left (Js.groupStep eqb key dflt upd) es m)
  = fold_left (fun s x => Js.setAdd eqb x s) (map key es) (map fst m).
Proof.
  induction es as [|e es IH]; intros m; simpl; [reflexivity |].
  rewrite IH. unfold Js.groupStep. now rewrite keys_update.
Qed.
End GroupKeys.

Lemma count_pairs {K V} (P : V -> bool) (Q : K -> bool) (l : list (K * V)) :
  (forall k v, In (k, v) l -> P v = Q k) ->
  Js.count P (map snd l) = Js.count Q (map fst l).
Proof.
  induction l as [|[k v] l IH]; intros H; simpl; [reflexivity |].
  rewrite !count_cons, IH by (intros; apply H; now right).
  now rewrite (H k v) by now left.
Qed.

Lemma count_guard {A} (c : bool) (p : A -> bool) l :
  Js.count (fun x => c && p x) l = if c then Js.count p l else 0.
Proof.
  destruct c; simpl; [reflexivity |].
  induction l as [|x l IH]; [reflexivity | now rewrite count_cons, IH].
Qed.

Lemma count_le {A} (p q : A -> bool) l :
  (forall x, p x = true -> q x = true) -> Js.count p l <= Js.count q l.
Proof.
  intros H. induction l as [|x l IH]; [rewrite !count_nil; lia |].
  rewrite !count_cons. specialize (H x).
  destruct (p x); destruct (q x); lia.
Qed.

Lemma existsb_app_one (a x : string) acts :
  existsb (String.eqb a) (acts ++ [x]) = existsb (String.eqb a) acts || String.eqb a x.
Proof. rewrite existsb_app. simpl. now rewrite orb_false_r. Qed.

Section DayGroups.
Variable a : string.

Let addActivity (entry : HabitEntry) (acts : list string) : list string :=
  if Js.truthy (Some (activity entry))
  then (acts ++ [activity entry])%list else acts.

Let bucket (d : Z) :=
  Js.bucketStep Z.eqb (fun e => Time.utcDay (date e))
    (fun _ => @nil string) addActivity d.

Let base (o : option (list string)) : list string :=
  match o with Some acts => acts | None => [] end.

(** The activities a day group lists are the ones logged on that day. *)
Lemma dayGroup_bucket d es : forall o,
  match fold_left (bucket d) es o with
  | Some acts =>
      existsb (String.eqb a) acts
      = existsb (String.eqb a) (base o) || Spec.loggedOn es a d
  | None => o = None
  end.
Proof.
  induction es as [|e es IH]; intros o; simpl.
  - destruct o; simpl; [| reflexivity].
    unfold Spec.loggedOn. simpl. now rewrite andb_false_r, orb_false_r.
  - specialize (IH (bucket d o e)).
    unfold bucket, Js.bucketStep in *.
    destruct (fold_left _ es _) as [acts|].
    + rewrite IH. unfold Spec.loggedOn. simpl.
      rewrite (Z.eqb_sym (Time.utcDay (date e)) d).
      destruct (d =? Time.utcDay (date e)); simpl; [| reflexivity].
      unfold addActivity, Js.truthy.
      destruct (String.eqb_spec (activity e) a) as [<- | Hne].
      * destruct (String.eqb_spec (activity e) ""); simpl.
        -- reflexivity.
        -- rewrite existsb_app_one, String.eqb_refl.
           now rewrite !orb_true_r.
      * destruct (String.eqb_spec (activity e) ""); simpl;
          [reflexivity |].
        rewrite existsb_app_one.
        destruct (String.eqb_spec a (activity e)); [congruence |].
        now rewrite orb_false_r.
    + destruct (d =? Time.utcDay (date e)); [discriminate | exact IH].
Qed.

Lemma dayGroups_lists d acts entries :
  In (d, acts) (Stacks.dayGroups entries) ->
  existsb (String.eqb a) acts = Spec.loggedOn entries a d.
Proof.
  intros H.
  apply (In_group Z.eqb Z.eqb_spec (fun e => Time.utcDay (date e))
           (fun _ => @nil string) addActivity) in H.
  pose proof (dayGroup_bucket d entries None) as B.
  unfold bucket in B. rewrite H in B. exact B.
Qed.
End DayGroups.

Lemma dayGroups_days entries :
  map fst (Stacks.dayGroups entries) = Spec.days entries.
Proof.
  unfold Stacks.dayGroups, Spec.days, Js.distinct.
  rewrite <- (map_map (fun e => date e) Time.utcDay) at 1.
  rewrite map_map.
  apply (keys_group Z.eqb (fun e => Time.utcDay (date e)) (fun _ => @nil string)
           (fun entry acts => if Js.truthy (Some (activity entry))
                              then (acts ++ [activity entry])%list else acts)
           entries []).
Qed.

(** The counters of the miner are the counts of the specification. *)
Lemma counters_spec entries a b :
  let st := Stacks.countAll (Stacks.dayGroups entries) in
  Stacks.tableOk (fst st)
  /\ Stacks.countOf (snd st) a = Spec.totalDayCount entries a
  /\ Stacks.coCountOf (fst st) a b
     = if String.eqb a b then 0 else Spec.coOccurrenceCount entries a b.
Proof.
  cbv zeta. unfold Stacks.countAll.
  destruct (countAll_spec a b (map snd (Stacks.dayGroups entries)) ([], []))
    as (Hok & _ & Hco & Hcn);
    [split; constructor | constructor |].
  split; [exact Hok |]. split.
  - rewrite Hcn. unfold Spec.totalDayCount. rewrite <- dayGroups_days.
    cbn [snd]. unfold Stacks.countOf at 1. simpl.
    apply count_pairs. intros d acts. apply dayGroups_lists.
  - rewrite Hco. unfold Spec.coOccurrenceCount. rewrite <- dayGroups_days.
    cbn [fst]. unfold Stacks.coCountOf at 1. simpl.
    rewrite (count_pairs _
               (fun d => negb (String.eqb a b)
                         && (Spec.loggedOn entries a d
                             && Spec.loggedOn entries b d))).
    + rewrite count_guard. now destruct (String.eqb a b).
    + intros d acts H.
      rewrite (dayGroups_lists a d acts entries H),
        (dayGroups_lists b d acts entries H).
      now rewrite andb_assoc.
Qed.

(** ** Habit stacks: the candidates *)

Lemma half_le_div count m :
  0 < m -> ((1 # 2 <= Js.div count m)%Q <-> m <= 2 * count).
Proof.
  intros Hm. unfold Js.div. destruct m as [|p|p]; try lia.
  unfold Qle, Qdiv, Qmult, Qinv, inject_Z. cbn [Qnum Qden].
  rewrite ?Pos.mul_1_l, ?Pos.mul_1_r. lia.
Qed.

Lemma emit_condition count m :
  0 < m ->
  (Qle_bool (1 # 2) (Js.div count m) && (2 <=? count) = true
   <-> 2 <= count /\ (1 # 2 <= Js.div count m)%Q).
Proof.
  intros Hm. rewrite andb_true_iff, Qle_bool_iff, Z.leb_le. tauto.
Qed.

Lemma countOr1_countOf counts a :
  0 < Stacks.countOf counts a ->
  Stacks.countOr1 counts a = Stacks.countOf counts a.
Proof.
  unfold Stacks.countOr1, Stacks.countOf.
  destruct (Js.get String.eqb a counts) as [n|]; [| lia].
  intros Hn. destruct (Z.eqb_spec n 0); [lia | reflexivity].
Qed.

Lemma suggestFor_In counts a row s :
  In s (Stacks.suggestFor counts (a, row)) <->
  exists b count,
    In (b, count) row
    /\ Qle_bool (1 # 2)
         (Js.div count (Z.min (Stacks.countOr1 counts a)
                          (Stacks.countOr1 counts b)))
       && (2 <=? count) = true
    /\ s = Stacks.mkSuggestion a b
             (Js.Math_round
                (Js.div count (Z.min (Stacks.countOr1 counts a)
                                 (Stacks.countOr1 counts b)) * 100))
             (Stacks.tipFor a b).
Proof.
  unfold Stacks.suggestFor. rewrite in_flat_map. split.
  - intros ([b count] & Hin & Hs).
    destruct (Qle_bool _ _ && _) eqn:E; [| destruct Hs].
    destruct Hs as [<- | []]. exists b, count. repeat split; assumption.
  - intros (b & count & Hin & E & ->). exists (b, count).
    split; [exact Hin |]. rewrite E. now left.
Qed.

Lemma spec_counts_le entries a b :
  Spec.coOccurrenceCount entries a b <= Spec.totalDayCount entries a
  /\ Spec.coOccurrenceCount entries a b <= Spec.totalDayCount entries b.
Proof.
  unfold Spec.coOccurrenceCount, Spec.totalDayCount.
  split; apply count_le; intros d H; apply andb_prop in H; tauto.
Qed.

(** A candidate is pushed for the ordered pair (a, b) exactly when the two
    are different activities that meet the two thresholds. *)
Lemma candidate_iff entries a b :
  let co := Spec.coOccurrenceCount entries a b in
  let m := Z.min (Spec.totalDayCount entries a) (Spec.totalDayCount entries b) in
  (exists s, In s (Stacks.candidates entries)
             /\ Stacks.triggerHabit s = a /\ Stacks.linkedHabit s = b)
  <-> a <> b /\ 2 <= co /\ (1 # 2 <= Js.div co m)%Q.
Proof.
  cbv zeta. unfold Stacks.candidates.
  pose proof (counters_spec entries a b) as C. cbv zeta in C.
  pose proof (counters_spec entries b a) as C'. cbv zeta in C'.
  destruct (Stacks.countAll (Stacks.dayGroups entries)) as [table counts].
  cbn [fst snd] in C, C'.
  destruct C as ([Hk Hr] & Ha & Hco). destruct C' as (_ & Hb & _).
  destruct (spec_counts_le entries a b) as [La Lb].
  split.
  - intros (s & Hin & <- & <-). apply in_flat_map in Hin as ([a row] & Hrow & Hs).
    apply suggestFor_In in Hs as (b & count & Hcell & E & ->).
    cbn [Stacks.triggerHabit Stacks.linkedHabit] in *.
    assert (Hcount : Stacks.coCountOf table a b = count).
    { unfold Stacks.coCountOf, Stacks.countOf.
      rewrite (In_get String.eqb String.eqb_spec a row table Hk Hrow).
      rewrite Forall_forall in Hr.
      now rewrite (In_get String.eqb String.eqb_spec b count row
                     (Hr _ Hrow) Hcell). }
    apply andb_prop in E as [E1 E2]. apply Z.leb_le in E2.
    rewrite Hco in Hcount.
    destruct (String.eqb_spec a b) as [-> | Hne]; [lia |].
    split; [exact Hne |]. subst count. split; [exact E2 |].
    apply Qle_bool_iff in E1.
    rewrite !countOr1_countOf in E1 by lia. now rewrite Ha, Hb in E1.
  - intros (Hne & H2 & Hq).
    destruct (String.eqb_spec a b) as [-> | _]; [contradiction |].
    unfold Stacks.coCountOf in Hco.
    destruct (Js.get String.eqb a table) as [row|] eqn:Erow; [| lia].
    unfold Stacks.countOf in Hco.
    destruct (Js.get String.eqb b row) as [count|] eqn:Ecell; [| lia].
    subst count.
    exists (Stacks.mkSuggestion a b
              (Js.Math_round
                 (Js.div (Spec.coOccurrenceCount entries a b)
                    (Z.min (Stacks.countOr1 counts a)
                       (Stacks.countOr1 counts b)) * 100))
              (Stacks.tipFor a b)).
    split; [| split; reflexivity].
    apply in_flat_map. exists (a, row).
    split; [now apply (get_Some_In String.eqb String.eqb_spec) |].
    apply suggestFor_In. exists b, (Spec.coOccurrenceCount entries a b).
    split; [now apply (get_Some_In String.eqb String.eqb_spec) |].
    split; [| reflexivity].
    rewrite !countOr1_countOf by lia. rewrite Ha, Hb.
    apply emit_condition; [lia | now split].
Qed.

(** The strength and the tip of a candidate. *)
Lemma candidate_strength entries s :
  In s (Stacks.candidates entries) ->
  Stacks.strength s
  = Js.Math_round
      (Js.div (Spec.coOccurrenceCount entries (Stacks.triggerHabit s)
                 (Stacks.linkedHabit s))
         (Z.min (Spec.totalDayCount entries (Stacks.triggerHabit s))
            (Spec.totalDayCount entries (Stacks.linkedHabit s))) * 100)
  /\ Stacks.tip s
     = Stacks.tipFor (Stacks.triggerHabit s) (Stacks.linkedHabit s).
Proof.
  unfold Stacks.candidates. intros Hin.
  assert (C : forall a b,
             let st := Stacks.countAll (Stacks.dayGroups entries) in
             Stacks.tableOk (fst st)
             /\ Stacks.countOf (snd st) a = Spec.totalDayCount entries a
             /\ Stacks.coCountOf (fst st) a b
                = if String.eqb a b then 0
                  else Spec.coOccurrenceCount entries a b)
    by (intros; apply counters_spec).
  cbv zeta in C.
  destruct (Stacks.countAll (Stacks.dayGroups entries)) as [table counts].
  cbn [fst snd] in C.
  apply in_flat_map in Hin as ([a row] & Hrow & Hs).
  apply suggestFor_In in Hs as (b & count & Hcell & E & ->).
  cbn [Stacks.triggerHabit Stacks.linkedHabit Stacks.strength Stacks.tip].
  split; [| reflexivity].
  destruct (C a b) as ([Hk Hr] & Ha & Hco). destruct (C b a) as (_ & Hb & _).
  destruct (spec_counts_le entries a b) as [La Lb].
  assert (Hcount : Stacks.coCountOf table a b = count).
  { unfold Stacks.coCountOf, Stacks.countOf.
    rewrite (In_get String.eqb String.eqb_spec a row table Hk Hrow).
    rewrite Forall_forall in Hr.
    now rewrite (In_get String.eqb String.eqb_spec b count row
                   (Hr _ Hrow) Hcell). }
  apply andb_prop in E as [_ E2]. apply Z.leb_le in E2.
  rewrite Hco in Hcount.
  destruct (String.eqb_spec a b) as [-> | Hne]; [lia |]. subst count.
  rewrite !countOr1_countOf by lia. now rewrite Ha, Hb.
Qed.

(** ** Habit stacks: sorting, duplicates and the cut *)

Section Descending.
Context {A : Type} (f : A -> Z).

Let R (x y : A) : Prop := f y <= f x.
Let before (x y : A) : bool := f y <=? f x.

Lemma insertSorted_desc x l :
  StronglySorted R l -> StronglySorted R (Js.insertSorted before x l).
Proof.
  induction l as [|y l IH]; intros Hs; simpl.
  - repeat constructor.
  - inversion Hs as [|? ? Hs' Hall]; subst. unfold before at 1.
    destruct (Z.leb_spec (f y) (f x)) as [Hle | Hgt].
    + constructor; [exact Hs |]. constructor; [exact Hle |].
      rewrite Forall_forall in *. intros t Ht. specialize (Hall t Ht).
      unfold R in *. lia.
    + constructor; [now apply IH |].
      rewrite Forall_forall in *. intros t Ht.
      apply (Permutation_in _ (insertSorted_perm before x l)) in Ht.
      destruct Ht as [<- | Ht]; [unfold R; lia | now apply Hall].
Qed.

Lemma sortBy_desc l : StronglySorted R (Js.sortBy before l).
Proof.
  induction l as [|x l IH]; simpl; [constructor | now apply insertSorted_desc].
Qed.

Lemma sorted_app_le l1 l2 :
  StronglySorted R (l1 ++ l2) ->
  forall x y, In x l1 -> In y l2 -> f y <= f x.
Proof.
  induction l1 as [|a l1 IH]; simpl; intros Hs x y Hx Hy; [destruct Hx |].
  inversion Hs as [|? ? Hs' Hall]; subst.
  destruct Hx as [<- | Hx]; [| now apply IH].
  rewrite Forall_forall in Hall. apply Hall, in_or_app. now right.
Qed.

Lemma sorted_firstn n l : StronglySorted R l -> StronglySorted R (firstn n l).
Proof.
  revert l. induction n as [|n IH]; intros [|x l] Hs; simpl; try constructor.
  - apply IH. now inversion Hs.
  - inversion Hs as [|? ? Hs' Hall]; subst.
    rewrite Forall_forall in *. intros t Ht. apply Hall.
    rewrite <- (firstn_skipn n l). apply in_or_app. now left.
Qed.

(** An element the cut drops is no stronger than any element it keeps. *)
Lemma firstn_top n l x :
  StronglySorted R l -> In x l ->
  In x (firstn n l)
  \/ (List.length (firstn n l) = n /\ forall y, In y (firstn n l) -> f x <= f y).
Proof.
  intros Hs Hx. rewrite <- (firstn_skipn n l) in Hx, Hs.
  apply in_app_or in Hx as [Hx | Hx]; [now left |]. right. split.
  - apply firstn_length_le.
    destruct (Nat.le_gt_cases n (List.length l)) as [Hle | Hgt]; [exact Hle |].
    rewrite skipn_all2 in Hx by lia. destruct Hx.
  - intros y Hy. now apply (sorted_app_le _ _ Hs y x).
Qed.
End Descending.

Lemma pairKey_sym a b s1 t1 s2 t2 :
  Stacks.pairKey (Stacks.mkSuggestion a b s1 t1)
  = Stacks.pairKey (Stacks.mkSuggestion b a s2 t2).
Proof.
  unfold Stacks.pairKey, String.ltb. simpl.
  rewrite (String.compare_antisym a b).
  destruct (String.compare b a) eqn:E; simpl; try reflexivity.
  apply String.compare_eq_iff in E. now subst.
Qed.

Section DropSeen.
Let R (x y : Stacks.Suggestion) : Prop := Stacks.strength y <= Stacks.strength x.

Lemma arrayIncludes_In xs x : Js.arrayIncludes xs x = true <-> In x xs.
Proof. apply (existsb_eqb_In String.eqb String.eqb_spec). Qed.

Lemma dropSeen_In l : forall seen s,
  In s (Stacks.dropSeen seen l) -> In s l /\ ~ In (Stacks.pairKey s) seen.
Proof.
  induction l as [|x l IH]; intros seen s H; simpl in H; [destruct H |].
  destruct (Js.arrayIncludes seen (Stacks.pairKey x)) eqn:E.
  - destruct (IH _ _ H). split; [now right | assumption].
  - destruct H as [<- | H].
    + split; [now left |]. intros Hin. apply arrayIncludes_In in Hin. congruence.
    + destruct (IH _ _ H) as [H1 H2]. split; [now right |].
      intros Hin. apply H2, in_or_app. now left.
Qed.

Lemma dropSeen_NoDup l : forall seen,
  NoDup (map Stacks.pairKey (Stacks.dropSeen seen l)).
Proof.
  induction l as [|x l IH]; intros seen; simpl; [constructor |].
  destruct (Js.arrayIncludes seen (Stacks.pairKey x)); [apply IH |].
  simpl. constructor; [| apply IH].
  intros Hin. apply in_map_iff in Hin as (s & Hk & Hs).
  apply dropSeen_In in Hs as [_ Hs]. apply Hs, in_or_app. right.
  rewrite Hk. now left.
Qed.

Lemma dropSeen_sorted l : forall seen,
  StronglySorted R l -> StronglySorted R (Stacks.dropSeen seen l).
Proof.
  induction l as [|x l IH]; intros seen Hs; simpl; [constructor |].
  inversion Hs as [|? ? Hs' Hall]; subst.
  destruct (Js.arrayIncludes seen (Stacks.pairKey x)); [now apply IH |].
  constructor; [now apply IH |].
  rewrite Forall_forall in *. intros t Ht. apply Hall.
  now apply dropSeen_In in Ht.
Qed.

(** Every pair that is dropped is represented by a kept suggestion that
    is at least as strong. *)
Lemma dropSeen_represents l : forall seen c,
  StronglySorted R l -> In c l ->
  In (Stacks.pairKey c) seen
  \/ exists r, In r (Stacks.dropSeen seen l)
               /\ Stacks.pairKey r = Stacks.pairKey c
               /\ Stacks.strength c <= Stacks.strength r.
Proof.
  induction l as [|x l IH]; intros seen c Hs Hc; simpl; [destruct Hc |].
  inversion Hs as [|? ? Hs' Hall]; subst. rewrite Forall_forall in Hall.
  destruct (Js.arrayIncludes seen (Stacks.pairKey x)) eqn:E.
  - destruct Hc as [<- | Hc]; [left; now apply arrayIncludes_In |].
    now apply IH.
  - destruct Hc as [<- | Hc].
    + right. exists x. split; [now left |]. split; [reflexivity | lia].
    + destruct (IH (seen ++ [Stacks.pairKey x])%list c Hs' Hc)
        as [Hin | (r & Hr & Hk & Hle)].
      * apply in_app_or in Hin as [Hin | [Hk | []]]; [now left |].
        right. exists x. split; [now left |]. split; [exact Hk |].
        apply (Hall c Hc).
      * right. exists r. split; [now right |]. now split.
Qed.
End DropSeen.

Lemma In_firstn_In {A} n (l : list A) x : In x (firstn n l) -> In x l.
Proof.
  intros H. rewrite <- (firstn_skipn n l). apply in_or_app. now left.
Qed.

Lemma NoDup_firstn_keep {A} n (l : list A) : NoDup l -> NoDup (firstn n l).
Proof.
  intros H. rewrite <- (firstn_skipn n l) in H.
  now apply NoDup_app_remove_r in H.
Qed.

Lemma NoDup_map_eq {A B} (f : A -> B) l x y :
  NoDup (map f l) -> In x l -> In y l -> f x = f y -> x = y.
Proof.
  induction l as [|a l IH]; simpl; intros Hnd Hx Hy E; [destruct Hx |].
  inversion Hnd as [|? ? Hnotin Hnd']; subst.
  destruct Hx as [<- | Hx]; destruct Hy as [<- | Hy]; try reflexivity.
  - exfalso. apply Hnotin. rewrite E. now apply in_map.
  - exfalso. apply Hnotin. rewrite <- E. now apply in_map.
  - now apply IH.
Qed.

Lemma recentPositive_length thirtyDaysAgo stored :
  Z.of_nat (List.length (Stacks.recentPositive thirtyDaysAgo stored))
  = Js.count (fun e => (thirtyDaysAgo <=? date e)
                       && Js.optIncludes (type e) "positive") stored.
Proof.
  unfold Stacks.recentPositive, Js.count. f_equal.
  apply Permutation_length, sortBy_perm.
Qed.

(** C5: the miner drops a pair that meets both thresholds.  'cool' and
    'down-stretch' are logged together on two days and on no other day,
    and so are 'cool-down' and 'stretch' on two other days: both unordered
    pairs have co-occurrence count 2 and strength 2 / min(2, 2) = 1, and a
    suggestion is pushed for each of them in both directions, four
    candidates in all.  The returned list holds one suggestion, for the
    first pair: the key that removes the duplicates, the two names sorted
    and joined by '-', is 'cool-down-stretch' for both pairs, so the
    second pair is taken for a duplicate of the first although the list
    of at most five has room for it. *)
Theorem stacking_pair_key_collision :
  let entries :=
    Stacks.recentPositive Sample.windowStart Sample.twoCoolDowns in
  let co := Spec.coOccurrenceCount entries in
  let m a b := Z.min (Spec.totalDayCount entries a)
                 (Spec.totalDayCount entries b) in
  let first := Stacks.mkSuggestion "cool" "down-stretch" 100
                 (Stacks.tipFor "cool" "down-stretch") in
  let second := Stacks.mkSuggestion "cool-down" "stretch" 100
                  (Stacks.tipFor "cool-down" "stretch") in
  entries = Sample.twoCoolDowns
  /\ co "cool" "down-stretch" = 2 /\ m "cool" "down-stretch" = 2
  /\ co "cool-down" "stretch" = 2 /\ m "cool-down" "stretch" = 2
  /\ (1 # 2 <= Js.div (co "cool-down" "stretch") (m "cool-down" "stretch"))%Q
  /\ In first (Stacks.candidates entries)
  /\ In second (Stacks.candidates entries)
  /\ List.length (Stacks.candidates entries) = 4%nat
  /\ Stacks.pairKey first = "cool-down-stretch"
  /\ Stacks.pairKey second = "cool-down-stretch"
  /\ Stacks.generateStackingSuggestions Sample.windowStart Sample.twoCoolDowns
     = [first].
Proof.
  cbv zeta. repeat split; try (vm_compute; reflexivity).
  - vm_compute. discriminate.
  - vm_compute. tauto.
  - vm_compute. tauto.
Qed.

(** The pair key is exact on labels without a hyphen: two suggestions
    with the same key are then about the same unordered pair. *)
Lemma includes_hyphen_cons c s :
  Js.includes (String c s) "-" = false ->
  c <> "-"%char /\ Js.includes s "-" = false.
Proof.
  change (Js.includes (String c s) "-")
    with (if (if Ascii.ascii_dec "-" c then String.prefix "" s else false)
          then true else Js.includes s "-").
  destruct (Ascii.ascii_dec "-" c) as [<- | Hne].
  - destruct s; discriminate.
  - intros H. split; [congruence | exact H].
Qed.

Lemma join_injective a : forall a' b b',
  Js.includes a "-" = false -> Js.includes a' "-" = false ->
  a ++ "-" ++ b = a' ++ "-" ++ b' -> a = a' /\ b = b'.
Proof.
  induction a as [|c a IH]; intros [|c' a'] b b' Ha Ha' E; simpl in E.
  - injection E as ->. now split.
  - apply includes_hyphen_cons in Ha' as [Hc _]. injection E as E1 _. congruence.
  - apply includes_hyphen_cons in Ha as [Hc _]. injection E as E1 _. congruence.
  - apply includes_hyphen_cons in Ha as [_ Ha].
    apply includes_hyphen_cons in Ha' as [_ Ha'].
    injection E as -> E. destruct (IH _ _ _ Ha Ha' E) as [-> ->]. now split.
Qed.

Lemma pairKey_same_pair s t :
  Js.includes (Stacks.triggerHabit s) "-" = false ->
  Js.includes (Stacks.linkedHabit s) "-" = false ->
  Js.includes (Stacks.triggerHabit t) "-" = false ->
  Js.includes (Stacks.linkedHabit t) "-" = false ->
  Stacks.pairKey s = Stacks.pairKey t ->
  (Stacks.triggerHabit s = Stacks.triggerHabit t
   /\ Stacks.linkedHabit s = Stacks.linkedHabit t)
  \/ (Stacks.triggerHabit s = Stacks.linkedHabit t
      /\ Stacks.linkedHabit s = Stacks.triggerHabit t).
Proof.
  intros H1 H2 H3 H4. unfold Stacks.pairKey.
  destruct (String.ltb (Stacks.linkedHabit s) (Stacks.triggerHabit s));
    destruct (String.ltb (Stacks.linkedHabit t) (Stacks.triggerHabit t));
    intros E; apply join_injective in E; try assumption; tauto.
Qed.

(** * Further properties of the code *)

(** ** Levels and next-level progress *)

Ltac pick_member := (left; reflexivity) + (right; pick_member).

(** X1: for non-negative points [calculateLevel] answers the level of the
    table with the highest threshold that the points reach: its threshold
    is at most the points, and no level of the table whose threshold is
    reached has a higher number. *)
Theorem calculateLevel_highest_reached (points : Z) :
  0 <= points ->
  let l := Gamification.calculateLevel points in
  In l Gamification.levels
  /\ Gamification.min l <= points
  /\ forall l', In l' Gamification.levels ->
       Gamification.min l' <= points ->
       Gamification.level l' <= Gamification.level l.
Proof.
  intros H. cbv zeta.
  unfold Gamification.calculateLevel, Gamification.levels.
  cbn [rev app find Gamification.min].
  decide_cmp;
    (split; [cbn [In]; tauto |]);
    (split; [cbn [Gamification.min]; lia |]);
    intros l' Hin Hmin; cbn [In] in Hin;
    repeat (destruct Hin as [<- | Hin];
            [cbn [Gamification.min Gamification.level] in *; lia |]);
    contradiction.
Qed.

Lemma calculateLevel_highest_reached_witness :
  Gamification.calculateLevel 499 = Gamification.mkLevel 300 4 "Consistent"
  /\ Gamification.min (Gamification.calculateLevel 499) <= 499.
Proof.
  split; [reflexivity |].
  exact (proj1 (proj2 (calculateLevel_highest_reached 499 ltac:(lia)))).
Defined.

(** X2: the level never goes down when points are added, and it is
    always one of the ten numbers 1..10 (negative points included). *)
Theorem calculateLevel_monotone (p q : Z) :
  p <= q ->
  Gamification.level (Gamification.calculateLevel p)
    <= Gamification.level (Gamification.calculateLevel q)
  /\ 1 <= Gamification.level (Gamification.calculateLevel p) <= 10.
Proof.
  intros H.
  unfold Gamification.calculateLevel, Gamification.levels.
  cbn [rev app find Gamification.min].
  decide_cmp; cbn [Gamification.level]; lia.
Qed.

Lemma calculateLevel_monotone_witness :
  Gamification.level (Gamification.calculateLevel 40)
    <= Gamification.level (Gamification.calculateLevel 60).
Proof.
  exact (proj1 (calculateLevel_monotone 40 60 ltac:(lia))).
Defined.

(** X3: from 0 up to 4999 points the two level functions agree: the
    [current] of the next-level progress is the points above the threshold
    of the level [calculateLevel] reports, it stays below [needed], the
    progress is a percentage between 0 and 100, and below 3500 points
    [needed] is the distance from that threshold to the threshold of the
    next level of the table. *)
Theorem next_level_progress_agrees_with_level (points : Z) :
  0 <= points < 5000 ->
  let l := Gamification.calculateLevel points in
  let p := Gamification.getNextLevelProgress points in
  Gamification.current p = points - Gamification.min l
  /\ 0 <= Gamification.current p < Gamification.needed p
  /\ 0 <= Gamification.progress p <= 100
  /\ (points < 3500 ->
      exists next, In next Gamification.levels
        /\ Gamification.level next = Gamification.level l + 1
        /\ Gamification.needed p = Gamification.min next - Gamification.min l).
Proof.
  intros H. cbv zeta.
  unfold Gamification.calculateLevel, Gamification.levels,
    Gamification.getNextLevelProgress, Gamification.levelThresholds,
    Gamification.nextLevelLoop.
  cbn [rev app find Gamification.min].
  decide_cmp;
    cbn [Gamification.current Gamification.needed Gamification.progress
         Gamification.min Gamification.level];
    (split; [lia |]); (split; [lia |]);
    (split;
     [rewrite Math_round_div by lia; split;
      [apply Z.div_pos; lia
      | apply Z.lt_succ_r, Z.div_lt_upper_bound; lia] |]);
    intros Hlt; try lia.
  all: cbn [In]; eexists; split; [pick_member | split; reflexivity].
Qed.

Lemma next_level_progress_agrees_with_level_witness :
  Gamification.current (Gamification.getNextLevelProgress 120)
    = 120 - Gamification.min (Gamification.calculateLevel 120).
Proof.
  exact (proj1 (next_level_progress_agrees_with_level 120 ltac:(lia))).
Defined.

(** X4: with a negative point total the level is the first one, and the
    next-level progress is the fallback of the loop: [current] is the
    negative total itself while [needed] and [progress] are both 100. *)
Theorem next_level_progress_negative_points (points : Z) :
  points < 0 ->
  Gamification.calculateLevel points = Gamification.mkLevel 0 1 "Beginner"
  /\ Gamification.getNextLevelProgress points
       = Gamification.mkProgress points 100 100.
Proof.
  intros H.
  unfold Gamification.calculateLevel, Gamification.levels,
    Gamification.getNextLevelProgress, Gamification.levelThresholds,
    Gamification.nextLevelLoop.
  cbn [rev app find Gamification.min].
  decide_cmp. split; reflexivity.
Qed.

Lemma next_level_progress_negative_points_witness :
  Gamification.getNextLevelProgress (-5) = Gamification.mkProgress (-5) 100 100.
Proof.
  exact (proj2 (next_level_progress_negative_points (-5) ltac:(lia))).
Defined.

(** ** Counters of the profile statistics *)

Lemma setAdd_length {A} (eqb : A -> A -> bool) (x : A) (s : list A) :
  (List.length (Js.setAdd eqb x s) <= S (List.length s))%nat.
Proof.
  unfold Js.setAdd. destruct (existsb (eqb x) s); [lia |].
  rewrite length_app. simpl. lia.
Qed.

Lemma tally_bounded z t n e :
  Inv.talliesBounded t n -> Inv.talliesBounded (Gamification.tally z t e) (n + 1).
Proof.
  unfold Inv.talliesBounded, Gamification.tally.
  intros (Hp & Hn & Hpn & Hd & Ha & Hc & Hm & Hmo & Hev & Hme).
  assert (Hd' := setAdd_length Z.eqb (Time.utcDay (date e))
                   (Gamification.t_dates t)).
  assert (Ha' := setAdd_length String.eqb (activity e)
                   (Gamification.t_activities t)).
  assert (Hc' : forall c, (List.length
                  (Js.setAdd String.eqb c (Gamification.t_categories t))
                <= S (List.length (Gamification.t_categories t)))%nat)
    by (intros c; apply setAdd_length).
  destruct (Js.optIncludes (type e) "positive");
    [| destruct (Js.optIncludes (type e) "negative")];
    cbn [Gamification.t_positive Gamification.t_negative
         Gamification.t_dates Gamification.t_activities
         Gamification.t_categories Gamification.t_mood
         Gamification.t_morning Gamification.t_evening];
    unfold Gamification.bump;
    destruct (Js.truthy (Some (activity e)));
    (destruct (category e) as [c|];
     [specialize (Hc' c); destruct (Js.truthy (Some c)) |]);
    destruct (Js.truthy (mood e));
    destruct (Z.ltb_spec (Time.getHours z (date e)) 8);
    destruct (Z.leb_spec 21 (Time.getHours z (date e)));
    repeat split; lia.
Qed.

Lemma tallies_bounded z entries t n :
  Inv.talliesBounded t n ->
  Inv.talliesBounded (fold_left (Gamification.tally z) entries t)
    (n + Z.of_nat (List.length entries)).
Proof.
  revert t n. induction entries as [|e entries IH]; intros t n H.
  - simpl. rewrite Z.add_0_r. exact H.
  - cbn [fold_left List.length].
    replace (n + Z.of_nat (S (List.length entries)))
      with (n + 1 + Z.of_nat (List.length entries)) by lia.
    apply IH, tally_bounded, H.
Qed.

Lemma streakLoop_bounds dates z now i bound :
  0 <= Gamification.streakLoop dates z now i bound <= Z.of_nat bound.
Proof.
  revert i. induction bound as [|bound IH]; intros i.
  - simpl. lia.
  - cbn [Gamification.streakLoop].
    destruct (existsb _ dates); [specialize (IH (i + 1)) |]; lia.
Qed.

Lemma streakOf_bounds dates z now :
  0 <= Gamification.streakOf dates z now <= Z.of_nat (List.length dates).
Proof.
  unfold Gamification.streakOf.
  assert (E : List.length (rev (Js.sortBy Z.leb dates)) = List.length dates).
  { rewrite length_rev. apply Permutation_length, sortBy_perm. }
  cbv zeta. rewrite <- E. apply streakLoop_bounds.
Qed.

(** X5: the counters that [recalculateStats] derives stay within the
    number of entries: the positive and negative counts are disjoint, the
    distinct activities and categories, the mood entries and the morning
    plus evening entries are each at most the entry count; the current
    streak is between 0 and the entry count; the longest streak written
    back is at least the current streak and never below the stored one;
    and the completed goals are at most the goals. *)
Theorem recalculateStats_counters_bounded
    (z : Time.Zone) (now : Z) (stored : Gamification.UserProfile)
    (entries : list HabitEntry) (goals : list Goal) :
  let s := Gamification.recalculateStats z now stored entries goals in
  let n := Gamification.totalEntries s in
  n = Z.of_nat (List.length entries)
  /\ 0 <= Gamification.positiveCount s /\ 0 <= Gamification.negativeCount s
  /\ Gamification.positiveCount s + Gamification.negativeCount s <= n
  /\ 0 <= Gamification.uniqueActivities s <= n
  /\ 0 <= Gamification.categories s <= n
  /\ 0 <= Gamification.moodEntries s <= n
  /\ 0 <= Gamification.morningEntries s /\ 0 <= Gamification.eveningEntries s
  /\ Gamification.morningEntries s + Gamification.eveningEntries s <= n
  /\ 0 <= Gamification.currentStreak (Gamification.profile s) <= n
  /\ Gamification.currentStreak (Gamification.profile s)
       <= Gamification.longestStreak (Gamification.profile s)
  /\ Gamification.longestStreak stored
       <= Gamification.longestStreak (Gamification.profile s)
  /\ 0 <= Gamification.goalsCompleted s <= Z.of_nat (List.length goals).
Proof.
  cbv zeta. unfold Gamification.recalculateStats.
  cbn [Gamification.totalEntries Gamification.positiveCount
       Gamification.negativeCount Gamification.uniqueActivities
       Gamification.categories Gamification.moodEntries
       Gamification.morningEntries Gamification.eveningEntries
       Gamification.goalsCompleted Gamification.profile
       Gamification.currentStreak Gamification.longestStreak].
  assert (H0 : Inv.talliesBounded Gamification.totals0 0)
    by (unfold Inv.talliesBounded; cbn; lia).
  apply (tallies_bounded z entries) in H0. rewrite Z.add_0_l in H0.
  set (t := fold_left (Gamification.tally z) entries Gamification.totals0) in *.
  destruct H0 as (Hp & Hn & Hpn & Hd & Ha & Hc & Hm & Hmo & Hev & Hme).
  assert (Hs := streakOf_bounds (Gamification.t_dates t) z now).
  assert (Hg := filter_length_le Gamification.completed goals).
  repeat split; lia.
Qed.

(** ** Awarding badges *)

Lemma filter_none {A} (f : A -> bool) (l : list A) :
  (forall x, In x l -> f x = false) -> filter f l = [].
Proof.
  induction l as [|x l IH]; intros H; simpl; [reflexivity |].
  rewrite (H x (or_introl eq_refl)). apply IH. intros y Hy. apply H. now right.
Qed.

Lemma checkBadge_fold_filter pid ids stats bds : forall acc,
  fold_left (Gamification.checkBadge pid ids stats) bds acc
  = ((fst acc ++ map (Gamification.createBadge pid)
                   (filter (Inv.grantable ids stats) bds))%list,
     (snd acc ++ map (Gamification.createBadge pid)
                   (filter (Inv.grantable ids stats) bds))%list).
Proof.
  induction bds as [|bd bds IH]; intros [news alls].
  - simpl. now rewrite !app_nil_r.
  - cbn [fold_left filter]. rewrite IH.
    unfold Gamification.checkBadge, Inv.grantable.
    destruct (Js.arrayIncludes ids (Gamification.def_name bd));
      [reflexivity |].
    destruct (Gamification.earned _ stats); [| reflexivity].
    cbn [negb andb fst snd map]. now rewrite <- !app_assoc.
Qed.

Lemma badge_names_distinct :
  NoDup (map Gamification.def_name Gamification.BADGES).
Proof.
  unfold Gamification.BADGES. cbn [map Gamification.def_name].
  repeat (constructor;
          [cbn [In]; intros H;
           repeat (destruct H as [H | H]; [discriminate H |]); exact H |]).
  constructor.
Qed.

(** Dropping elements keeps their keys pairwise different. *)
Lemma filter_keeps_distinct_keys {A B} (key : A -> B) (keep : A -> bool) :
  forall xs, NoDup (map key xs) -> NoDup (map key (filter keep xs)).
Proof.
  intros xs. induction xs as [|x xs IH]; intros H; simpl; [constructor |].
  inversion H as [|? ? Hx Hl]; subst.
  destruct (keep x); [| now apply IH].
  simpl. constructor; [| now apply IH].
  intros Hin. apply Hx. apply in_map_iff in Hin as (y & Ey & Hy).
  apply filter_In in Hy as [Hy _]. apply in_map_iff. now exists y.
Qed.

Lemma created_names pid (bds : list Gamification.BadgeDef) :
  map Gamification.badge_name (map (Gamification.createBadge pid) bds)
  = map Gamification.def_name bds.
Proof. rewrite map_map. reflexivity. Qed.

(** X6: a badge is granted at most once.  The badges a check returns as
    new are exactly the catalogue badges, in catalogue order, whose name
    is not yet stored and whose requirement is earned; their names are
    pairwise different and differ from every stored name; the list of all
    badges is the stored ones followed by the new ones; and a second check
    of the same statistics against that list awards nothing. *)
Theorem badges_granted_once
    (profileId : string) (existingBadges : list Gamification.Badge)
    (stats : Gamification.Stats) :
  let r := Gamification.checkForNewBadges profileId existingBadges stats in
  fst r = map (Gamification.createBadge profileId)
            (filter (Inv.grantable
                       (map Gamification.badge_name existingBadges) stats)
               Gamification.BADGES)
  /\ snd r = (existingBadges ++ fst r)%list
  /\ NoDup (map Gamification.badge_name (fst r))
  /\ (forall b, In b (fst r) ->
        ~ In (Gamification.badge_name b)
            (map Gamification.badge_name existingBadges))
  /\ fst (Gamification.checkForNewBadges profileId (snd r) stats) = [].
Proof.
  cbv zeta. rewrite !checkForNewBadges_fold, !checkBadge_fold_filter.
  cbn [fst snd app].
  pose proof badge_names_distinct as HN. revert HN.
  generalize Gamification.BADGES. intros bds HN.
  set (ids := map Gamification.badge_name existingBadges).
  split; [reflexivity |]. split; [reflexivity |].
  split; [rewrite created_names; apply filter_keeps_distinct_keys, HN |].
  split.
  - intros b Hb Hin. apply in_map_iff in Hb as (bd & <- & Hbd).
    apply filter_In in Hbd as [_ Hg]. unfold Inv.grantable in Hg.
    apply andb_prop in Hg as [Hg _].
    apply (proj2 (arrayIncludes_In ids _)) in Hin.
    cbn [Gamification.createBadge Gamification.badge_name] in Hin.
    rewrite Hin in Hg. discriminate Hg.
  - rewrite filter_none; [reflexivity |].
    intros bd Hbd. unfold Inv.grantable.
    destruct (Gamification.earned (Gamification.def_requirement bd) stats)
      eqn:He; [| apply andb_false_r].
    rewrite andb_true_r. apply negb_false_iff, arrayIncludes_In.
    rewrite map_app, created_names. apply in_or_app.
    destruct (Js.arrayIncludes ids (Gamification.def_name bd)) eqn:Hi.
    + left. now apply arrayIncludes_In.
    + right. apply in_map, filter_In. split; [exact Hbd |].
      unfold Inv.grantable. fold ids. now rewrite Hi, He.
Qed.

(** ** Sorting with a total comparator *)

Section SortFacts.
Context {A : Type} (before : A -> A -> bool).
Hypothesis before_total : forall x y, before x y = false -> before y x = true.
Hypothesis before_trans :
  forall x y z, before x y = true -> before y z = true -> before x z = true.

Let R (x y : A) : Prop := before x y = true.

Lemma insertSorted_sorted x l :
  StronglySorted R l -> StronglySorted R (Js.insertSorted before x l).
Proof.
  induction l as [|y l IH]; intros Hs; simpl.
  - repeat constructor.
  - inversion Hs as [|? ? Hs' Hall]; subst.
    destruct (before x y) eqn:E.
    + constructor; [exact Hs |]. constructor; [exact E |].
      rewrite Forall_forall in *. intros t Ht.
      apply (before_trans x y t E), Hall, Ht.
    + constructor; [now apply IH |].
      rewrite Forall_forall in *. intros t Ht.
      apply (Permutation_in _ (insertSorted_perm before x l)) in Ht.
      destruct Ht as [<- | Ht]; [now apply before_total | now apply Hall].
Qed.

Lemma sortBy_sorted l : StronglySorted R (Js.sortBy before l).
Proof.
  induction l as [|x l IH]; simpl; [constructor | now apply insertSorted_sorted].
Qed.

(** The head of the sorted array is the first element of the input that
    no element precedes strictly: the sort is stable. *)
Lemma sortBy_head l x :
  hd_error (Js.sortBy before l) = Some x ->
  exists pre post, l = (pre ++ x :: post)%list
    /\ (forall y, In y pre -> before y x = false)
    /\ (forall y, In y post -> before x y = true).
Proof.
  revert x. induction l as [|a l IH]; intros x H; [discriminate H |].
  cbn [Js.sortBy fold_right] in H. fold (Js.sortBy before l) in H.
  pose proof (sortBy_sorted l) as Hs.
  destruct (Js.sortBy before l) as [|h t] eqn:E.
  - assert (l = []) as ->.
    { apply Permutation_nil. rewrite <- E. apply sortBy_perm. }
    simpl in H. injection H as <-. exists [], []. repeat split; intros y [].
  - cbn [Js.insertSorted] in H. destruct (before a h) eqn:Eah.
    + simpl in H. injection H as <-. exists [], l.
      split; [reflexivity |]. split; [intros y [] |].
      intros y Hy. apply (In_sortBy before) in Hy. rewrite E in Hy.
      destruct Hy as [<- | Hy]; [exact Eah |].
      inversion Hs as [|? ? _ Hall]; subst. rewrite Forall_forall in Hall.
      apply (before_trans a h y Eah), Hall, Hy.
    + simpl in H. injection H as <-.
      destruct (IH h eq_refl) as (pre & post & -> & Hpre & Hpost).
      exists (a :: pre), post. split; [reflexivity |]. split; [| exact Hpost].
      intros y [<- | Hy]; [exact Eah | now apply Hpre].
Qed.

Lemma sortBy_head_none l : hd_error (Js.sortBy before l) = None -> l = [].
Proof.
  intros H. destruct (Js.sortBy before l) eqn:E; [| discriminate H].
  apply Permutation_nil. rewrite <- E. apply sortBy_perm.
Qed.
End SortFacts.

(** ** Invariants of grouped values *)

Section GroupInvariant.
Context {K V E : Type} (eqb : K -> K -> bool).
Hypothesis eqb_spec : forall a b, reflect (a = b) (eqb a b).
Context (key : E -> K) (dflt : K -> V) (upd : E -> V -> V).
Context (P0 P : K -> V -> Prop).
Hypothesis P0_dflt : forall k, P0 k (dflt k).
Hypothesis P_upd : forall k e v, P0 k v -> P k (upd e v).
Hypothesis P_P0 : forall k v, P k v -> P0 k v.

Lemma bucket_invariant k es : forall o v,
  (forall v0, o = Some v0 -> P k v0) ->
  fold_left (Js.bucketStep eqb key dflt upd k) es o = Some v -> P k v.
Proof.
  induction es as [|e es IH]; intros o v Ho H; simpl in H; [now apply Ho |].
  apply IH in H; [exact H |]. intros v0 E0. unfold Js.bucketStep in E0.
  destruct (eqb k (key e)); [| now apply Ho].
  injection E0 as <-. apply P_upd.
  destruct o; [now apply P_P0, Ho | apply P0_dflt].
Qed.

(** A stored value has been updated at least once since its default. *)
Lemma group_invariant k v es :
  In (k, v) (fold_left (Js.groupStep eqb key dflt upd) es []) -> P k v.
Proof.
  intros H. apply (In_group eqb eqb_spec key dflt upd) in H.
  apply (bucket_invariant k es None v); [discriminate | exact H].
Qed.
End GroupInvariant.

(** ** Rounding within bounds *)

Lemma Qfloor_half (n : Z) : Qfloor (inject_Z n + (1 # 2)) = n.
Proof.
  unfold Qfloor, Qplus, inject_Z. cbn [Qnum Qden].
  change (Z.pos (1 * 2)) with 2. rewrite Z.mul_1_l.
  symmetry. apply (Z.div_unique _ 2 n 1); lia.
Qed.

Lemma Math_round_bounds (a b : Z) (x : Q) :
  (inject_Z a <= x)%Q -> (x <= inject_Z b)%Q -> a <= Js.Math_round x <= b.
Proof.
  intros Ha Hb. unfold Js.Math_round. split.
  - rewrite <- (Qfloor_half a). apply Qfloor_resp_le.
    apply Qplus_le_compat; [exact Ha | apply Qle_refl].
  - rewrite <- (Qfloor_half b). apply Qfloor_resp_le.
    apply Qplus_le_compat; [exact Hb | apply Qle_refl].
Qed.

Lemma round1_bounds (a b : Z) (x : Q) :
  (inject_Z a <= x)%Q -> (x <= inject_Z b)%Q ->
  (inject_Z a <= Js.round1 x)%Q /\ (Js.round1 x <= inject_Z b)%Q.
Proof.
  intros Ha Hb. unfold Js.round1.
  destruct (Math_round_bounds (a * 10) (b * 10) (x * 10)) as [H1 H2].
  - rewrite inject_Z_mult. apply Qmult_le_compat_r; [exact Ha | discriminate].
  - rewrite inject_Z_mult. apply Qmult_le_compat_r; [exact Hb | discriminate].
  - split.
    + apply Qle_shift_div_l; [reflexivity |].
      change 10%Q with (inject_Z 10). rewrite <- inject_Z_mult.
      now rewrite <- Zle_Qle.
    + apply Qle_shift_div_r; [reflexivity |].
      change 10%Q with (inject_Z 10). rewrite <- inject_Z_mult.
      now rewrite <- Zle_Qle.
Qed.

Lemma div_bounds (a b s c : Z) :
  0 < c -> a * c <= s <= b * c ->
  (inject_Z a <= Js.div s c)%Q /\ (Js.div s c <= inject_Z b)%Q.
Proof.
  intros Hc [H1 H2]. unfold Js.div.
  assert (Hq : (0 < inject_Z c)%Q)
    by (change 0%Q with (inject_Z 0); now rewrite <- Zlt_Qlt).
  split.
  - apply Qle_shift_div_l; [exact Hq |].
    rewrite <- inject_Z_mult. now rewrite <- Zle_Qle.
  - apply Qle_shift_div_r; [exact Hq |].
    rewrite <- inject_Z_mult. now rewrite <- Zle_Qle.
Qed.

(** ** Mood heatmap: the range of a row *)

Lemma scoreOf_range m v : Heatmap.scoreOf m = Some v -> 1 <= v <= 5.
Proof.
  unfold Heatmap.scoreOf, Heatmap.moodScores. cbn [Js.get].
  repeat match goal with
    | |- context [String.eqb m ?s] => destruct (String.eqb m s)
    end; intros H; inversion H; lia.
Qed.

Lemma addMood_in_range e d :
  Inv.moodDayInRange d -> Inv.moodDayInRange (Heatmap.addMood e d).
Proof.
  unfold Inv.moodDayInRange, Heatmap.addMood. intros (H1 & H2 & H3).
  destruct (mood e) as [m|]; [| tauto].
  destruct (Js.truthy (Some m)); [| tauto].
  destruct (Heatmap.scoreOf m) as [v|] eqn:E; [| tauto].
  apply scoreOf_range in E. cbn [Heatmap.md_score Heatmap.md_count
                                  Heatmap.md_moods].
  rewrite length_app. cbn [List.length]. lia.
Qed.

Lemma avgScore_range d :
  Inv.moodDayInRange d ->
  (1 <= Heatmap.avgScore d)%Q /\ (Heatmap.avgScore d <= 5)%Q.
Proof.
  unfold Inv.moodDayInRange, Heatmap.avgScore. intros (H1 & H2 & H3).
  destruct (Z.ltb_spec 0 (Heatmap.md_count d)) as [Hc | Hc].
  - apply (div_bounds 1 5); lia.
  - split; discriminate.
Qed.

(** X7: over entries none of whose mood labels names a member of
    [Object.prototype], every row of the daily mood view is in range: the
    score lies between 1 and 5 and the intensity between 20 and 100; a
    day none of whose entries carries a mood of the score table is a row
    with count 0, score 3, intensity 60 and mood neutral. *)
Theorem mood_rows_in_range (z : Time.Zone) (entries : list HabitEntry)
    (row : Heatmap.MoodRow) :
  Inv.plainMoods entries = true ->
  In row (Heatmap.mh_daily (Heatmap.generateMoodHeatmap z entries)) ->
  0 <= Heatmap.mr_count row
  /\ (1 <= Heatmap.mr_score row)%Q /\ (Heatmap.mr_score row <= 5)%Q
  /\ 20 <= Heatmap.mr_intensity row <= 100
  /\ (Heatmap.mr_count row = 0 ->
      (Heatmap.mr_score row == 3)%Q /\ Heatmap.mr_intensity row = 60
      /\ Heatmap.mr_mood row = "neutral").
Proof.
  intros _ H. cbn [Heatmap.generateMoodHeatmap Heatmap.mh_daily] in H.
  apply In_sortBy, In_sortBy in H. unfold Heatmap.moodRows in H.
  apply in_map_iff in H as ([k d] & <- & H).
  apply (group_invariant Z.eqb Z.eqb_spec
           (fun e => Time.localDay z (date e)) (fun _ => Heatmap.moodDay0)
           Heatmap.addMood (fun _ => Inv.moodDayInRange)
           (fun _ => Inv.moodDayInRange)) in H;
    [| intros _; unfold Inv.moodDayInRange; cbn; lia
     | intros _ e v; apply addMood_in_range
     | trivial].
  destruct (avgScore_range d H) as [A1 A5].
  destruct H as (H1 & H2 & H3).
  cbn [Heatmap.moodRow Heatmap.mr_count Heatmap.mr_score
       Heatmap.mr_intensity Heatmap.mr_mood].
  split; [exact H1 |].
  destruct (round1_bounds 1 5 _ A1 A5) as [R1 R5].
  split; [exact R1 |]. split; [exact R5 |]. split.
  - apply Math_round_bounds.
    + apply Qle_trans with (1 / 5 * 100)%Q; [discriminate |].
      apply Qmult_le_compat_r; [| discriminate].
      apply Qmult_le_compat_r; [exact A1 | discriminate].
    + apply Qle_trans with (5 / 5 * 100)%Q; [| discriminate].
      apply Qmult_le_compat_r; [| discriminate].
      apply Qmult_le_compat_r; [exact A5 | discriminate].
  - intros Hc. unfold Heatmap.avgScore. rewrite Hc. cbn [Z.ltb Z.compare].
    assert (Hm : Heatmap.md_moods d = []).
    { destruct (Heatmap.md_moods d); [reflexivity |]. simpl in H3. lia. }
    rewrite Hm. repeat split; reflexivity.
Qed.

Lemma mood_rows_in_range_witness :
  (1 <= Heatmap.mr_score Sample.happyRow)%Q
  /\ 20 <= Heatmap.mr_intensity Sample.happyRow <= 100.
Proof.
  destruct (mood_rows_in_range Sample.utc Sample.happyAndGroggy Sample.happyRow
              eq_refl)
    as (_ & H1 & _ & H2 & _).
  - vm_compute. left. reflexivity.
  - split; [exact H1 | exact H2].
Defined.

(** ** What a grouped value collects *)

Section GroupCollect.
Context {K V E X : Type} (eqb : K -> K -> bool).
Hypothesis eqb_spec : forall a b, reflect (a = b) (eqb a b).
Context (key : E -> K) (dflt : K -> V) (upd : E -> V -> V).

Lemma eqb_swap a b : eqb a b = eqb b a.
Proof. destruct (eqb_spec a b), (eqb_spec b a); congruence. Qed.

Section Lists.
Context (field : V -> list X) (contrib : E -> list X).
Hypothesis field_dflt : forall k, field (dflt k) = [].
Hypothesis field_upd : forall e v, field (upd e v) = (field v ++ contrib e)%list.

Lemma bucket_collect k es : forall o,
  match fold_left (Js.bucketStep eqb key dflt upd k) es o with
  | Some v =>
      field v = (match o with Some v0 => field v0 | None => [] end
                 ++ flat_map contrib (filter (fun e => eqb (key e) k) es))%list
  | None => o = None
  end.
Proof.
  induction es as [|e es IH]; intros o; simpl.
  - destruct o; [now rewrite app_nil_r | reflexivity].
  - specialize (IH (Js.bucketStep eqb key dflt upd k o e)).
    unfold Js.bucketStep in *. rewrite (eqb_swap (key e) k).
    destruct (eqb k (key e)); [| exact IH].
    destruct (fold_left _ es _) as [v|]; [| discriminate IH].
    rewrite IH, field_upd. cbn [flat_map]. rewrite app_assoc.
    destruct o; [reflexivity | now rewrite field_dflt].
Qed.

Lemma group_collect k v es :
  In (k, v) (fold_left (Js.groupStep eqb key dflt upd) es []) ->
  field v = flat_map contrib (filter (fun e => eqb (key e) k) es).
Proof.
  intros H. apply (In_group eqb eqb_spec key dflt upd) in H.
  pose proof (bucket_collect k es None) as B. rewrite H in B. exact B.
Qed.
End Lists.

Section Sums.
Context (field : V -> Z) (contrib : E -> Z).
Hypothesis field_dflt : forall k, field (dflt k) = 0.
Hypothesis field_upd : forall e v, field (upd e v) = field v + contrib e.

Lemma bucket_sum k es : forall o,
  match fold_left (Js.bucketStep eqb key dflt upd k) es o with
  | Some v =>
      field v = match o with Some v0 => field v0 | None => 0 end
                + Spec.total (map contrib (filter (fun e => eqb (key e) k) es))
  | None => o = None
  end.
Proof.
  induction es as [|e es IH]; intros o; simpl.
  - destruct o; [lia | reflexivity].
  - specialize (IH (Js.bucketStep eqb key dflt upd k o e)).
    unfold Js.bucketStep in *. rewrite (eqb_swap (key e) k).
    destruct (eqb k (key e)); [| exact IH].
    destruct (fold_left _ es _) as [v|]; [| discriminate IH].
    rewrite IH, field_upd. cbn [map Spec.total fold_right].
    fold (Spec.total (map contrib (filter (fun e => eqb (key e) k) es))).
    destruct o; [lia | rewrite field_dflt; lia].
Qed.

Lemma group_sum k v es :
  In (k, v) (fold_left (Js.groupStep eqb key dflt upd) es []) ->
  field v = Spec.total (map contrib (filter (fun e => eqb (key e) k) es)).
Proof.
  intros H. apply (In_group eqb eqb_spec key dflt upd) in H.
  pose proof (bucket_sum k es None) as B. rewrite H in B. exact B.
Qed.
End Sums.
End GroupCollect.

Lemma total_indicators {A} (p : A -> bool) (l : list A) :
  Spec.total (map (fun x => Js.indicator (p x)) l) = Js.count p l.
Proof.
  induction l as [|x l IH]; [reflexivity |].
  rewrite count_cons. cbn [map Spec.total fold_right].
  fold (Spec.total (map (fun x => Js.indicator (p x)) l)). rewrite IH.
  unfold Js.indicator. destruct (p x); lia.
Qed.

Lemma count_filter_and {A} (p q : A -> bool) (l : list A) :
  Js.count p (filter q l) = Js.count (fun x => q x && p x) l.
Proof.
  induction l as [|x l IH]; [reflexivity |]. cbn [filter].
  rewrite (count_cons (fun x => q x && p x)).
  destruct (q x); cbn [andb]; rewrite ?count_cons, IH; reflexivity.
Qed.

(** ** Mood heatmap: the mood label of a row *)

Lemma addMood_moods e d :
  Heatmap.md_moods (Heatmap.addMood e d)
  = (Heatmap.md_moods d ++ Inv.knownMoods [e])%list.
Proof.
  unfold Heatmap.addMood, Inv.knownMoods. cbn [flat_map].
  destruct (mood e) as [m|]; [| now rewrite app_nil_r].
  destruct (Js.truthy (Some m)); [| now rewrite app_nil_r].
  destruct (Heatmap.scoreOf m); [reflexivity | now rewrite app_nil_r].
Qed.

Lemma knownMoods_flat es :
  flat_map (fun e => Inv.knownMoods [e]) es = Inv.knownMoods es.
Proof.
  induction es as [|e es IH]; [reflexivity |].
  cbn [flat_map]. rewrite IH. unfold Inv.knownMoods. cbn [flat_map].
  now rewrite app_nil_r.
Qed.

(** X8: over entries none of whose mood labels names a member of
    [Object.prototype], the mood label of a daily row is the most
    frequent of the day's mood labels that the score table lists, and
    among equally frequent ones the one logged first; it is 'neutral'
    when the day has none. *)
Theorem mood_row_label_is_first_most_frequent
    (z : Time.Zone) (entries : list HabitEntry) (row : Heatmap.MoodRow) :
  Inv.plainMoods entries = true ->
  In row (Heatmap.mh_daily (Heatmap.generateMoodHeatmap z entries)) ->
  let moods :=
    Inv.knownMoods
      (filter (fun e => Time.localDay z (date e) =? Heatmap.mr_date row)
         entries) in
  (moods = [] /\ Heatmap.mr_mood row = "neutral")
  \/ exists pre post,
       moods = (pre ++ Heatmap.mr_mood row :: post)%list
       /\ (forall m, In m pre ->
             Heatmap.occurrences m moods
               < Heatmap.occurrences (Heatmap.mr_mood row) moods)
       /\ (forall m, In m post ->
             Heatmap.occurrences m moods
               <= Heatmap.occurrences (Heatmap.mr_mood row) moods).
Proof.
  intros _ H. cbn [Heatmap.generateMoodHeatmap Heatmap.mh_daily] in H.
  apply In_sortBy, In_sortBy in H. unfold Heatmap.moodRows in H.
  apply in_map_iff in H as ([k d] & <- & H).
  apply (group_collect Z.eqb Z.eqb_spec
           (fun e => Time.localDay z (date e)) (fun _ => Heatmap.moodDay0)
           Heatmap.addMood Heatmap.md_moods (fun e => Inv.knownMoods [e])
           (fun _ => eq_refl) addMood_moods) in H.
  rewrite knownMoods_flat in H.
  cbn [Heatmap.moodRow Heatmap.mr_mood Heatmap.mr_date]. cbv zeta.
  rewrite <- H. clear H. set (moods := Heatmap.md_moods d).
  unfold Heatmap.dominantMood. fold moods.
  set (before := fun a b : string =>
         Heatmap.occurrences b moods <=? Heatmap.occurrences a moods).
  destruct (Js.sortBy before moods) as [|m ms] eqn:E.
  - left. split; [| reflexivity].
    apply (sortBy_head_none before). now rewrite E.
  - right.
    destruct (sortBy_head before) with (l := moods) (x := m)
      as (pre & post & Hl & Hpre & Hpost).
    + unfold before. intros x y Hxy. apply Z.leb_gt in Hxy. apply Z.leb_le. lia.
    + unfold before. intros x y t Hxy Hyt.
      apply Z.leb_le in Hxy, Hyt. apply Z.leb_le. lia.
    + now rewrite E.
    + exists pre, post. split; [exact Hl |]. split.
      * intros y Hy. apply Hpre in Hy. unfold before in Hy.
        now apply Z.leb_gt in Hy.
      * intros y Hy. apply Hpost in Hy. unfold before in Hy.
        now apply Z.leb_le in Hy.
Qed.

Lemma mood_row_label_is_first_most_frequent_witness :
  Heatmap.mr_mood Sample.happyRow = "happy"
  /\ (Inv.knownMoods Sample.happyAndGroggy = []
      \/ exists pre post,
           Inv.knownMoods Sample.happyAndGroggy
           = (pre ++ "happy" :: post)%list).
Proof.
  split; [reflexivity |].
  destruct (mood_row_label_is_first_most_frequent Sample.utc
              Sample.happyAndGroggy Sample.happyRow eq_refl)
    as [[H _] | (pre & post & H & _)].
  - vm_compute. left. reflexivity.
  - left. exact H.
  - right. exists pre, post. exact H.
Defined.

(** ** Mood heatmap: the order of the daily rows *)

Lemma Qle_bool_total x y : Qle_bool x y = false -> Qle_bool y x = true.
Proof.
  intros H. apply Qle_bool_iff. apply Qlt_le_weak, Qnot_le_lt.
  intros Hle. apply Qle_bool_iff in Hle. congruence.
Qed.

Lemma Qle_bool_trans x y z :
  Qle_bool x y = true -> Qle_bool y z = true -> Qle_bool x z = true.
Proof.
  rewrite !Qle_bool_iff. apply Qle_trans.
Qed.

Lemma scoreAsc_total a b :
  Heatmap.scoreAsc a b = false -> Heatmap.scoreAsc b a = true.
Proof. apply Qle_bool_total. Qed.

Lemma scoreAsc_trans a b c :
  Heatmap.scoreAsc a b = true -> Heatmap.scoreAsc b c = true ->
  Heatmap.scoreAsc a c = true.
Proof. apply Qle_bool_trans. Qed.

Lemma scoreDesc_total a b :
  Heatmap.scoreDesc a b = false -> Heatmap.scoreDesc b a = true.
Proof. apply Qle_bool_total. Qed.

Lemma scoreDesc_trans a b c :
  Heatmap.scoreDesc a b = true -> Heatmap.scoreDesc b c = true ->
  Heatmap.scoreDesc a c = true.
Proof.
  unfold Heatmap.scoreDesc. intros H1 H2. exact (Qle_bool_trans _ _ _ H2 H1).
Qed.

Lemma StronglySorted_weaken {A} (R1 R2 : A -> A -> Prop) (l : list A) :
  (forall a b, R1 a b -> R2 a b) -> StronglySorted R1 l -> StronglySorted R2 l.
Proof.
  intros HR Hs. induction Hs as [|a l Hs IH Hall]; constructor; [exact IH |].
  rewrite Forall_forall in *. intros b Hb. apply HR, Hall, Hb.
Qed.

(** X9: over entries dated in the years 1000 to 9999 none of whose mood
    labels names a member of [Object.prototype], the mood view returns
    its daily rows, exactly one for every local day with an entry, in
    ascending order of score (the two in-place sorts of the summary leave
    them so), not in the order of the days; the best day of the summary
    is a row of highest score, the worst day is the first row returned
    and has the lowest score, and the number of days is the number of
    rows. *)
Theorem mood_daily_rows_ascending (z : Time.Zone) (entries : list HabitEntry) :
  Inv.plainMoods entries = true ->
  Inv.fourDigitYears z entries = true ->
  let h := Heatmap.generateMoodHeatmap z entries in
  NoDup (map Heatmap.mr_date (Heatmap.mh_daily h))
  /\ (forall day,
        (exists e, In e entries /\ Time.localDay z (date e) = day)
        <-> exists row, In row (Heatmap.mh_daily h)
                        /\ Heatmap.mr_date row = day)
  /\ StronglySorted
       (fun a b => (Heatmap.mr_score a <= Heatmap.mr_score b)%Q)
       (Heatmap.mh_daily h)
  /\ Heatmap.ms_totalDays (Heatmap.mh_summary h)
     = Z.of_nat (List.length (Heatmap.mh_daily h))
  /\ Heatmap.ms_worstDay (Heatmap.mh_summary h) = hd_error (Heatmap.mh_daily h)
  /\ (forall row,
        Heatmap.ms_bestDay (Heatmap.mh_summary h) = Some row ->
        In row (Heatmap.mh_daily h)
        /\ forall r, In r (Heatmap.mh_daily h) ->
             (Heatmap.mr_score r <= Heatmap.mr_score row)%Q)
  /\ (Heatmap.ms_bestDay (Heatmap.mh_summary h) = None <->
      Heatmap.mh_daily h = []).
Proof.
  intros _ _. cbv zeta.
  destruct (mood_rows_days z entries) as [Hnd Hdays].
  cbn [Heatmap.generateMoodHeatmap Heatmap.mh_daily Heatmap.mh_summary
       Heatmap.ms_totalDays Heatmap.ms_worstDay Heatmap.ms_bestDay].
  set (rows := Heatmap.moodRows z entries) in *.
  assert (P : Permutation rows
                (Js.sortBy Heatmap.scoreAsc (Js.sortBy Heatmap.scoreDesc rows))).
  { apply Permutation_sym. etransitivity; apply sortBy_perm. }
  split.
  { apply (Permutation_NoDup (l := map Heatmap.mr_date rows));
      [now apply Permutation_map | exact Hnd]. }
  split.
  { intros day. rewrite <- Hdays, !in_map_iff. split.
    - intros (row & E & Hrow). exists row. split; [| exact E].
      now apply (Permutation_in _ P).
    - intros (row & Hrow & E). exists row. split; [exact E |].
      now apply (Permutation_in _ (Permutation_sym P)). }
  split.
  { pose proof (sortBy_sorted Heatmap.scoreAsc scoreAsc_total scoreAsc_trans
                  (Js.sortBy Heatmap.scoreDesc rows)) as Hs.
    revert Hs. apply StronglySorted_weaken.
    intros a b Hab. now apply Qle_bool_iff. }
  split; [f_equal; apply Permutation_length, P |].
  split; [reflexivity |]. split.
  - intros row Hrow.
    destruct (sortBy_head Heatmap.scoreDesc scoreDesc_total scoreDesc_trans
                rows row Hrow) as (pre & post & Hl & Hpre & Hpost).
    split.
    + apply (Permutation_in _ P). rewrite Hl. apply in_or_app. right. now left.
    + intros r Hr. apply (Permutation_in _ (Permutation_sym P)) in Hr.
      rewrite Hl in Hr. apply in_app_or in Hr as [Hr | [<- | Hr]].
      * apply Hpre in Hr. unfold Heatmap.scoreDesc in Hr.
        apply Qle_bool_total in Hr. now apply Qle_bool_iff.
      * apply Qle_refl.
      * apply Hpost in Hr. unfold Heatmap.scoreDesc in Hr.
        now apply Qle_bool_iff.
  - split.
    + intros Hn. apply sortBy_head_none in Hn.
      apply Permutation_nil. rewrite <- Hn at 1. exact P.
    + intros Hn. rewrite Hn in P. apply Permutation_sym, Permutation_nil in P.
      now rewrite P.
Qed.

Lemma mood_daily_rows_ascending_witness :
  Heatmap.ms_totalDays
    (Heatmap.mh_summary
       (Heatmap.generateMoodHeatmap Sample.utc Sample.happyAndGroggy))
  = Z.of_nat
      (List.length
         (Heatmap.mh_daily
            (Heatmap.generateMoodHeatmap Sample.utc Sample.happyAndGroggy))).
Proof.
  exact (proj1 (proj2 (proj2 (proj2
           (mood_daily_rows_ascending Sample.utc Sample.happyAndGroggy
              eq_refl eq_refl))))).
Defined.

(** ** Sums over the values of a dictionary *)

Section DictionarySums.
Context {K V E : Type} (eqb : K -> K -> bool).
Context (key : E -> K) (dflt : K -> V) (upd : E -> V -> V).
Context (field : V -> Z) (contrib : E -> Z).
Hypothesis field_dflt : forall k, field (dflt k) = 0.
Hypothesis field_upd : forall e v, field (upd e v) = field v + contrib e.

Let sum (m : list (K * V)) : Z := Spec.total (map (fun kv => field (snd kv)) m).

Lemma sum_app m m' : sum (m ++ m') = sum m + sum m'.
Proof. unfold sum. now rewrite map_app, total_app. Qed.

Lemma sum_alter e k m :
  Js.has eqb k m = true -> sum (Js.alter eqb (upd e) k m) = sum m + contrib e.
Proof.
  unfold Js.has, sum. induction m as [|[k1 v1] m IH]; simpl; [discriminate |].
  destruct (eqb k k1); simpl.
  - intros _. rewrite field_upd. lia.
  - intros H. apply IH in H. unfold Spec.total in *. lia.
Qed.

Lemma sum_groupStep m e :
  sum (Js.groupStep eqb key dflt upd m e) = sum m + contrib e.
Proof.
  unfold Js.groupStep, Js.update.
  destruct (Js.has eqb (key e) m) eqn:H; [now apply sum_alter |].
  rewrite sum_app. unfold sum at 2. simpl.
  rewrite field_upd, field_dflt. lia.
Qed.

Lemma sum_group es : forall m,
  sum (fold_left (Js.groupStep eqb key dflt upd) es m)
  = sum m + Spec.total (map contrib es).
Proof.
  induction es as [|e es IH]; intros m; simpl; [lia |].
  rewrite IH, sum_groupStep. unfold Spec.total. lia.
Qed.
End DictionarySums.

(** ** Sentiment heatmap: rows and summary *)

Lemma addSentiment_fields e d :
  Heatmap.sd_positive (Heatmap.addSentiment e d)
  = Heatmap.sd_positive d + Js.indicator (Heatmap.hasSentiment "positive" e)
  /\ Heatmap.sd_neutral (Heatmap.addSentiment e d)
     = Heatmap.sd_neutral d + Js.indicator (Heatmap.hasSentiment "neutral" e)
  /\ Heatmap.sd_negative (Heatmap.addSentiment e d)
     = Heatmap.sd_negative d + Js.indicator (Heatmap.hasSentiment "negative" e)
  /\ Heatmap.sd_total (Heatmap.addSentiment e d)
     = Heatmap.sd_total d
       + (1 + Js.indicator (Heatmap.hasSentiment "total" e)).
Proof.
  unfold Heatmap.addSentiment, Heatmap.hasSentiment, Heatmap.bumpSentiment,
    Js.indicator.
  destruct (sentiment e) as [s|];
    [| cbn [Heatmap.sd_positive Heatmap.sd_neutral Heatmap.sd_negative
            Heatmap.sd_total]; lia].
  destruct (String.eqb_spec s "") as [-> | Hs].
  - cbn. lia.
  - assert (Ht : Js.truthy (Some s) = true).
    { unfold Js.truthy. destruct (String.eqb_spec s ""); [contradiction |].
      reflexivity. }
    rewrite Ht.
    destruct (String.eqb_spec s "positive") as [-> | ?]; [cbn; lia |].
    destruct (String.eqb_spec s "neutral") as [-> | ?]; [cbn; lia |].
    destruct (String.eqb_spec s "negative") as [-> | ?]; [cbn; lia |].
    destruct (String.eqb_spec s "total") as [-> | ?]; cbn; lia.
Qed.

Lemma addSentiment_bounded e d :
  Inv.sentimentDayBounded 0 d ->
  Inv.sentimentDayBounded 1 (Heatmap.addSentiment e d).
Proof.
  unfold Inv.sentimentDayBounded. intros (H1 & H2 & H3 & H4).
  destruct (addSentiment_fields e d) as (-> & -> & -> & ->).
  unfold Heatmap.hasSentiment, Js.indicator.
  destruct (sentiment e) as [s|]; [| lia].
  destruct (String.eqb_spec s "positive") as [-> | ?]; [cbn; lia |].
  destruct (String.eqb_spec s "neutral") as [-> | ?]; [cbn; lia |].
  destruct (String.eqb_spec s "negative") as [-> | ?]; [cbn; lia |].
  destruct (String.eqb s "total"); lia.
Qed.

Lemma percent_bounds (c n : Z) :
  0 <= c <= n -> 0 < n -> 0 <= Js.Math_round (Js.div c n * 100) <= 100.
Proof.
  intros Hc Hn. rewrite Math_round_div by exact Hn. split.
  - apply Z.div_pos; lia.
  - apply Z.lt_succ_r, Z.div_lt_upper_bound; lia.
Qed.

(** X10: in every row of the daily sentiment view the three sentiment
    counts are non-negative and together at most the row total, the total
    is at least 1 and the positive ratio is a percentage between 0 and
    100.  The total is the number of the day's entries plus the number of
    those whose sentiment label is the word 'total': such a label
    increments the total a second time. *)
Theorem sentiment_row_bounds (z : Time.Zone) (entries : list HabitEntry)
    (row : Heatmap.SentimentRow) :
  In row (Heatmap.sh_daily (Heatmap.generateSentimentHeatmap z entries)) ->
  let onDay (e : HabitEntry) :=
    Time.localDay z (date e) =? Heatmap.sr_date row in
  0 <= Heatmap.sr_positive row /\ 0 <= Heatmap.sr_neutral row
  /\ 0 <= Heatmap.sr_negative row
  /\ Heatmap.sr_positive row + Heatmap.sr_neutral row
       + Heatmap.sr_negative row < Heatmap.sr_total row + 1
  /\ 1 <= Heatmap.sr_total row
  /\ Heatmap.sr_total row
     = Js.count onDay entries
       + Js.count (fun e => onDay e && Heatmap.hasSentiment "total" e) entries
  /\ 0 <= Heatmap.sr_positiveRatio row <= 100.
Proof.
  intros H. cbn [Heatmap.generateSentimentHeatmap Heatmap.sh_daily] in H.
  apply in_map_iff in H as ([k d] & <- & H).
  unfold Heatmap.sentimentDayData in H.
  pose proof (group_invariant Z.eqb Z.eqb_spec
                (fun e => Time.localDay z (date e))
                (fun _ => Heatmap.sentimentDay0) Heatmap.addSentiment
                (fun _ => Inv.sentimentDayBounded 0)
                (fun _ => Inv.sentimentDayBounded 1)) as HI.
  specialize (HI ltac:(intros ?; unfold Inv.sentimentDayBounded; cbn; lia)
                 (fun _ => addSentiment_bounded)
                 ltac:(unfold Inv.sentimentDayBounded; intros; lia) k d entries H).
  cbv beta in HI.
  pose proof (group_sum Z.eqb Z.eqb_spec
                (fun e => Time.localDay z (date e))
                (fun _ => Heatmap.sentimentDay0) Heatmap.addSentiment
                Heatmap.sd_total
                (fun e => 1 + Js.indicator (Heatmap.hasSentiment "total" e))
                (fun _ => eq_refl)
                (fun e v => proj2 (proj2 (proj2 (addSentiment_fields e v))))
                k d entries H) as HT.
  cbv zeta.
  cbn [Heatmap.sentimentRow Heatmap.sr_positive Heatmap.sr_neutral
       Heatmap.sr_negative Heatmap.sr_total Heatmap.sr_date
       Heatmap.sr_positiveRatio].
  unfold Inv.sentimentDayBounded in HI. destruct HI as (H1 & H2 & H3 & H4).
  repeat (split; [lia |]). split.
  - rewrite HT. clear.
    set (mine := filter (fun e => Time.localDay z (date e) =? k) entries).
    assert (E : Spec.total
                  (map (fun e => 1 + Js.indicator (Heatmap.hasSentiment "total" e))
                     mine)
                = Z.of_nat (List.length mine)
                  + Js.count (Heatmap.hasSentiment "total") mine).
    { induction mine as [|e l IH]; [reflexivity |].
      rewrite count_cons. cbn [map Spec.total fold_right List.length].
      unfold Spec.total in IH. rewrite IH. unfold Js.indicator.
      destruct (Heatmap.hasSentiment "total" e); lia. }
    rewrite E. unfold mine. rewrite count_filter_and. reflexivity.
  - apply percent_bounds; lia.
Qed.

Lemma sentiment_row_bounds_witness :
  1 <= Heatmap.sr_total Sample.tieRow
  /\ 0 <= Heatmap.sr_positiveRatio Sample.tieRow <= 100.
Proof.
  destruct (sentiment_row_bounds Sample.utc Sample.positiveNegativeTie
              Sample.tieRow (or_introl eq_refl))
    as (_ & _ & _ & _ & H1 & _ & H2).
  split; [exact H1 | exact H2].
Defined.

(** X11: the daily sentiment rows add up to the summary: the positive,
    negative and neutral counts of the rows sum to the three totals of
    the summary, the rows are one per local day, the row totals sum to the
    number of entries plus the number of entries labelled 'total', and the
    positive ratio of the summary is a percentage between 0 and 100. *)
Theorem sentiment_rows_add_up (z : Time.Zone) (entries : list HabitEntry) :
  let h := Heatmap.generateSentimentHeatmap z entries in
  let rows := Heatmap.sh_daily h in
  Spec.total (map Heatmap.sr_positive rows)
    = Heatmap.ss_totalPositive (Heatmap.sh_summary h)
  /\ Spec.total (map Heatmap.sr_negative rows)
     = Heatmap.ss_totalNegative (Heatmap.sh_summary h)
  /\ Spec.total (map Heatmap.sr_neutral rows)
     = Heatmap.ss_totalNeutral (Heatmap.sh_summary h)
  /\ Spec.total (map Heatmap.sr_total rows)
     = Z.of_nat (List.length entries)
       + Js.count (Heatmap.hasSentiment "total") entries
  /\ NoDup (map Heatmap.sr_date rows)
  /\ 0 <= Heatmap.ss_positiveRatio (Heatmap.sh_summary h) <= 100.
Proof.
  cbv zeta.
  cbn [Heatmap.generateSentimentHeatmap Heatmap.sh_daily Heatmap.sh_summary
       Heatmap.ss_totalPositive Heatmap.ss_totalNegative
       Heatmap.ss_totalNeutral Heatmap.ss_positiveRatio].
  assert (S : forall (field : Heatmap.SentimentDay -> Z)
                (rfield : Heatmap.SentimentRow -> Z) (contrib : HabitEntry -> Z),
             (forall kv, rfield (Heatmap.sentimentRow kv) = field (snd kv)) ->
             field Heatmap.sentimentDay0 = 0 ->
             (forall e v, field (Heatmap.addSentiment e v) = field v + contrib e) ->
             Spec.total
               (map rfield
                  (map Heatmap.sentimentRow (Heatmap.sentimentDayData z entries)))
             = Spec.total (map contrib entries)).
  { intros field rfield contrib Hr H0 Hu. rewrite map_map.
    rewrite (map_ext _ (fun kv => field (snd kv))) by exact Hr.
    exact (sum_group Z.eqb (fun e => Time.localDay z (date e))
             (fun _ => Heatmap.sentimentDay0) Heatmap.addSentiment
             field contrib (fun _ => H0) Hu entries []). }
  split.
  { rewrite (S Heatmap.sd_positive Heatmap.sr_positive
               (fun e => Js.indicator (Heatmap.hasSentiment "positive" e)));
      [apply total_indicators | intros [k d]; reflexivity | reflexivity
      | intros e v; apply addSentiment_fields]. }
  split.
  { rewrite (S Heatmap.sd_negative Heatmap.sr_negative
               (fun e => Js.indicator (Heatmap.hasSentiment "negative" e)));
      [apply total_indicators | intros [k d]; reflexivity | reflexivity
      | intros e v; apply addSentiment_fields]. }
  split.
  { rewrite (S Heatmap.sd_neutral Heatmap.sr_neutral
               (fun e => Js.indicator (Heatmap.hasSentiment "neutral" e)));
      [apply total_indicators | intros [k d]; reflexivity | reflexivity
      | intros e v; apply addSentiment_fields]. }
  split.
  { rewrite (S Heatmap.sd_total Heatmap.sr_total
               (fun e => 1 + Js.indicator (Heatmap.hasSentiment "total" e)));
      [| intros [k d]; reflexivity | reflexivity
       | intros e v; apply addSentiment_fields].
    clear. induction entries as [|e l IH]; [reflexivity |].
    rewrite count_cons. cbn [map Spec.total fold_right List.length].
    unfold Spec.total in IH. rewrite IH. unfold Js.indicator.
    destruct (Heatmap.hasSentiment "total" e); lia. }
  split.
  { rewrite map_map. rewrite (map_ext _ fst) by (intros [k d]; reflexivity).
    apply (group_NoDup Z.eqb Z.eqb_spec (fun e => Time.localDay z (date e))
             (fun _ => Heatmap.sentimentDay0) Heatmap.addSentiment).
    constructor. }
  destruct (Z.ltb_spec 0 (Z.of_nat (List.length entries))) as [Hn | Hn];
    [| lia].
  apply percent_bounds; [| exact Hn]. split; [apply count_nonneg |].
  unfold Js.count. pose proof (filter_length_le
    (Heatmap.hasSentiment "positive") entries). lia.
Qed.

(** ** Arrays updated by index *)

Section ArrayFold.
Context {A E : Type} (idx : E -> Z) (upd : E -> A -> A).



End ArrayFold.





(** ** Mood heatmap: the hourly and weekly patterns *)













(** ** Trend buckets *)

Lemma total_perm l l' : Permutation l l' -> Spec.total l = Spec.total l'.
Proof.
  unfold Spec.total. induction 1; simpl; lia.
Qed.

Lemma total_ones {A} (l : list A) :
  Spec.total (map (fun _ => 1) l) = Z.of_nat (List.length l).
Proof.
  induction l as [|x l IH]; [reflexivity |].
  cbn [map Spec.total fold_right List.length]. unfold Spec.total in IH. lia.
Qed.

Lemma sorted_NoDup_strict {A} (f : A -> Z) (l : list A) :
  StronglySorted (fun a b => f a <= f b) l -> NoDup (map f l) ->
  StronglySorted (fun a b => f a < f b) l.
Proof.
  induction 1 as [|a l Hs IH Hall]; intros Hnd; constructor.
  - apply IH. now inversion Hnd.
  - inversion Hnd as [|? ? Hnotin _]; subst.
    rewrite Forall_forall in *. intros b Hb.
    specialize (Hall b Hb). assert (f a <> f b); [| lia].
    intros E. apply Hnotin. rewrite E. now apply in_map.
Qed.

Lemma addEntry_count e b :
  Stats.b_count (Stats.addEntry e b) = Stats.b_count b + 1
  /\ Stats.b_date (Stats.addEntry e b) = Stats.b_date b.
Proof.
  unfold Stats.addEntry. destruct (mood e) as [m|]; [| split; reflexivity].
  destruct (Js.truthy (Some m)); split; reflexivity.
Qed.

Lemma addEntry_quantity e b :
  (Stats.b_totalQuantity (Stats.addEntry e b)
   == Stats.b_totalQuantity b + Inv.Qtotal (Inv.quantities [e]))%Q.
Proof.
  unfold Stats.addEntry, Inv.quantities. cbn [flat_map].
  assert (E : (match quantity e with
               | Some q => Stats.b_totalQuantity b + q
               | None => Stats.b_totalQuantity b
               end
               == Stats.b_totalQuantity b
                  + Inv.Qtotal (match quantity e with
                                | Some q => [q]
                                | None => []
                                end ++ []))%Q).
  { unfold Inv.Qtotal. destruct (quantity e) as [q|]; cbn [app fold_right]; ring. }
  destruct (mood e) as [m|]; [destruct (Js.truthy (Some m)) |];
    cbn [Stats.b_totalQuantity]; exact E.
Qed.

Lemma Qtotal_app xs ys :
  (Inv.Qtotal (xs ++ ys) == Inv.Qtotal xs + Inv.Qtotal ys)%Q.
Proof.
  unfold Inv.Qtotal.
  induction xs as [|x xs IH]; cbn [app fold_right]; [ring |].
  rewrite IH. ring.
Qed.

Lemma quantities_cons e es :
  Inv.quantities (e :: es) = (Inv.quantities [e] ++ Inv.quantities es)%list.
Proof. unfold Inv.quantities. cbn [flat_map]. now rewrite app_nil_r. Qed.

Lemma bucket_quantity z groupBy k es : forall o,
  match fold_left
          (Js.bucketStep Z.eqb (fun e => Stats.periodKey z groupBy (date e))
             Stats.bucket0 Stats.addEntry k) es o with
  | Some v =>
      (Stats.b_totalQuantity v
       == match o with Some v0 => Stats.b_totalQuantity v0 | None => 0 end
          + Inv.Qtotal
              (Inv.quantities
                 (filter (fun e => Stats.periodKey z groupBy (date e) =? k) es)))%Q
  | None => o = None
  end.
Proof.
  induction es as [|e es IH]; intros o; cbn [fold_left filter].
  - destruct o; [cbn; ring | reflexivity].
  - specialize (IH (Js.bucketStep Z.eqb
                      (fun e => Stats.periodKey z groupBy (date e))
                      Stats.bucket0 Stats.addEntry k o e)).
    unfold Js.bucketStep in *.
    rewrite (Z.eqb_sym (Stats.periodKey z groupBy (date e)) k).
    destruct (k =? Stats.periodKey z groupBy (date e)); [| exact IH].
    destruct (fold_left _ es _) as [v|]; [| discriminate IH].
    rewrite IH, addEntry_quantity, (quantities_cons e (filter _ es)), Qtotal_app.
    destruct o; cbn [Stats.bucket0 Stats.b_totalQuantity]; ring.
Qed.

(** X14: the trend buckets, over entries dated in the years 1000 to 9999
    and, for the grouping by week, in a zone without clock changes.  The
    buckets come out in strictly ascending order of their period key, so
    no period appears twice.  A bucket's count is the number of entries
    of its period and is at least 1, and the counts of all buckets add up
    to the number of entries.  Where the quantities are whole numbers
    whose sums a double holds exactly, a bucket's total quantity is the
    sum of the quantities that the entries of its period carry. *)
Theorem trend_buckets_partition_entries
    (z : Time.Zone) (entries : list HabitEntry) (groupBy : string) :
  (groupBy = "week" -> Time.fixedOffset z) ->
  Inv.fourDigitYears z entries = true ->
  let trends := Stats.groupEntriesByPeriod z entries groupBy in
  let mine b :=
    filter (fun e => Stats.periodKey z groupBy (date e) =? Stats.b_date b)
      entries in
  StronglySorted (fun a b => Stats.b_date a < Stats.b_date b) trends
  /\ Spec.total (map Stats.b_count trends) = Z.of_nat (List.length entries)
  /\ (forall b, In b trends ->
        Stats.b_count b = Z.of_nat (List.length (mine b))
        /\ 1 <= Stats.b_count b)
  /\ (Inv.wholeQuantities (Inv.quantities entries) ->
      forall b, In b trends ->
        (Stats.b_totalQuantity b == Inv.Qtotal (Inv.quantities (mine b)))%Q).
Proof.
  intros _ _. cbv zeta. unfold Stats.groupEntriesByPeriod.
  set (before := fun a b => Stats.b_date a <=? Stats.b_date b).
  set (key := fun e => Stats.periodKey z groupBy (date e)).
  assert (G : forall k v, In (k, v) (Stats.grouped z groupBy entries) ->
              Stats.b_date v = k
              /\ Stats.b_count v
                 = Z.of_nat (List.length (filter (fun e => key e =? k) entries))
              /\ 1 <= Stats.b_count v
              /\ (Stats.b_totalQuantity v
                  == Inv.Qtotal
                       (Inv.quantities (filter (fun e => key e =? k) entries)))%Q).
  { intros k v H. unfold Stats.grouped in H.
    pose proof (group_invariant Z.eqb Z.eqb_spec key Stats.bucket0
                  Stats.addEntry
                  (fun k v => Stats.b_date v = k /\ 0 <= Stats.b_count v)
                  (fun k v => Stats.b_date v = k /\ 1 <= Stats.b_count v)) as HI.
    specialize (HI ltac:(intros ?; cbn; lia)).
    specialize (HI ltac:(intros k0 e0 v0 [? ?];
                         destruct (addEntry_count e0 v0) as [-> ->]; lia)).
    specialize (HI ltac:(cbv beta; intros; lia) k v entries H).
    cbv beta in HI. destruct HI as [Hd Hc].
    pose proof (group_sum Z.eqb Z.eqb_spec key Stats.bucket0 Stats.addEntry
                  Stats.b_count (fun _ => 1) (fun _ => eq_refl)
                  (fun e v => proj1 (addEntry_count e v)) k v entries H) as HS.
    rewrite total_ones in HS.
    pose proof (bucket_quantity z groupBy k entries None) as HQ.
    apply (In_group Z.eqb Z.eqb_spec key Stats.bucket0 Stats.addEntry) in H.
    unfold key in H. rewrite H in HQ. rewrite Qplus_0_l in HQ.
    repeat split; assumption. }
  set (buckets := map snd (Stats.grouped z groupBy entries)).
  assert (P : Permutation (Js.sortBy before buckets) buckets)
    by apply sortBy_perm.
  split; [| split; [| split]].
  - apply sorted_NoDup_strict.
    + pose proof (sortBy_sorted before) as Hs.
      specialize (Hs ltac:(unfold before; intros x y H;
                           apply Z.leb_gt in H; apply Z.leb_le; lia)).
      specialize (Hs ltac:(unfold before; intros x y t H1 H2;
                           apply Z.leb_le in H1, H2; apply Z.leb_le; lia)
                     buckets).
      revert Hs. apply StronglySorted_weaken. unfold before.
      intros a b Hab. now apply Z.leb_le.
    + apply (Permutation_NoDup (l := map Stats.b_date buckets));
        [apply Permutation_map, Permutation_sym, P |].
      unfold buckets. rewrite map_map.
      rewrite (map_ext_in _ fst)
        by (intros [k v] Hin; exact (proj1 (G k v Hin))).
      unfold Stats.grouped.
      apply (group_NoDup Z.eqb Z.eqb_spec key Stats.bucket0 Stats.addEntry).
      constructor.
  - rewrite (total_perm _ _ (Permutation_map Stats.b_count P)).
    unfold buckets. rewrite map_map.
    etransitivity; [| apply (total_ones entries)].
    exact (sum_group Z.eqb key Stats.bucket0 Stats.addEntry Stats.b_count
             (fun _ => 1) (fun _ => eq_refl)
             (fun e v => proj1 (addEntry_count e v)) entries []).
  - intros b Hb. apply (Permutation_in _ P) in Hb. unfold buckets in Hb.
    apply in_map_iff in Hb as ([k v] & <- & Hin). cbn [snd].
    destruct (G k v Hin) as (Hd & Hc & H1 & Hq). rewrite Hd.
    split; assumption.
  - intros _ b Hb. apply (Permutation_in _ P) in Hb. unfold buckets in Hb.
    apply in_map_iff in Hb as ([k v] & <- & Hin). cbn [snd].
    destruct (G k v Hin) as (Hd & Hc & H1 & Hq). rewrite Hd. exact Hq.
Qed.

Lemma trend_buckets_partition_entries_witness :
  Spec.total
    (map Stats.b_count
       (Stats.groupEntriesByPeriod Sample.utc Sample.moodlessThenHappy "week"))
  = 2.
Proof.
  exact (proj1 (proj2 (trend_buckets_partition_entries Sample.utc
                         Sample.moodlessThenHappy "week"
                         (fun _ t => eq_refl) eq_refl))).
Defined.

(** ** Streaks: the longest run *)

Lemma sorted_snoc {A} (R : A -> A -> Prop) (l : list A) (a : A) :
  StronglySorted R l -> Forall (fun x => R x a) l ->
  StronglySorted R (l ++ [a]).
Proof.
  induction 1 as [|b l Hs IH Hall]; intros Ha; simpl.
  - repeat constructor.
  - inversion Ha as [|? ? Hba Hla]; subst. constructor; [now apply IH |].
    apply Forall_app. split; [exact Hall | now constructor].
Qed.

Lemma sorted_rev {A} (R : A -> A -> Prop) (l : list A) :
  StronglySorted R l -> StronglySorted (fun x y => R y x) (rev l).
Proof.
  induction 1 as [|a l Hs IH Hall]; simpl; [constructor |].
  apply sorted_snoc; [exact IH |].
  rewrite Forall_forall in *. intros x Hx. apply Hall. now apply in_rev.
Qed.

Lemma streak_dates_descending entries :
  StronglySorted (fun x y => y < x)
    (rev (Js.sortBy Z.leb
            (Js.distinct Z.eqb (map (fun e => Time.utcDay (date e)) entries)))).
Proof.
  apply (sorted_rev (fun x y => x < y)).
  apply (sorted_NoDup_strict (fun x => x)).
  - pose proof (sortBy_sorted Z.leb) as Hs.
    specialize (Hs ltac:(intros x y H; apply Z.leb_gt in H; apply Z.leb_le; lia)).
    specialize (Hs ltac:(intros x y t H1 H2; apply Z.leb_le in H1, H2;
                         apply Z.leb_le; lia)).
    eapply StronglySorted_weaken; [| apply Hs].
    intros a b Hab. now apply Z.leb_le.
  - rewrite map_id.
    apply Permutation_NoDup
      with (l := Js.distinct Z.eqb (map (fun e => Time.utcDay (date e)) entries)).
    + apply Permutation_sym, sortBy_perm.
    + apply (NoDup_distinct Z.eqb Z.eqb_spec).
Qed.

Section LongestRun.
Variable D : list Z.

Let Run (x j : Z) : Prop := forall i, 0 <= i < j -> In (x + i) D.

Lemma longestLoop_run : forall rest prev temp longest,
  StronglySorted (fun x y => y < x) (prev :: rest) ->
  In prev D -> incl rest D ->
  (forall x, In x D -> In x rest \/ prev <= x) ->
  1 <= temp -> Run prev temp -> ~ In (prev + temp) D ->
  temp <= longest ->
  (forall x j, In x D -> prev <= x -> Run x j -> j <= longest) ->
  (exists d, Run d longest) ->
  let L := Stats.longestLoop prev temp longest rest in
  longest <= L
  /\ (forall x j, In x D -> Run x j -> j <= L)
  /\ exists d, Run d L.
Proof.
  induction rest as [|curr rest IH];
    intros prev temp longest Hs Hp Hincl Hcov Ht Hrun Hend Hle Hmax Hwit;
    cbv zeta; cbn [Stats.longestLoop].
  - split; [lia |]. split; [| exact Hwit].
    intros x j Hx Hj. destruct (Hcov x Hx) as [[] | Hge].
    now apply (Hmax x j).
  - inversion Hs as [|? ? Hs' Hall]; subst.
    assert (Hcp : curr < prev)
      by (rewrite Forall_forall in Hall; apply Hall; now left).
    assert (Hc : In curr D) by (apply Hincl; now left).
    assert (Hbelow : forall x, In x rest -> x < curr).
    { inversion Hs' as [|? ? _ Hall']; subst. rewrite Forall_forall in Hall'.
      exact Hall'. }
    set (temp' := if prev - curr =? 1 then temp + 1 else 1).
    assert (Ht' : 1 <= temp') by (unfold temp'; destruct (prev - curr =? 1); lia).
    assert (Hrun' : Run curr temp').
    { unfold temp'. destruct (Z.eqb_spec (prev - curr) 1) as [E | E].
      - intros i Hi. destruct (Z.eq_dec i 0) as [-> | Hi0].
        + now rewrite Z.add_0_r.
        + replace (curr + i) with (prev + (i - 1)) by lia. apply Hrun. lia.
      - intros i Hi. replace i with 0 by lia. now rewrite Z.add_0_r. }
    assert (Hend' : ~ In (curr + temp') D).
    { unfold temp'. destruct (Z.eqb_spec (prev - curr) 1) as [E | E].
      - replace (curr + (temp + 1)) with (prev + temp) by lia. exact Hend.
      - intros Hin. destruct (Hcov _ Hin) as [[Hx | Hx] | Hx]; try lia.
        apply Hbelow in Hx. lia. }
    assert (Hcurr : forall j, Run curr j -> j <= temp').
    { intros j Hj. destruct (Z_le_gt_dec j temp') as [H | H]; [exact H |].
      exfalso. apply Hend', Hj. lia. }
    destruct (IH curr temp' (Z.max longest temp')) as (H1 & H2 & H3);
      try assumption; try lia.
    + intros x Hx. apply Hincl. now right.
    + intros x Hx. destruct (Hcov x Hx) as [[<- | Hr] | Hge];
        [right; lia | now left | right; lia].
    + intros x j Hx Hge Hj.
      destruct (Z_le_gt_dec prev x) as [Hpx | Hpx].
      * specialize (Hmax x j Hx Hpx Hj). lia.
      * destruct (Hcov x Hx) as [[<- | Hr] | Hge']; try lia.
        -- specialize (Hcurr j Hj). lia.
        -- apply Hbelow in Hr. lia.
    + destruct (Z.max_spec longest temp') as [[_ ->] | [_ ->]];
        [exists curr; exact Hrun' | exact Hwit].
    + split; [lia |]. split; [exact H2 | exact H3].
Qed.

Lemma longest_of_descending d0 rest :
  D = d0 :: rest -> StronglySorted (fun x y => y < x) D ->
  let L := Stats.longestLoop d0 1 (Z.max 0 1) rest in
  1 <= L
  /\ (forall x j, In x D -> Run x j -> j <= L)
  /\ exists d, Run d L.
Proof.
  intros HD Hs. cbv zeta.
  assert (Hbelow : forall x, In x rest -> x < d0).
  { rewrite HD in Hs. inversion Hs as [|? ? _ Hall]; subst.
    rewrite Forall_forall in Hall. exact Hall. }
  assert (Hin0 : In d0 D) by (rewrite HD; now left).
  assert (Hend : ~ In (d0 + 1) D).
  { intros H. rewrite HD in H. destruct H as [H | H]; [lia |].
    apply Hbelow in H. lia. }
  destruct (longestLoop_run rest d0 1 (Z.max 0 1)) as (H1 & H2 & H3).
  - rewrite <- HD. exact Hs.
  - exact Hin0.
  - intros x Hx. rewrite HD. now right.
  - intros x Hx. rewrite HD in Hx. destruct Hx as [<- | Hx];
      [right; lia | now left].
  - lia.
  - intros i Hi. replace i with 0 by lia. now rewrite Z.add_0_r.
  - exact Hend.
  - reflexivity.
  - intros x j Hx Hge Hj. rewrite HD in Hx. destruct Hx as [<- | Hx].
    + destruct (Z_le_gt_dec j (Z.max 0 1)) as [H | H]; [exact H |].
      exfalso. apply Hend, Hj. change (Z.max 0 1) with 1 in H. lia.
    + apply Hbelow in Hx. lia.
  - exists d0. intros i Hi. replace i with 0 by (change (Z.max 0 1) with 1 in Hi; lia).
    now rewrite Z.add_0_r.
  - split; [exact H1 |]. split; assumption.
Qed.

Lemma run_within_length d j :
  NoDup D -> 0 <= j -> Run d j -> j <= Z.of_nat (List.length D).
Proof.
  intros Hnd Hj Hrun.
  set (run := map (fun i => d + Z.of_nat i) (seq 0 (Z.to_nat j))).
  assert (Hlen : (List.length run <= List.length D)%nat).
  { apply NoDup_incl_length.
    - unfold run. apply Finite.Injective_map_NoDup; [| apply seq_NoDup].
      intros a b Hab. lia.
    - intros x Hx. unfold run in Hx. apply in_map_iff in Hx as (i & <- & Hi).
      apply in_seq in Hi. apply Hrun. lia. }
  unfold run in Hlen. rewrite length_map, length_seq in Hlen. lia.
Qed.
End LongestRun.

(** X15: over entries dated in the years 1000 to 9999, the longest
    streak is the length of the longest run of consecutive UTC days that
    each have an entry: some run of that length exists and no run is
    longer.  It is never above the number of distinct days logged, nor is
    the current streak; all three are 0 when there is no entry.  In a
    zone without clock changes the current streak is never above the
    longest one. *)
Theorem longest_streak_is_longest_run (z : Time.Zone) (now : Z)
    (entries : list HabitEntry) :
  Inv.fourDigitYears z entries = true ->
  let s := Stats.calculateStreaks z now entries in
  (forall d j, (forall i, 0 <= i < j -> Spec.hasEntryOn entries (d + i)) ->
               j <= Stats.longest s)
  /\ (exists d, forall i, 0 <= i < Stats.longest s ->
                          Spec.hasEntryOn entries (d + i))
  /\ 0 <= Stats.current s <= Stats.totalDays s
  /\ (Time.fixedOffset z -> Stats.current s <= Stats.longest s)
  /\ Stats.longest s <= Stats.totalDays s
  /\ Stats.totalDays s = Z.of_nat (List.length (Spec.days entries))
  /\ (entries = [] ->
      Stats.current s = 0 /\ Stats.longest s = 0 /\ Stats.totalDays s = 0).
Proof.
  intros _. cbv zeta.
  destruct (current_streak_run z now entries) as (Hk & Hcur & _).
  cbv zeta in Hk, Hcur.
  assert (Hbound : Stats.current (Stats.calculateStreaks z now entries)
                   <= Stats.totalDays (Stats.calculateStreaks z now entries)).
  { unfold Stats.calculateStreaks. cbn [Stats.current Stats.totalDays].
    set (dates := rev _).
    pose proof (currentLoop_run dates z now (List.length dates) 0) as H.
    cbv zeta in H. lia. }
  assert (Hempty : entries = [] ->
                   Stats.current (Stats.calculateStreaks z now entries) = 0)
    by (intros ->; reflexivity).
  revert Hbound.
  set (k := Stats.current (Stats.calculateStreaks z now entries)) in *.
  unfold Stats.calculateStreaks. cbn [Stats.longest Stats.totalDays].
  intros Hbound.
  pose proof (streak_dates_In entries) as HIn.
  pose proof (streak_dates_NoDup entries) as Hnd.
  pose proof (streak_dates_descending entries) as Hs.
  assert (Hlen : List.length
                   (rev (Js.sortBy Z.leb
                           (Js.distinct Z.eqb
                              (map (fun e => Time.utcDay (date e)) entries))))
                 = List.length (Spec.days entries)).
  { rewrite length_rev. apply Permutation_length, sortBy_perm. }
  assert (Hnil : entries = [] ->
                 rev (Js.sortBy Z.leb
                        (Js.distinct Z.eqb
                           (map (fun e => Time.utcDay (date e)) entries))) = [])
    by (intros ->; reflexivity).
  set (dates := rev _) in *.
  assert (M : (forall d j, (forall i, 0 <= i < j -> In (d + i) dates) ->
                           j <= match dates with
                                | [] => 0
                                | d0 :: rest =>
                                    Stats.longestLoop d0 1 (Z.max 0 1) rest
                                end)
              /\ (exists d, forall i,
                    0 <= i < match dates with
                             | [] => 0
                             | d0 :: rest =>
                                 Stats.longestLoop d0 1 (Z.max 0 1) rest
                             end -> In (d + i) dates)
              /\ match dates with
                 | [] => 0
                 | d0 :: rest => Stats.longestLoop d0 1 (Z.max 0 1) rest
                 end <= Z.of_nat (List.length dates)).
  { destruct dates as [|d0 rest] eqn:E.
    - split; [| split; [exists 0; intros i Hi; lia | simpl; lia]].
      intros d j Hj. destruct (Z_le_gt_dec j 0) as [H | H]; [exact H |].
      destruct (Hj 0 ltac:(lia)).
    - destruct (longest_of_descending (d0 :: rest) d0 rest eq_refl Hs)
        as (H1 & H2 & d & H3).
      split; [| split].
      + intros d' j Hj. destruct (Z_le_gt_dec j 0) as [H | H]; [lia |].
        apply (H2 d' j); [| exact Hj].
        specialize (Hj 0 ltac:(lia)). now rewrite Z.add_0_r in Hj.
      + exists d. exact H3.
      + apply (run_within_length (d0 :: rest) d); [exact Hnd | lia | exact H3]. }
  destruct M as (M1 & (d & M2) & M3).
  split; [| split; [| split; [| split; [| split; [| split]]]]].
  - intros d' j Hj. apply (M1 d'). intros i Hi. apply HIn, Hj, Hi.
  - exists d. intros i Hi. apply HIn, M2, Hi.
  - split; [exact Hk | exact Hbound].
  - intros _.
    apply (M1 (Time.checkDay z now 0 - (k - 1)) k). intros i Hi. apply HIn.
    replace (Time.checkDay z now 0 - (k - 1) + i)
      with (Time.checkDay z now 0 - (k - 1 - i)) by lia.
    apply Hcur. lia.
  - exact M3.
  - now rewrite Hlen.
  - intros He. split; [exact (Hempty He) |]. rewrite (Hnil He).
    split; reflexivity.
Qed.

Lemma longest_streak_is_longest_run_witness :
  Stats.longest
    (Stats.calculateStreaks Sample.utc (Sample.noon 100)
       Sample.todayAndYesterday)
  <= Stats.totalDays
       (Stats.calculateStreaks Sample.utc (Sample.noon 100)
          Sample.todayAndYesterday).
Proof.
  exact (proj1 (proj2 (proj2 (proj2 (proj2
           (longest_streak_is_longest_run Sample.utc (Sample.noon 100)
              Sample.todayAndYesterday eq_refl)))))).
Defined.

(** ** The fallback classifier: quantity and unit *)

Lemma digitsValue_nonneg s : forall acc, 0 <= acc -> 0 <= Parse.digitsValue acc s.
Proof.
  induction s as [|c s IH]; intros acc H; cbn [Parse.digitsValue]; [exact H |].
  apply IH. lia.
Qed.

Lemma parseFloat_nonneg int frac : (0 <= Parse.parseFloat int frac)%Q.
Proof.
  unfold Parse.parseFloat.
  pose proof (digitsValue_nonneg int 0 ltac:(lia)) as Hi.
  pose proof (digitsValue_nonneg frac 0 ltac:(lia)) as Hf.
  assert (Hp : 0 < 10 ^ Z.of_nat (String.length frac))
    by (apply Z.pow_pos_nonneg; lia).
  replace 0%Q with (0 + 0)%Q by reflexivity.
  apply Qplus_le_compat.
  - change 0%Q with (inject_Z 0). now rewrite <- Zle_Qle.
  - apply Qle_shift_div_l.
    + change 0%Q with (inject_Z 0). now rewrite <- Zlt_Qlt.
    + rewrite Qmult_0_l. change 0%Q with (inject_Z 0). now rewrite <- Zle_Qle.
Qed.

Lemma matchUnit_In s u : Parse.matchUnit s = Some u -> In u Parse.unitAlternatives.
Proof. intros H. apply find_some in H. tauto. Qed.

(** The alternative [mi] comes before every alternative it is a prefix
    of, so none of those is ever the match. *)
Lemma matchUnit_values s u :
  Parse.matchUnit s = Some u ->
  In (Parse.canonicalUnit u) Inv.reportedUnits.
Proof.
  intros H. unfold Parse.matchUnit in H.
  destruct (String.prefix "mi" s) eqn:Emi.
  - assert (Ekm : String.prefix "km" s = false).
    { destruct s as [|c s]; [discriminate Emi |].
      cbn [String.prefix] in Emi |- *.
      destruct (ascii_dec "m" c) as [<- | Hc]; [reflexivity | discriminate Emi]. }
    unfold Parse.unitAlternatives in H. cbn [find] in H.
    rewrite Ekm, Emi in H. injection H as <-. vm_compute. tauto.
  - pose proof (find_some _ _ H) as [Hin Hp].
    assert (Hmi : String.prefix "mi" u = true -> False).
    { intros Hu. enough (String.prefix "mi" s = true) by congruence.
      clear - Hu Hp.
      destruct u as [|a [|b u]]; try discriminate Hu;
        cbn [String.prefix] in Hu.
      - destruct (ascii_dec "m" a); discriminate Hu.
      - destruct (ascii_dec "m" a) as [<- |]; [| discriminate Hu].
        destruct (ascii_dec "i" b) as [<- |]; [| discriminate Hu].
        destruct s as [|c [|d s]]; cbn [String.prefix] in Hp;
          try discriminate Hp.
        + destruct (ascii_dec "m" c); discriminate Hp.
        + destruct (ascii_dec "m" c) as [<- |]; [| discriminate Hp].
          destruct (ascii_dec "i" d) as [<- |]; [| discriminate Hp].
          cbn [String.prefix].
          destruct (ascii_dec "m" "m"); [| congruence].
          destruct (ascii_dec "i" "i"); [| congruence].
          destruct s; reflexivity. }
    unfold Parse.unitAlternatives in Hin. cbn [In] in Hin.
    repeat (destruct Hin as [<- | Hin];
            [first [exfalso; apply Hmi; reflexivity | vm_compute; tauto] |]).
    destruct Hin.
Qed.

Lemma matchQuantityHere_values s q u :
  Parse.matchQuantityHere s = Some (q, u) ->
  (0 <= q)%Q /\ In (Parse.canonicalUnit u) Inv.reportedUnits.
Proof.
  unfold Parse.matchQuantityHere.
  destruct (Parse.span Parse.isDigit s) as [int rest].
  destruct int as [|c int]; [discriminate |].
  set (digits := String c int).
  assert (Plain : match Parse.matchUnit (snd (Parse.span Parse.isSpace rest)) with
                  | Some u0 => Some (Parse.parseFloat digits "", u0)
                  | None => None
                  end = Some (q, u) ->
                  (0 <= q)%Q /\ In (Parse.canonicalUnit u) Inv.reportedUnits).
  { destruct (Parse.matchUnit _) as [u0|] eqn:Eu; [| discriminate].
    intros H. injection H as <- <-.
    split; [apply parseFloat_nonneg | exact (matchUnit_values _ _ Eu)]. }
  destruct rest as [|d rest1]; [exact Plain |].
  destruct (ascii_dec d ".") as [-> | Hd].
  - destruct (Parse.span Parse.isDigit rest1) as [frac rest2].
    destruct frac as [|f frac]; [exact Plain |].
    destruct (Parse.matchUnit (snd (Parse.span Parse.isSpace rest2)))
      as [u0|] eqn:Eu; [| exact Plain].
    intros H. injection H as <- <-.
    split; [apply parseFloat_nonneg | exact (matchUnit_values _ _ Eu)].
  - intros H. apply Plain. revert H. clear - Hd.
    destruct d as [[] [] [] [] [] [] [] []]; try (intros H; exact H).
    contradiction Hd. reflexivity.
Qed.

Lemma matchQuantity_values s : forall q u,
  Parse.matchQuantity s = Some (q, u) ->
  (0 <= q)%Q /\ In (Parse.canonicalUnit u) Inv.reportedUnits.
Proof.
  induction s as [|c s IH]; intros q u H; cbn [Parse.matchQuantity] in H.
  - destruct (Parse.matchQuantityHere "") as [[q0 u0]|] eqn:E; [| discriminate H].
    injection H as <- <-. exact (matchQuantityHere_values _ _ _ E).
  - destruct (Parse.matchQuantityHere (String c s)) as [[q0 u0]|] eqn:E.
    + injection H as <- <-. exact (matchQuantityHere_values _ _ _ E).
    + exact (IH q u H).
Qed.

(** X16: the fallback classifier reports a quantity and a unit together
    or neither; a reported quantity is not negative and a reported unit is
    one of twenty fixed words.  The words 'minutes', 'minute', 'mins',
    'min' and the abbreviations the code rewrites are not among them: in
    the pattern the alternative 'mi' precedes them, so they never match. *)
Theorem fallback_quantity_and_unit (text : string) :
  let r := Parse.enhancedFallbackParse text in
  (Parse.p_quantity r = None /\ Parse.p_unit r = None)
  \/ (exists q u,
        Parse.p_quantity r = Some q /\ Parse.p_unit r = Some u
        /\ (0 <= q)%Q /\ In u Inv.reportedUnits
        /\ u <> "minutes" /\ u <> "minute" /\ u <> "mins" /\ u <> "min"
        /\ u <> "mi" /\ u <> "hr" /\ u <> "hrs").
Proof.
  cbv zeta. unfold Parse.enhancedFallbackParse.
  destruct (find _ Parse.behaviorPatterns) as [rule|];
    destruct (Parse.matchQuantity _) as [[q u]|] eqn:E;
    cbn [Parse.p_quantity Parse.p_unit];
    try (left; split; reflexivity);
    right; exists q, (Parse.canonicalUnit u);
    destruct (matchQuantity_values _ _ _ E) as [Hq Hu];
    (split; [reflexivity |]); (split; [reflexivity |]);
    (split; [exact Hq |]); (split; [exact Hu |]);
    unfold Inv.reportedUnits in Hu; cbn [In] in Hu;
    repeat split; intros Eu; rewrite Eu in Hu;
    repeat (destruct Hu as [Hu | Hu]; [discriminate Hu |]); exact Hu.
Qed.

Lemma toLowerCase_app a b :
  Js.toLowerCase (a ++ b) = (Js.toLowerCase a ++ Js.toLowerCase b)%string.
Proof.
  induction a as [|c a IH]; [reflexivity |].
  cbn [String.append Js.toLowerCase]. now rewrite IH.
Qed.

Lemma lowerAscii_digit c : Parse.isDigit c = true -> Js.lowerAscii c = c.
Proof.
  unfold Parse.isDigit, Js.lowerAscii. cbv zeta. intros H.
  apply andb_prop in H as [H1 H2]. apply Nat.leb_le in H1, H2.
  destruct (Nat.leb_spec 65 (nat_of_ascii c)); [lia | reflexivity].
Qed.

Lemma toLowerCase_digits s : Inv.allDigits s = true -> Js.toLowerCase s = s.
Proof.
  induction s as [|c s IH]; [reflexivity |].
  cbn [Inv.allDigits Js.toLowerCase]. intros H. apply andb_prop in H as [Hc Hs].
  now rewrite (lowerAscii_digit c Hc), (IH Hs).
Qed.

Lemma span_digits_then_space ds rest :
  Inv.allDigits ds = true ->
  Parse.span Parse.isDigit (ds ++ String " " rest) = (ds, String " " rest).
Proof.
  induction ds as [|c ds IH]; intros H.
  - reflexivity.
  - cbn [Inv.allDigits] in H. apply andb_prop in H as [Hc Hs].
    cbn [String.append Parse.span]. now rewrite Hc, (IH Hs).
Qed.

Lemma matchUnit_mi s : Parse.matchUnit (String "m" (String "i" s)) = Some "mi".
Proof. destruct s; reflexivity. Qed.

(** X17: a quantity written in minutes is reported in miles.  Whatever
    follows, a text that begins with a whole number, a blank and the word
    'minutes' gets 'miles' as its unit and that number as its quantity,
    for a number of at most 2^53 (up to there [parseFloat] reads every
    whole number exactly). *)
Theorem minutes_are_reported_as_miles (digits rest : string) :
  digits <> "" -> Inv.allDigits digits = true ->
  Parse.digitsValue 0 digits <= 2 ^ 53 ->
  let r := Parse.enhancedFallbackParse (digits ++ " minutes" ++ rest) in
  Parse.p_unit r = Some "miles"
  /\ Parse.p_quantity r = Some (Parse.parseFloat digits "").
Proof.
  intros Hne Hd _. cbv zeta.
  assert (Q : Parse.matchQuantity
                (Js.toLowerCase (digits ++ " minutes" ++ rest))
              = Some (Parse.parseFloat digits "", "mi")).
  { rewrite toLowerCase_app, (toLowerCase_digits digits Hd), toLowerCase_app.
    change (Js.toLowerCase " minutes") with " minutes".
    set (tail := Js.toLowerCase rest).
    change (" minutes" ++ tail)%string
      with (String " " (String "m" (String "i" ("nutes" ++ tail)))).
    assert (Here : Parse.matchQuantityHere
                     (digits ++ String " " (String "m" (String "i" ("nutes" ++ tail))))
                   = Some (Parse.parseFloat digits "", "mi")).
    { unfold Parse.matchQuantityHere.
      rewrite (span_digits_then_space digits _ Hd).
      destruct digits as [|c ds]; [contradiction |].
      change (snd (Parse.span Parse.isSpace
                     (String " " (String "m" (String "i" ("nutes" ++ tail))))))
        with (String "m" (String "i" ("nutes" ++ tail))).
      rewrite matchUnit_mi. reflexivity. }
    destruct digits as [|c ds]; [contradiction |].
    cbn [String.append Parse.matchQuantity] in Here |- *.
    now rewrite Here. }
  unfold Parse.enhancedFallbackParse. rewrite Q.
  destruct (find _ Parse.behaviorPatterns);
    cbn [Parse.p_unit Parse.p_quantity]; split; reflexivity.
Qed.

Lemma minutes_are_reported_as_miles_witness :
  Parse.p_unit (Parse.enhancedFallbackParse "30 minutes of yoga") = Some "miles".
Proof.
  exact (proj1 (minutes_are_reported_as_miles "30" " of yoga"
                  ltac:(discriminate) eq_refl ltac:(vm_compute; discriminate))).
Defined.

(** ** The fallback classifier: the defaults of the return *)

Lemma truthy_nonempty s : s <> "" -> Js.truthy (Some s) = true.
Proof.
  intros H. unfold Js.truthy. destruct (String.eqb_spec s ""); [contradiction |].
  reflexivity.
Qed.

Lemma orNull_nonempty s : s <> "" -> Parse.orNull (Some s) = Some s.
Proof. intros H. unfold Parse.orNull. now rewrite truthy_nonempty. Qed.

Lemma inferMood_nonempty text : Parse.inferMoodFromText text <> "".
Proof.
  unfold Parse.inferMoodFromText. cbv zeta.
  destruct (find _ Parse.moodPatterns) as [mp|] eqn:E; [| discriminate].
  apply find_some in E as [Hin _].
  assert (H : forallb (fun mp => negb (String.eqb (hd "" (fst mp)) ""))
                Parse.moodPatterns = true) by (vm_compute; reflexivity).
  rewrite forallb_forall in H. specialize (H mp Hin).
  apply negb_true_iff in H. intros E. rewrite E in H. discriminate H.
Qed.

Lemma trigger_nonempty lowerText tp :
  find (fun tp => Js.someIncluded lowerText (fst tp)) Parse.triggerPatterns
  = Some tp -> snd tp <> "".
Proof.
  intros E. apply find_some in E as [Hin _].
  assert (H : forallb (fun tp : list string * string =>
                         negb (String.eqb (snd tp) ""))
                Parse.triggerPatterns = true) by (vm_compute; reflexivity).
  rewrite forallb_forall in H. specialize (H tp Hin).
  apply negb_true_iff in H. intros E. rewrite E in H. discriminate H.
Qed.

Lemma reportedUnits_nonempty u : In u Inv.reportedUnits -> u <> "".
Proof.
  unfold Inv.reportedUnits. cbn [In]. intros H E. rewrite E in H.
  repeat (destruct H as [H | H]; [discriminate H |]). exact H.
Qed.

(** After the fallback the defaults of the [return] never fire: they
    only add the property [context], which the fallback record lacks. *)
Lemma fallback_defaults_idle text :
  Parse.parseHabitText Parse.ResponseNotJson text
  = Inv.withNullContext (Parse.enhancedFallbackParse text).
Proof.
  unfold Parse.parseHabitText.
  assert (F : exists a c q u m s n tg ty tr,
             Parse.enhancedFallbackParse text
             = Parse.mkParsed a (Some c) q u (Some m) s n tg (Some ty) tr None
             /\ a <> "" /\ c <> "" /\ m <> "" /\ s <> "" /\ ty <> ""
             /\ (forall x, u = Some x -> x <> "")
             /\ (forall x, n = Some x -> x <> "")
             /\ (forall x, tr = Some x -> x <> "")).
  { unfold Parse.enhancedFallbackParse.
    set (lowerText := Js.toLowerCase text).
    assert (R : exists a ty c mh s,
               match find (Parse.ruleMatches lowerText) Parse.behaviorPatterns with
               | Some pattern =>
                   (Parse.rule_activity pattern, Parse.rule_type pattern,
                    Parse.rule_category pattern, Parse.moodHint pattern,
                    Parse.rule_sentiment pattern)
               | None =>
                   ("unspecified activity", "neutral activity", "habits", None,
                    "neutral")
               end = (a, ty, c, mh, s)
               /\ a <> "" /\ ty <> "" /\ c <> "" /\ s <> "").
    { destruct (find _ Parse.behaviorPatterns) as [rule|] eqn:E.
      - pose proof (rules_well_formed rule (proj1 (find_some _ _ E))) as W.
        unfold Parse.wellFormedRule in W.
        apply andb_prop in W as [W Hs]. apply andb_prop in W as [W Hc].
        apply andb_prop in W as [Ha Ht]. apply negb_true_iff in Ha, Ht, Hc.
        do 5 eexists. split; [reflexivity |].
        repeat split; intros E0; rewrite E0 in *; discriminate.
      - do 5 eexists. split; [reflexivity |]. repeat split; discriminate. }
    destruct R as (a & ty & c & mh & s & -> & Ha & Hty & Hc & Hs).
    assert (Hm : exists m,
               Parse.orNull (if Js.truthy mh then mh
                             else Some (Parse.inferMoodFromText text)) = Some m
               /\ m <> "").
    { destruct mh as [h|]; cbn [Js.truthy].
      - destruct (String.eqb_spec h "") as [-> | Hh]; cbn [negb].
        + exists (Parse.inferMoodFromText text).
          split; [apply orNull_nonempty |]; apply inferMood_nonempty.
        + exists h. split; [now apply orNull_nonempty | exact Hh].
      - exists (Parse.inferMoodFromText text).
        split; [apply orNull_nonempty |]; apply inferMood_nonempty. }
    destruct Hm as (m & -> & Hm).
    assert (Hs' : (if String.eqb s "neutral"
                   then Parse.inferSentimentFromText text else s) <> "").
    { destruct (String.eqb s "neutral"); [| exact Hs].
      destruct (inferSentiment_values text) as [-> | [-> | ->]]; discriminate. }
    destruct (find (fun tp => Js.someIncluded lowerText (fst tp))
                Parse.triggerPatterns) as [tp|] eqn:Et;
      destruct (Parse.matchQuantity lowerText) as [[q u]|] eqn:Eq;
      cbn [option_map]; do 10 eexists; (split; [reflexivity |]);
      repeat (split; [assumption |]);
      repeat split; intros x Hx; try discriminate Hx;
      injection Hx as <-;
      first [ exact (reportedUnits_nonempty _
                       (proj2 (matchQuantity_values _ _ _ Eq)))
            | exact (trigger_nonempty _ _ Et)
            | discriminate ]. }
  destruct F as (a & c & q & u & m & s & n & tg & ty & tr & -> & Ha & Hc & Hm
                 & Hs & Hty & Hu & Hn & Htr).
  unfold Inv.withNullContext.
  cbn [Parse.p_activity Parse.p_category Parse.p_quantity Parse.p_unit
       Parse.p_mood Parse.p_sentiment Parse.p_notes Parse.p_tags Parse.p_type
       Parse.p_trigger Parse.p_context].
  rewrite !orElse_truthy by assumption.
  assert (N : forall o, (forall x, o = Some x -> x <> "") -> Parse.orNull o = o).
  { intros [x|] H; [| reflexivity]. apply orNull_nonempty, H. reflexivity. }
  rewrite (N u Hu), (N n Hn), (N tr Htr). reflexivity.
Qed.

(** X18: the two paths that end in the fallback classifier agree in
    every field of the record.  When the oracle's answer holds no JSON,
    the defaults that the return applies to the fallback record change
    none of its ten fields; they add an eleventh, [context: null], which
    the record returned when the oracle call throws does not have. *)
Theorem fallback_paths_agree (text : string) :
  let thrown := Parse.parseHabitText Parse.OracleThrew text in
  let notJson := Parse.parseHabitText Parse.ResponseNotJson text in
  Parse.p_activity notJson = Parse.p_activity thrown
  /\ Parse.p_category notJson = Parse.p_category thrown
  /\ Parse.p_quantity notJson = Parse.p_quantity thrown
  /\ Parse.p_unit notJson = Parse.p_unit thrown
  /\ Parse.p_mood notJson = Parse.p_mood thrown
  /\ Parse.p_sentiment notJson = Parse.p_sentiment thrown
  /\ Parse.p_notes notJson = Parse.p_notes thrown
  /\ Parse.p_tags notJson = Parse.p_tags thrown
  /\ Parse.p_type notJson = Parse.p_type thrown
  /\ Parse.p_trigger notJson = Parse.p_trigger thrown
  /\ Parse.p_context notJson = Some None
  /\ Parse.p_context thrown = None.
Proof.
  cbv zeta. rewrite fallback_defaults_idle.
  change (Parse.parseHabitText Parse.OracleThrew text)
    with (Parse.enhancedFallbackParse text).
  unfold Inv.withNullContext.
  cbn [Parse.p_activity Parse.p_category Parse.p_quantity Parse.p_unit
       Parse.p_mood Parse.p_sentiment Parse.p_notes Parse.p_tags Parse.p_type
       Parse.p_trigger Parse.p_context].
  repeat (split; [reflexivity |]).
  unfold Parse.enhancedFallbackParse.
  destruct (find _ Parse.behaviorPatterns);
    destruct (Parse.matchQuantity _) as [[q u]|]; reflexivity.
Qed.

(** ** The fallback classifier: tags and letter case *)

Lemma chosen_cons (c : bool) (t : string) (l : list (bool * string)) :
  map snd (filter fst ((c, t) :: l))
  = ((if c then [t] else []) ++ map snd (filter fst l))%list.
Proof. cbn [filter fst]. destruct c; reflexivity. Qed.

Lemma chosen_sublist (l : list (bool * string)) :
  NoDup (map snd l) ->
  NoDup (map snd (filter fst l))
  /\ incl (map snd (filter fst l)) (map snd l)
  /\ (List.length (map snd (filter fst l)) <= List.length l)%nat.
Proof.
  intros H. split; [now apply filter_keeps_distinct_keys |]. split.
  - intros x Hx. apply in_map_iff in Hx as (y & <- & Hy).
    apply filter_In in Hy as [Hy _]. now apply in_map.
  - rewrite length_map. apply filter_length_le.
Qed.

(** X19: the tags of a text are pairwise different, each is one of the
    seventeen fixed tags, and they come in the fixed order of the tests,
    so there are at most seventeen. *)
Theorem extracted_tags_distinct_and_known (text : string) :
  NoDup (Parse.extractTags text)
  /\ incl (Parse.extractTags text) Inv.allTags
  /\ (List.length (Parse.extractTags text) <= 17)%nat
  /\ exists keep : string -> bool,
       Parse.extractTags text = filter keep Inv.allTags.
Proof.
  unfold Parse.extractTags. cbv zeta.
  set (has := Js.includes (Js.toLowerCase text)).
  set (conds :=
         [ (has "morning", "morning"); (has "afternoon", "afternoon");
           (has "evening" || has "night", "evening"); (has "today", "today");
           (has "yesterday", "yesterday"); (has "weekend", "weekend");
           (has "home", "home"); (has "school", "school"); (has "work", "work");
           (has "gym", "gym"); (has "outdoor" || has "outside", "outdoor");
           (has "alone" || has "by myself", "alone");
           (has "family" || has "mom" || has "dad", "family");
           (has "friend", "friends"); (has "group", "group");
           (has "recurring" || has "again" || has "still", "recurring");
           (has "first time" || has "finally", "milestone") ]).
  assert (E : ((if has "morning" then ["morning"] else [])
               ++ (if has "afternoon" then ["afternoon"] else [])
               ++ (if has "evening" || has "night" then ["evening"] else [])
               ++ (if has "today" then ["today"] else [])
               ++ (if has "yesterday" then ["yesterday"] else [])
               ++ (if has "weekend" then ["weekend"] else [])
               ++ (if has "home" then ["home"] else [])
               ++ (if has "school" then ["school"] else [])
               ++ (if has "work" then ["work"] else [])
               ++ (if has "gym" then ["gym"] else [])
               ++ (if has "outdoor" || has "outside" then ["outdoor"] else [])
               ++ (if has "alone" || has "by myself" then ["alone"] else [])
               ++ (if has "family" || has "mom" || has "dad"
                   then ["family"] else [])
               ++ (if has "friend" then ["friends"] else [])
               ++ (if has "group" then ["group"] else [])
               ++ (if has "recurring" || has "again" || has "still"
                   then ["recurring"] else [])
               ++ (if has "first time" || has "finally"
                   then ["milestone"] else []))%list
              = map snd (filter fst conds)).
  { unfold conds. rewrite !chosen_cons. cbn [filter map].
    now rewrite app_nil_r. }
  rewrite E.
  assert (Hsnd : map snd conds = Inv.allTags) by reflexivity.
  assert (Hnd : NoDup (map snd conds)).
  { rewrite Hsnd. unfold Inv.allTags.
    repeat (constructor;
            [cbn [In]; intros H;
             repeat (destruct H as [H | H]; [discriminate H |]); exact H |]).
    constructor. }
  destruct (chosen_sublist conds Hnd) as (H1 & H2 & H3).
  rewrite Hsnd in H2. split; [exact H1 |]. split; [exact H2 |].
  split; [exact H3 |].
  exists (fun t => existsb (fun ct => fst ct && String.eqb (snd ct) t) conds).
  rewrite <- Hsnd. clear E H1 H2 H3 Hsnd. revert Hnd.
  generalize conds. clear. intros l.
  induction l as [|[c t] l IH]; intros Hnd; [reflexivity |].
  cbn [map snd] in Hnd. inversion Hnd as [|? ? Hnotin Hnd']; subst.
  cbn [filter map fst snd existsb]. rewrite String.eqb_refl, andb_true_r.
  assert (Ext : filter
                  (fun t0 => c && String.eqb t t0
                             || existsb (fun ct => fst ct && String.eqb (snd ct) t0) l)
                  (map snd l)
                = filter
                    (fun t0 => existsb (fun ct => fst ct && String.eqb (snd ct) t0) l)
                    (map snd l)).
  { apply filter_ext_in. intros t0 Ht0.
    destruct (String.eqb_spec t t0) as [<- | _]; [contradiction |].
    now rewrite andb_false_r. }
  destruct c; cbn [orb map snd]; rewrite ?Ext, <- IH by exact Hnd'.
  - reflexivity.
  - cbn [orb]. destruct (existsb _ l) eqn:Ex; [| reflexivity].
    exfalso. apply existsb_exists in Ex as ([c' t'] & Hin & Hc).
    apply andb_prop in Hc as [_ Hc]. cbn [snd] in Hc.
    apply String.eqb_eq in Hc. subst t'. apply Hnotin.
    apply in_map_iff. exists (c', t). split; [reflexivity | exact Hin].
Qed.

(** X20: the fallback classifier does not look at letter case: two texts
    that differ only in the case of their ASCII letters get the same
    record, on either path that ends in the fallback. *)
Theorem fallback_ignores_letter_case (failure : Parse.OracleFailure)
    (text1 text2 : string) :
  Js.toLowerCase text1 = Js.toLowerCase text2 ->
  Parse.parseHabitText failure text1 = Parse.parseHabitText failure text2.
Proof.
  intros H.
  assert (E : Parse.enhancedFallbackParse text1
              = Parse.enhancedFallbackParse text2).
  { unfold Parse.enhancedFallbackParse, Parse.inferMoodFromText,
      Parse.inferSentimentFromText, Parse.extractTags.
    cbv zeta. rewrite H. reflexivity. }
  destruct failure.
  - exact E.
  - now rewrite !fallback_defaults_idle, E.
Qed.

Lemma fallback_ignores_letter_case_witness :
  Parse.parseHabitText Parse.OracleThrew "Ran 5 KM"
  = Parse.parseHabitText Parse.OracleThrew "ran 5 km".
Proof.
  exact (fallback_ignores_letter_case Parse.OracleThrew "Ran 5 KM" "ran 5 km"
           eq_refl).
Defined.

(** ** Habit stacks: what a suggestion tells *)

Lemma result_from_candidates thirtyDaysAgo stored s :
  In s (Stacks.generateStackingSuggestions thirtyDaysAgo stored) ->
  In s (Stacks.candidates (Stacks.recentPositive thirtyDaysAgo stored)).
Proof.
  unfold Stacks.generateStackingSuggestions. cbv zeta.
  destruct (_ <? 3); [intros [] |].
  intros H. apply In_firstn_In, dropSeen_In in H as [H _].
  now apply In_sortBy in H.
Qed.

Lemma count_ext {A} (p q : A -> bool) l :
  (forall x, p x = q x) -> Js.count p l = Js.count q l.
Proof.
  intros H. induction l as [|x l IH]; [reflexivity |].
  now rewrite !count_cons, IH, H.
Qed.

Lemma coOccurrenceCount_sym entries a b :
  Spec.coOccurrenceCount entries a b = Spec.coOccurrenceCount entries b a.
Proof.
  unfold Spec.coOccurrenceCount. apply count_ext. intros d. apply andb_comm.
Qed.

Lemma count_pos_exists {A} (p : A -> bool) l :
  0 < Js.count p l -> exists x, In x l /\ p x = true.
Proof.
  induction l as [|x l IH]; [rewrite count_nil; lia |].
  rewrite count_cons. destruct (p x) eqn:E.
  - intros _. exists x. split; [now left | exact E].
  - intros H. destruct (IH ltac:(lia)) as (y & Hy & Py).
    exists y. split; [now right | exact Py].
Qed.

Lemma loggedOn_nonempty entries a d :
  Spec.loggedOn entries a d = true -> a <> "".
Proof.
  unfold Spec.loggedOn, Js.truthy. intros H. apply andb_prop in H as [H _].
  intros ->. discriminate H.
Qed.

(** What the thresholds say about a pushed candidate. *)
Lemma candidate_facts entries s :
  In s (Stacks.candidates entries) ->
  let a := Stacks.triggerHabit s in
  let b := Stacks.linkedHabit s in
  let co := Spec.coOccurrenceCount entries a b in
  let m := Z.min (Spec.totalDayCount entries a) (Spec.totalDayCount entries b) in
  a <> b /\ 2 <= co /\ co <= m /\ m <= 2 * co
  /\ Stacks.strength s = (200 * co + m) / (2 * m).
Proof.
  intros Hin. cbv zeta.
  destruct (proj1 (candidate_iff entries (Stacks.triggerHabit s)
                     (Stacks.linkedHabit s)))
    as (Hne & Hco & Hhalf); [exists s; auto |].
  destruct (spec_counts_le entries (Stacks.triggerHabit s)
              (Stacks.linkedHabit s)) as [La Lb].
  assert (Hm : 0 < Z.min (Spec.totalDayCount entries (Stacks.triggerHabit s))
                     (Spec.totalDayCount entries (Stacks.linkedHabit s))) by lia.
  apply (half_le_div _ _ Hm) in Hhalf.
  destruct (candidate_strength entries s Hin) as [Hs _].
  rewrite Math_round_div in Hs by exact Hm.
  repeat split; try assumption; lia.
Qed.

(** X21: over recent positive entries whose activities are own keys of
    the counter objects (no activity names a member of
    [Object.prototype]), every returned suggestion links two different,
    named activities that were logged together on at least two days, and
    its strength is a percentage between 50 and 100; its tip is the
    sentence built from the two names. *)
Theorem suggestion_strength_in_range (thirtyDaysAgo : Z)
    (stored : list HabitEntry) (s : Stacks.Suggestion) :
  Inv.plainActivities (Stacks.recentPositive thirtyDaysAgo stored) = true ->
  In s (Stacks.generateStackingSuggestions thirtyDaysAgo stored) ->
  let entries := Stacks.recentPositive thirtyDaysAgo stored in
  50 <= Stacks.strength s <= 100
  /\ Stacks.triggerHabit s <> Stacks.linkedHabit s
  /\ Stacks.triggerHabit s <> "" /\ Stacks.linkedHabit s <> ""
  /\ 2 <= Spec.coOccurrenceCount entries (Stacks.triggerHabit s)
            (Stacks.linkedHabit s)
  /\ Stacks.tip s = Stacks.tipFor (Stacks.triggerHabit s) (Stacks.linkedHabit s).
Proof.
  intros _ H. cbv zeta. apply result_from_candidates in H.
  destruct (candidate_facts _ s H) as (Hne & Hco & Hle & Hhalf & Hs).
  destruct (candidate_strength _ s H) as [_ Htip].
  set (entries := Stacks.recentPositive thirtyDaysAgo stored) in *.
  set (co := Spec.coOccurrenceCount entries (Stacks.triggerHabit s)
               (Stacks.linkedHabit s)) in *.
  set (m := Z.min _ _) in *.
  split; [| split; [exact Hne | split; [| split; [| split; [exact Hco | exact Htip]]]]].
  - rewrite Hs. split.
    + apply Z.div_le_lower_bound; lia.
    + apply Z.lt_succ_r, Z.div_lt_upper_bound; lia.
  - assert (Hpos : 0 < co) by lia. unfold co, Spec.coOccurrenceCount in Hpos.
    apply count_pos_exists in Hpos as (d & _ & Hd).
    apply andb_prop in Hd as [Hd _]. exact (loggedOn_nonempty _ _ _ Hd).
  - assert (Hpos : 0 < co) by lia. unfold co, Spec.coOccurrenceCount in Hpos.
    apply count_pos_exists in Hpos as (d & _ & Hd).
    apply andb_prop in Hd as [_ Hd]. exact (loggedOn_nonempty _ _ _ Hd).
Qed.

(** X22: over entries whose activities are own keys of the counter
    objects (no activity names a member of [Object.prototype]),
    candidates come in mirrored pairs of equal strength: when a
    suggestion is pushed for (A, B), one is pushed for (B, A) with the
    same strength and the same pair key. *)
Theorem candidates_are_mirrored (entries : list HabitEntry)
    (s : Stacks.Suggestion) :
  Inv.plainActivities entries = true ->
  In s (Stacks.candidates entries) ->
  exists t, In t (Stacks.candidates entries)
    /\ Stacks.triggerHabit t = Stacks.linkedHabit s
    /\ Stacks.linkedHabit t = Stacks.triggerHabit s
    /\ Stacks.strength t = Stacks.strength s
    /\ Stacks.pairKey t = Stacks.pairKey s.
Proof.
  intros _ H.
  destruct (proj1 (candidate_iff entries (Stacks.triggerHabit s)
                     (Stacks.linkedHabit s)))
    as (Hne & Hco & Hhalf); [exists s; auto |].
  destruct (proj2 (candidate_iff entries (Stacks.linkedHabit s)
                     (Stacks.triggerHabit s))) as (t & Ht & Ha & Hb).
  { split; [congruence |]. rewrite coOccurrenceCount_sym, Z.min_comm.
    split; assumption. }
  exists t. split; [exact Ht |]. split; [exact Ha |]. split; [exact Hb |].
  split.
  - destruct (candidate_strength entries s H) as [-> _].
    destruct (candidate_strength entries t Ht) as [-> _].
    rewrite Ha, Hb, coOccurrenceCount_sym, Z.min_comm. reflexivity.
  - unfold Stacks.pairKey. rewrite Ha, Hb.
    unfold String.ltb.
    rewrite (String.compare_antisym (Stacks.linkedHabit s)
               (Stacks.triggerHabit s)).
    destruct (String.compare (Stacks.triggerHabit s) (Stacks.linkedHabit s))
      eqn:E; cbn [CompOpp]; try reflexivity.
    apply String.compare_eq_iff in E. contradiction.
Qed.

Lemma suggestion_strength_in_range_witness :
  50 <= Stacks.strength Examples.runThenStretch <= 100.
Proof.
  destruct (suggestion_strength_in_range (Sample.noon 71) Sample.runAndStretch
              Examples.runThenStretch eq_refl) as [H _].
  - vm_compute. left. reflexivity.
  - exact H.
Defined.

Lemma candidates_are_mirrored_witness :
  exists t,
    In t (Stacks.candidates
            (Stacks.recentPositive (Sample.noon 71) Sample.runAndStretch))
    /\ Stacks.triggerHabit t = "stretch" /\ Stacks.linkedHabit t = "run".
Proof.
  destruct (candidates_are_mirrored
              (Stacks.recentPositive (Sample.noon 71) Sample.runAndStretch)
              Examples.runThenStretch eq_refl) as (t & Ht & Ha & Hb & _).
  - vm_compute. left. reflexivity.
  - exists t. split; [exact Ht |]. split; [exact Ha | exact Hb].
Defined.

Lemma count_two {A} (p : A -> bool) (l : list A) :
  NoDup l -> 2 <= Js.count p l ->
  exists x y, x <> y /\ In x l /\ In y l /\ p x = true /\ p y = true.
Proof.
  induction l as [|x l IH]; intros Hnd H; [rewrite count_nil in H; lia |].
  inversion Hnd as [|? ? Hx Hl]; subst. rewrite count_cons in H.
  destruct (p x) eqn:E.
  - destruct (count_pos_exists p l ltac:(lia)) as (y & Hy & Py).
    exists x, y. repeat split; try assumption; [| now left | now right].
    intros ->. contradiction.
  - destruct (IH Hl ltac:(lia)) as (a & b & Hab & Ha & Hb & Pa & Pb).
    exists a, b. repeat split; try assumption; now right.
Qed.

Lemma loggedOn_entry entries a d :
  Spec.loggedOn entries a d = true ->
  exists e, In e entries /\ Time.utcDay (date e) = d /\ activity e = a.
Proof.
  unfold Spec.loggedOn. intros H. apply andb_prop in H as [_ H].
  apply existsb_exists in H as (e & He & Hc). apply andb_prop in Hc as [Hd Ha].
  exists e. split; [exact He |]. split; [now apply Z.eqb_eq |].
  now apply String.eqb_eq.
Qed.

Lemma candidates_need_four_entries entries :
  Stacks.candidates entries <> [] -> (4 <= List.length entries)%nat.
Proof.
  intros Hne.
  destruct (Stacks.candidates entries) as [|s rest] eqn:E; [contradiction |].
  assert (Hs : In s (Stacks.candidates entries)) by (rewrite E; now left).
  destruct (candidate_facts entries s Hs) as (Hab & Hco & _).
  unfold Spec.coOccurrenceCount in Hco.
  apply count_two in Hco as (d1 & d2 & Hd & _ & _ & H1 & H2);
    [| apply (NoDup_distinct Z.eqb Z.eqb_spec)].
  apply andb_prop in H1 as [H1a H1b]. apply andb_prop in H2 as [H2a H2b].
  apply loggedOn_entry in H1a as (e1 & I1 & D1 & A1).
  apply loggedOn_entry in H1b as (e2 & I2 & D2 & A2).
  apply loggedOn_entry in H2a as (e3 & I3 & D3 & A3).
  apply loggedOn_entry in H2b as (e4 & I4 & D4 & A4).
  change 4%nat with (List.length [e1; e2; e3; e4]).
  apply NoDup_incl_length.
  - repeat constructor; cbn [In]; intros H;
      repeat (destruct H as [H | H]; [subst; congruence |]); exact H.
  - intros e He. cbn [In] in He.
    repeat (destruct He as [<- | He]; [assumption |]). destruct He.
Qed.

(** X23: a suggestion needs at least four entries: two different
    activities, each logged on the same two days.  Over recent positive
    entries whose activities are own keys of the counter objects (no
    activity names a member of [Object.prototype]), no candidate is
    pushed from fewer than four entries, so the returned list is empty
    with three such entries as it is with fewer, and the guard on fewer
    than three entries never decides the result by itself. *)
Theorem suggestions_need_four_entries (thirtyDaysAgo : Z)
    (stored : list HabitEntry) :
  Inv.plainActivities (Stacks.recentPositive thirtyDaysAgo stored) = true ->
  let entries := Stacks.recentPositive thirtyDaysAgo stored in
  (Stacks.candidates entries <> [] -> (4 <= List.length entries)%nat)
  /\ (Stacks.generateStackingSuggestions thirtyDaysAgo stored <> [] ->
      (4 <= List.length entries)%nat)
  /\ ((List.length entries < 4)%nat ->
      Stacks.generateStackingSuggestions thirtyDaysAgo stored = []).
Proof.
  intros _. cbv zeta.
  assert (R : Stacks.generateStackingSuggestions thirtyDaysAgo stored <> [] ->
              (4 <= List.length
                      (Stacks.recentPositive thirtyDaysAgo stored))%nat).
  { intros Hne. apply candidates_need_four_entries.
    destruct (Stacks.generateStackingSuggestions thirtyDaysAgo stored)
      as [|s rest] eqn:E; [contradiction |].
    assert (Hs : In s (Stacks.generateStackingSuggestions thirtyDaysAgo stored))
      by (rewrite E; now left).
    apply result_from_candidates in Hs. intros Hc. rewrite Hc in Hs.
    destruct Hs. }
  split; [apply candidates_need_four_entries |]. split; [exact R |].
  intros Hlt.
  destruct (Stacks.generateStackingSuggestions thirtyDaysAgo stored)
    as [|s rest] eqn:E; [reflexivity |].
  exfalso. assert (Hge := R ltac:(discriminate)). lia.
Qed.

Lemma suggestions_need_four_entries_witness :
  (4 <= List.length
          (Stacks.recentPositive (Sample.noon 71) Sample.runAndStretch))%nat.
Proof.
  apply (proj1 (proj2 (suggestions_need_four_entries (Sample.noon 71)
                         Sample.runAndStretch eq_refl))).
  vm_compute. discriminate.
Defined.

(** ** Habit stacks: names that are own keys and hold no hyphen *)

Lemma candidate_names entries s :
  In s (Stacks.candidates entries) ->
  (exists e, In e entries /\ activity e = Stacks.triggerHabit s)
  /\ (exists e, In e entries /\ activity e = Stacks.linkedHabit s).
Proof.
  intros H. destruct (candidate_facts entries s H) as (_ & Hco & _).
  assert (Hpos : 0 < Spec.coOccurrenceCount entries (Stacks.triggerHabit s)
                       (Stacks.linkedHabit s)) by lia.
  unfold Spec.coOccurrenceCount in Hpos.
  apply count_pos_exists in Hpos as (d & _ & Hd).
  apply andb_prop in Hd as [Ha Hb].
  apply loggedOn_entry in Ha as (e1 & I1 & _ & A1).
  apply loggedOn_entry in Hb as (e2 & I2 & _ & A2).
  split; [exists e1 | exists e2]; now split.
Qed.

(** Where no activity names a member of [Object.prototype] or holds a
    hyphen, the miner does what the specification says.  Over the
    positive-type entries from [thirtyDaysAgo] on, a suggestion is pushed
    for the pair (A, B) of different activities if and only if their
    co-occurrence count is at least 2 and strength = coOccurrenceCount /
    min(totalDayCount[A], totalDayCount[B]) is at least 0.5 (the pair is
    then pushed in both directions); the returned list holds pushed
    suggestions only, each with a strength within one of that quotient as
    a percentage, is at most 5 long, is sorted by descending strength,
    holds no unordered pair twice, and is a top of the pushed ones: a
    pushed suggestion is represented in it by one of the same unordered
    pair that is at least as strong, or else the list is full with 5
    suggestions that are all at least as strong.  With fewer than 3 such
    entries the list is empty. *)
Lemma stacking_suggestions_of_plain_names (thirtyDaysAgo : Z)
    (stored : list HabitEntry) :
  let entries := Stacks.recentPositive thirtyDaysAgo stored in
  let result := Stacks.generateStackingSuggestions thirtyDaysAgo stored in
  let co := Spec.coOccurrenceCount entries in
  let m a b := Z.min (Spec.totalDayCount entries a)
                 (Spec.totalDayCount entries b) in
  let samePair s t :=
    (Stacks.triggerHabit s = Stacks.triggerHabit t
     /\ Stacks.linkedHabit s = Stacks.linkedHabit t)
    \/ (Stacks.triggerHabit s = Stacks.linkedHabit t
        /\ Stacks.linkedHabit s = Stacks.triggerHabit t) in
  Inv.plainActivities entries = true ->
  (forall e, In e entries -> Js.includes (activity e) "-" = false) ->
  (forall a b,
      (exists s, In s (Stacks.candidates entries)
                 /\ Stacks.triggerHabit s = a /\ Stacks.linkedHabit s = b)
      <-> a <> b /\ 2 <= co a b /\ (1 # 2 <= Js.div (co a b) (m a b))%Q)
  /\ (forall s, In s result ->
        In s (Stacks.candidates entries)
        /\ let c := co (Stacks.triggerHabit s) (Stacks.linkedHabit s) in
           let n := m (Stacks.triggerHabit s) (Stacks.linkedHabit s) in
           100 * c - n <= n * Stacks.strength s <= 100 * c + n)
  /\ (List.length result <= 5)%nat
  /\ StronglySorted (fun s t => Stacks.strength t <= Stacks.strength s) result
  /\ (forall s t, In s result -> In t result -> samePair s t -> s = t)
  /\ (3 <= Z.of_nat (List.length entries) ->
      forall c, In c (Stacks.candidates entries) ->
        (exists r, In r result /\ samePair r c
                   /\ Stacks.strength c <= Stacks.strength r)
        \/ (List.length result = 5%nat
            /\ forall r, In r result -> Stacks.strength c <= Stacks.strength r))
  /\ (Js.count (fun e => (thirtyDaysAgo <=? date e)
                         && Js.optIncludes (type e) "positive") stored < 3 ->
      result = []).
Proof.
  intros entries result co m samePair _ Hplain.
  split; [intros a b; apply candidate_iff |].
  assert (Hres : (Z.of_nat (List.length entries) < 3 /\ result = [])
                 \/ (3 <= Z.of_nat (List.length entries)
                     /\ result
                        = firstn 5
                            (Stacks.dropSeen []
                               (Js.sortBy
                                  (fun a b => Stacks.strength b
                                              <=? Stacks.strength a)
                                  (Stacks.candidates entries))))).
  { unfold result, Stacks.generateStackingSuggestions. fold entries.
    destruct (Z.ltb_spec (Z.of_nat (List.length entries)) 3);
      [left; now split | right; now split]. }
  assert (Hsub : forall s, In s result -> In s (Stacks.candidates entries)).
  { intros s Hs. destruct Hres as [[_ E] | [_ E]]; rewrite E in Hs; [destruct Hs |].
    apply In_firstn_In, dropSeen_In in Hs as [Hs _].
    now apply In_sortBy in Hs. }
  assert (Hnd : NoDup (map Stacks.pairKey result)).
  { destruct Hres as [[_ E] | [_ E]]; rewrite E; [constructor |].
    rewrite <- firstn_map. apply NoDup_firstn_keep, dropSeen_NoDup. }
  assert (Hfree : forall s, In s (Stacks.candidates entries) ->
                    Js.includes (Stacks.triggerHabit s) "-" = false
                    /\ Js.includes (Stacks.linkedHabit s) "-" = false).
  { intros s Hs. destruct (candidate_names entries s Hs)
      as [(e1 & I1 & <-) (e2 & I2 & <-)]. split; now apply Hplain. }
  split.
  { intros s Hs. split; [now apply Hsub |]. cbv zeta.
    destruct (candidate_facts entries s (Hsub s Hs)) as (_ & Hco & Hle & _ & E).
    fold co in Hco, Hle, E.
    set (c := co (Stacks.triggerHabit s) (Stacks.linkedHabit s)) in *.
    set (n := m (Stacks.triggerHabit s) (Stacks.linkedHabit s)).
    assert (En : Stacks.strength s = (200 * c + n) / (2 * n)) by exact E.
    assert (Hn : 0 < n) by (unfold n, m; fold entries; lia).
    pose proof (Z.div_mod (200 * c + n) (2 * n) ltac:(lia)) as D.
    pose proof (Z.mod_pos_bound (200 * c + n) (2 * n) ltac:(lia)) as B.
    rewrite <- En in D. lia. }
  split.
  { destruct Hres as [[_ E] | [_ E]]; rewrite E; [simpl; lia |].
    apply firstn_le_length. }
  split.
  { destruct Hres as [[_ E] | [_ E]]; rewrite E; [constructor |].
    apply (sorted_firstn Stacks.strength), dropSeen_sorted.
    apply (sortBy_desc Stacks.strength). }
  split.
  { intros s t Hs Ht Hpair. unfold samePair in Hpair.
    apply (NoDup_map_eq Stacks.pairKey result s t Hnd Hs Ht).
    destruct s as [a b s1 t1], t as [a' b' s2 t2].
    cbn [Stacks.triggerHabit Stacks.linkedHabit] in Hpair.
    destruct Hpair as [[-> ->] | [-> ->]]; [reflexivity | apply pairKey_sym]. }
  split.
  { intros H3 c Hc. destruct Hres as [[Hlt _] | [_ E]]; [lia |].
    set (sorted := Js.sortBy _ (Stacks.candidates entries)) in E.
    assert (Hsorted : StronglySorted
                        (fun s t => Stacks.strength t <= Stacks.strength s)
                        sorted) by apply (sortBy_desc Stacks.strength).
    destruct (dropSeen_represents sorted [] c Hsorted)
      as [[] | (r & Hr & Hk & Hle)]; [now apply In_sortBy |].
    destruct (firstn_top Stacks.strength 5 (Stacks.dropSeen [] sorted) r
                (dropSeen_sorted sorted [] Hsorted) Hr) as [Hin | [Hlen Hall]].
    - left. exists r. rewrite E. split; [exact Hin |]. split; [| exact Hle].
      assert (Hrc : In r (Stacks.candidates entries)).
      { apply dropSeen_In in Hr as [Hr _]. now apply In_sortBy in Hr. }
      destruct (Hfree r Hrc) as [R1 R2]. destruct (Hfree c Hc) as [C1 C2].
      exact (pairKey_same_pair r c R1 R2 C1 C2 Hk).
    - right. rewrite E. split; [exact Hlen |].
      intros r' Hr'. specialize (Hall r' Hr'). lia. }
  intros Hfew. unfold result, Stacks.generateStackingSuggestions.
  cbv zeta. rewrite recentPositive_length.
  destruct (Z.ltb_spec (Js.count (fun e => (thirtyDaysAgo <=? date e)
                                          && Js.optIncludes (type e) "positive")
                          stored) 3); [reflexivity | lia].
Qed.

(** ** Creating an entry: the requests that are turned down *)

(** X24: the failure answers of the create route.  A body that is not
    JSON is answered with status 500 and one console line, without a
    database call; a body whose raw text or activity is missing or empty
    is answered with status 400 and leaves the store, the call count and
    the console as they were; and when the create call itself throws the
    answer is status 500 with one console line.  In all three cases the
    stored entries and goals are unchanged. *)
Theorem create_rejections_leave_store (faults : nat -> bool) (z : Time.Zone)
    (now : Z) (w : Habits.World) :
  Habits.POST faults z now None w
  = (Habits.mkWorld (Habits.entries w) (Habits.goals w) (Habits.calls w)
       (Habits.console w ++ ["Error creating habit:"])%list,
     Habits.Returned (Habits.Failure 500 "Failed to create habit entry"))
  /\ (forall body,
        Js.truthy (Habits.b_rawText body) && Js.truthy (Habits.b_activity body)
        = false ->
        Habits.POST faults z now (Some body) w
        = (w, Habits.Returned
                (Habits.Failure 400 "rawText and activity are required")))
  /\ (forall body,
        Js.truthy (Habits.b_rawText body) && Js.truthy (Habits.b_activity body)
        = true ->
        faults (Habits.calls w) = true ->
        Habits.POST faults z now (Some body) w
        = (Habits.mkWorld (Habits.entries w) (Habits.goals w)
             (S (Habits.calls w))
             (Habits.console w ++ ["Error creating habit:"])%list,
           Habits.Returned (Habits.Failure 500 "Failed to create habit entry"))).
Proof.
  split; [reflexivity |]. split.
  - intros body H. unfold Habits.POST, Habits.tryCatch.
    destruct (Habits.b_rawText body) as [rawText|];
      destruct (Habits.b_activity body) as [activity|];
      try reflexivity.
    unfold Js.truthy in H at 1 2. unfold Js.truthy. rewrite H. reflexivity.
  - intros body H Hf. unfold Habits.POST, Habits.tryCatch.
    destruct (Habits.b_rawText body) as [rawText|];
      [| discriminate H].
    destruct (Habits.b_activity body) as [activity|];
      [| cbn [Js.truthy] in H; rewrite andb_false_r in H; discriminate H].
    rewrite H. unfold Habits.bind at 1.
    unfold Habits.entryCreate, Habits.dbCall at 1. rewrite Hf.
    reflexivity.
Qed.

(** ** Creating an entry: what no request changes *)

Lemma sameGoal_refl gs : Forall2 Inv.sameGoalButValue gs gs.
Proof.
  induction gs as [|g gs IH]; constructor; [| exact IH].
  unfold Inv.sameGoalButValue. tauto.
Qed.

Lemma sameGoal_trans gs1 : forall gs2 gs3,
  Forall2 Inv.sameGoalButValue gs1 gs2 -> Forall2 Inv.sameGoalButValue gs2 gs3 ->
  Forall2 Inv.sameGoalButValue gs1 gs3.
Proof.
  induction gs1 as [|g gs1 IH]; intros gs2 gs3 H12 H23;
    inversion H12; subst; inversion H23; subst; constructor.
  - unfold Inv.sameGoalButValue in *. intuition congruence.
  - eapply IH; eassumption.
Qed.

Lemma sameGoal_goalUpdate id value gs :
  Forall2 Inv.sameGoalButValue gs
    (map (fun g => if Nat.eqb (goal_id g) id
                   then mkGoal (goal_id g) (goal_activity g) (targetValue g)
                          value (period g) (isActive g)
                   else g) gs).
Proof.
  induction gs as [|g gs IH]; constructor; [| exact IH].
  destruct (Nat.eqb (goal_id g) id); unfold Inv.sameGoalButValue; cbn; tauto.
Qed.

Section KeepsEntries.
Variable faults : nat -> bool.

Lemma keeps_ret {A} (a : A) : Inv.keepsEntries (Habits.ret a).
Proof. intros w. split; [apply sameGoal_refl | reflexivity]. Qed.

Lemma keeps_bind {A B} (m : Habits.M A) (k : A -> Habits.M B) :
  Inv.keepsEntries m -> (forall a, Inv.keepsEntries (k a)) ->
  Inv.keepsEntries (Habits.bind m k).
Proof.
  intros Hm Hk w. unfold Habits.bind. destruct (Hm w) as [Hg He].
  destruct (m w) as [w1 [a | e]]; cbn [fst] in *; [| split; assumption].
  destruct (Hk a w1) as [Hg1 He1]. split; [| congruence].
  eapply sameGoal_trans; eassumption.
Qed.

Lemma keeps_tryCatch {A} (m : Habits.M A) (handler : string -> Habits.M A) :
  Inv.keepsEntries m -> (forall e, Inv.keepsEntries (handler e)) ->
  Inv.keepsEntries (Habits.tryCatch m handler).
Proof.
  intros Hm Hh w. unfold Habits.tryCatch. destruct (Hm w) as [Hg He].
  destruct (m w) as [w1 [a | e]]; cbn [fst] in *; [split; assumption |].
  destruct (Hh e w1) as [Hg1 He1]. split; [| congruence].
  eapply sameGoal_trans; eassumption.
Qed.

Lemma keeps_consoleError line : Inv.keepsEntries (Habits.consoleError line).
Proof. intros w. split; [apply sameGoal_refl | reflexivity]. Qed.

Lemma keeps_dbCall {A}
    (op : list HabitEntry -> list Goal -> list HabitEntry * list Goal * A) :
  (forall es gs, fst (fst (op es gs)) = es
                 /\ Forall2 Inv.sameGoalButValue gs (snd (fst (op es gs)))) ->
  Inv.keepsEntries (Habits.dbCall faults op).
Proof.
  intros Hop w. unfold Habits.dbCall.
  destruct (faults (Habits.calls w)); cbn [fst Habits.goals Habits.entries];
    [split; [apply sameGoal_refl | reflexivity] |].
  specialize (Hop (Habits.entries w) (Habits.goals w)).
  destruct (op (Habits.entries w) (Habits.goals w)) as [[es gs] a].
  cbn [fst snd Habits.goals Habits.entries] in *. tauto.
Qed.

Lemma keeps_updateGoal z now activity goal :
  Inv.keepsEntries (Habits.updateGoal faults z now activity goal).
Proof.
  unfold Habits.updateGoal.
  destruct (if String.eqb (period goal) "daily" then _ else _)
    as [[startDate endDate]|]; [| apply keeps_ret].
  apply keeps_bind.
  - apply keeps_dbCall. intros es gs. split; [reflexivity | apply sameGoal_refl].
  - intros found. apply keeps_dbCall. intros es gs.
    split; [reflexivity | apply sameGoal_goalUpdate].
Qed.

Lemma keeps_forEachGoal f gs :
  (forall g, Inv.keepsEntries (f g)) ->
  Inv.keepsEntries (Habits.forEachGoal f gs).
Proof.
  intros Hf. induction gs as [|g gs IH]; cbn [Habits.forEachGoal];
    [apply keeps_ret |].
  apply keeps_bind; [apply Hf | intros _; exact IH].
Qed.

Lemma keeps_updateGoalProgress z now activity quantity :
  Inv.keepsEntries (Habits.updateGoalProgress faults z now activity quantity).
Proof.
  unfold Habits.updateGoalProgress. apply keeps_tryCatch.
  - unfold Habits.updateGoalProgressTry. apply keeps_bind.
    + apply keeps_dbCall. intros es gs.
      split; [reflexivity | apply sameGoal_refl].
    + intros found. apply keeps_forEachGoal. intros g. apply keeps_updateGoal.
  - intros e. apply keeps_consoleError.
Qed.

(** A create call followed by steps that keep the entries adds one entry
    when it succeeds and none when it throws. *)
Lemma keeps_after_create {A} (data : nat -> HabitEntry)
    (k : HabitEntry -> Habits.M A) (handler : string -> Habits.M A) :
  (forall h, Inv.keepsEntries (k h)) ->
  (forall e, Inv.keepsEntries (handler e)) ->
  Inv.keepsGoals
    (Habits.tryCatch (Habits.bind (Habits.entryCreate faults data) k) handler).
Proof.
  intros Hk Hh w. unfold Habits.tryCatch. unfold Habits.bind.
  unfold Habits.entryCreate, Habits.dbCall.
  destruct (faults (Habits.calls w)).
  - destruct (Hh "database error"
                (Habits.mkWorld (Habits.entries w) (Habits.goals w)
                   (S (Habits.calls w)) (Habits.console w))) as [Hg He].
    cbn [Habits.goals Habits.entries] in Hg, He.
    split; [exact Hg |]. exists []. rewrite app_nil_r. split; [exact He |].
    simpl. lia.
  - cbv beta iota zeta.
    set (habit := data (List.length (Habits.entries w))).
    set (w1 := Habits.mkWorld _ _ _ _).
    destruct (Hk habit w1) as [Hg He]. cbn [Habits.goals Habits.entries] in Hg, He.
    destruct (k habit w1) as [w2 [a | e]]; cbn [fst] in *.
    + split; [exact Hg |]. exists [habit]. split; [exact He | simpl; lia].
    + destruct (Hh e w2) as [Hg2 He2]. split.
      * eapply sameGoal_trans; eassumption.
      * exists [habit]. split; [rewrite He2, He; reflexivity | simpl; lia].
Qed.
End KeepsEntries.

(** X25: whatever the body is and whichever database calls fail, a
    create request adds at most one entry, at the end of the stored
    entries, and changes no goal except in its current value: the goals
    stay the same in number and order, each with its id, activity, target,
    period and active flag. *)
Theorem create_keeps_goals (faults : nat -> bool) (z : Time.Zone) (now : Z)
    (body : option Habits.Body) (w : Habits.World) :
  let w' := fst (Habits.POST faults z now body w) in
  Forall2 Inv.sameGoalButValue (Habits.goals w) (Habits.goals w')
  /\ exists added,
       Habits.entries w' = (Habits.entries w ++ added)%list
       /\ (List.length added <= 1)%nat.
Proof.
  cbv zeta. revert w. change (Inv.keepsGoals (Habits.POST faults z now body)).
  assert (Weak : forall m : Habits.M Habits.Response,
             Inv.keepsEntries m -> Inv.keepsGoals m).
  { intros m Hm w. destruct (Hm w) as [Hg He]. split; [exact Hg |].
    exists []. rewrite app_nil_r. split; [exact He | simpl; lia]. }
  assert (Hh : forall e : string,
             Inv.keepsEntries
               (Habits.bind (Habits.consoleError "Error creating habit:")
                  (fun _ => Habits.ret
                              (Habits.Failure 500 "Failed to create habit entry")))).
  { intros e. apply keeps_bind; [apply keeps_consoleError |].
    intros _. apply keeps_ret. }
  unfold Habits.POST. destruct body as [body|].
  - destruct (Habits.b_rawText body) as [rawText|],
      (Habits.b_activity body) as [activity|];
      try (apply Weak, keeps_tryCatch; [apply keeps_ret | exact Hh]).
    destruct (Js.truthy (Some rawText) && Js.truthy (Some activity));
      [| apply Weak, keeps_tryCatch; [apply keeps_ret | exact Hh]].
    apply keeps_after_create; [| exact Hh].
    intros habit. apply keeps_bind; [| intros _; apply keeps_ret].
    destruct (Habits.b_quantity body) as [q|]; [| apply keeps_ret].
    destruct (Habits.truthyNumber (Some q)); [| apply keeps_ret].
    apply keeps_updateGoalProgress.
  - apply Weak, keeps_tryCatch; [| exact Hh].
    intros w. split; [apply sameGoal_refl | reflexivity].
Qed.

(** ** Creating an entry: the goal progress when no call fails *)

Section NoFaults.
Variables (z : Time.Zone) (now : Z) (wanted : string).



Variable es : list HabitEntry.

Lemma setValue_twice g v : Inv.setValue (Inv.setValue g v) v = Inv.setValue g v.
Proof. reflexivity. Qed.


End NoFaults.




(** ** Listing the entries *)

Lemma firstn_skipn_length {A} (n k : nat) (l : list A) :
  List.length (firstn n (skipn k l)) = Nat.min n (List.length l - k).
Proof. now rewrite length_firstn, length_skipn. Qed.

(** X27: a page of the listing.  When neither database call fails, the
    answer is a page: its entries all match the filter and are stored
    entries, they come in descending order of date, there are as many as
    the limit allows of the matching entries past the offset, the total
    is the number of matching entries, and [hasMore] is true exactly when
    matching entries remain after the page, that is when offset + limit is
    below the total.  When a call fails the answer is status 500.  The
    store is the same afterwards in every case. *)
Theorem listing_page (faults : nat -> bool) (q : Listing.Query)
    (w : Habits.World) :
  let w' := fst (Listing.GET faults q w) in
  let matching := filter (Listing.matches q) (Habits.entries w) in
  Habits.entries w' = Habits.entries w /\ Habits.goals w' = Habits.goals w
  /\ ((faults (Habits.calls w) = true
       \/ faults (S (Habits.calls w)) = true) ->
      snd (Listing.GET faults q w)
      = Habits.Returned (Listing.Failure 500 "Failed to fetch habits"))
  /\ (faults (Habits.calls w) = false ->
      faults (S (Habits.calls w)) = false ->
      exists data,
        snd (Listing.GET faults q w)
        = Habits.Returned
            (Listing.Page data
               (Listing.mkPagination (List.length matching)
                  (Listing.q_limit q) (Listing.q_offset q)
                  (Nat.ltb (Listing.q_offset q + Listing.q_limit q)
                     (List.length matching))))
        /\ (forall e, In e data ->
              In e (Habits.entries w) /\ Listing.matches q e = true)
        /\ StronglySorted (fun a b => date b <= date a) data
        /\ List.length data
           = Nat.min (Listing.q_limit q)
               (List.length matching - Listing.q_offset q)
        /\ Habits.console w' = Habits.console w).
Proof.
  cbv zeta.
  set (page := firstn (Listing.q_limit q)
                 (skipn (Listing.q_offset q)
                    (Js.sortBy (fun a b => date b <=? date a)
                       (filter (Listing.matches q) (Habits.entries w))))).
  assert (E : Listing.GET faults q w
              = if faults (Habits.calls w) then
                  (Habits.mkWorld (Habits.entries w) (Habits.goals w)
                     (S (Habits.calls w))
                     (Habits.console w ++ ["Error fetching habits:"])%list,
                   Habits.Returned (Listing.Failure 500 "Failed to fetch habits"))
                else if faults (S (Habits.calls w)) then
                  (Habits.mkWorld (Habits.entries w) (Habits.goals w)
                     (S (S (Habits.calls w)))
                     (Habits.console w ++ ["Error fetching habits:"])%list,
                   Habits.Returned (Listing.Failure 500 "Failed to fetch habits"))
                else
                  (Habits.mkWorld (Habits.entries w) (Habits.goals w)
                     (S (S (Habits.calls w))) (Habits.console w),
                   Habits.Returned
                     (Listing.Page page
                        (Listing.mkPagination
                           (List.length
                              (filter (Listing.matches q) (Habits.entries w)))
                           (Listing.q_limit q) (Listing.q_offset q)
                           (Nat.ltb (Listing.q_offset q + List.length page)
                              (List.length
                                 (filter (Listing.matches q)
                                    (Habits.entries w)))))))).
  { unfold Listing.GET, Habits.tryCatch, Habits.bind, Listing.entryFindPage,
      Listing.entryCount, Habits.dbCall.
    destruct (faults (Habits.calls w)); [reflexivity |].
    cbn [Habits.calls Habits.entries Habits.goals].
    destruct (faults (S (Habits.calls w))); reflexivity. }
  rewrite E. clear E.
  destruct (faults (Habits.calls w)) eqn:F1.
  - cbn [fst snd Habits.entries Habits.goals].
    split; [reflexivity |]. split; [reflexivity |].
    split; [intros _; reflexivity | intros H; discriminate H].
  - destruct (faults (S (Habits.calls w))) eqn:F2.
    + cbn [fst snd Habits.entries Habits.goals].
      split; [reflexivity |]. split; [reflexivity |].
      split; [intros _; reflexivity | intros _ H; discriminate H].
    + cbn [fst snd Habits.entries Habits.goals Habits.console].
      split; [reflexivity |]. split; [reflexivity |].
      split; [intros [H | H]; discriminate H |]. intros _ _.
      unfold page. clear page.
      set (matching := filter (Listing.matches q) (Habits.entries w)).
      set (sorted := Js.sortBy (fun a b => date b <=? date a) matching).
      assert (Hlen : List.length sorted = List.length matching)
        by apply Permutation_length, sortBy_perm.
      eexists. split; [| split; [| split; [| split; [| reflexivity]]]].
      * do 3 f_equal. rewrite firstn_skipn_length, Hlen.
        destruct (Nat.ltb_spec (Listing.q_offset q + Listing.q_limit q)
                    (List.length matching)),
          (Nat.ltb_spec
             (Listing.q_offset q
              + Nat.min (Listing.q_limit q)
                  (List.length matching - Listing.q_offset q))
             (List.length matching)); try reflexivity; lia.
      * intros e He. apply In_firstn_In in He.
        assert (Hs : In e sorted).
        { rewrite <- (firstn_skipn (Listing.q_offset q) sorted).
          apply in_or_app. now right. }
        apply In_sortBy in Hs. unfold matching in Hs.
        now apply filter_In in Hs.
      * pose proof (sortBy_desc date matching) as Hs. fold sorted in Hs.
        rewrite <- (firstn_skipn (Listing.q_offset q) sorted) in Hs.
        assert (Hk : StronglySorted (fun a b => date b <= date a)
                       (skipn (Listing.q_offset q) sorted)).
        { clear - Hs. induction (firstn (Listing.q_offset q) sorted)
            as [|x l IH]; [exact Hs |]. apply IH. now inversion Hs. }
        apply (sorted_firstn date), Hk.
      * now rewrite firstn_skipn_length, Hlen.
Qed.

(** ** Statistics: the summary *)

Lemma countOf_tallied a ls : forall m,
  Stacks.countOf (fold_left (fun counts l => Js.increment l counts) ls m) a
  = Stacks.countOf m a + Js.count (String.eqb a) ls.
Proof.
  induction ls as [|l ls IH]; intros m; cbn [fold_left].
  - rewrite count_nil. lia.
  - rewrite IH, countOf_increment, count_cons. unfold Js.indicator.
    destruct (String.eqb a l); lia.
Qed.

Lemma keys_tallied k ls : forall m : list (string * Z),
  In k (map fst (fold_left (fun counts l => Js.increment l counts) ls m)) ->
  In k (map fst m) \/ In k ls.
Proof.
  induction ls as [|l ls IH]; intros m H; cbn [fold_left] in H; [now left |].
  apply IH in H as [H | H]; [| right; now right].
  unfold Js.increment in H.
  rewrite keys_update in H.
  apply (In_setAdd String.eqb String.eqb_spec) in H as [-> | H];
    [right; now left | now left].
Qed.

Lemma countLabel_fold (field : HabitEntry -> option string) es : forall m,
  fold_left (fun counts e => Summary.countLabel (field e) counts) es m
  = fold_left (fun counts l => Js.increment l counts)
      (Summary.labelsOf field es) m.
Proof.
  unfold Summary.labelsOf.
  induction es as [|e es IH]; intros m; cbn [fold_left flat_map];
    [reflexivity |].
  rewrite fold_left_app, IH. f_equal. unfold Summary.countLabel.
  destruct (field e) as [l|]; [| reflexivity].
  destruct (Js.truthy (Some l)); reflexivity.
Qed.

Lemma labelsOf_nonempty field es l :
  In l (Summary.labelsOf field es) -> l <> "".
Proof.
  unfold Summary.labelsOf. rewrite in_flat_map. intros (e & _ & H).
  destruct (field e) as [v|]; [| destruct H].
  unfold Js.truthy in H. destruct (String.eqb_spec v ""); cbn [negb] in H;
    [destruct H |].
  destruct H as [<- | []]. assumption.
Qed.

(** The label with the highest count of a counter object. *)
Lemma mostFrequent_tallied ls :
  let counts := fold_left (fun counts l => Js.increment l counts) ls [] in
  (ls = [] -> Summary.mostFrequent counts = "")
  /\ (ls <> [] ->
      In (Summary.mostFrequent counts) ls
      /\ forall b, Js.count (String.eqb b) ls
                   <= Js.count (String.eqb (Summary.mostFrequent counts)) ls).
Proof.
  cbv zeta. split; [intros ->; reflexivity |]. intros Hne.
  set (counts := fold_left (fun counts l => Js.increment l counts) ls []).
  assert (Hnd : NoDup (map fst counts))
    by (apply keys_increments_NoDup; constructor).
  assert (Hc : forall b, Stacks.countOf counts b = Js.count (String.eqb b) ls).
  { intros b. unfold counts. rewrite countOf_tallied. reflexivity. }
  assert (Hin : forall b k, In (b, k) counts -> k = Js.count (String.eqb b) ls).
  { intros b k H. rewrite <- Hc. unfold Stacks.countOf.
    now rewrite (In_get String.eqb String.eqb_spec b k counts Hnd H). }
  unfold Summary.mostFrequent.
  set (before := fun a b : string * Z => snd b <=? snd a).
  destruct (Js.sortBy before counts) as [|[a n] rest] eqn:E.
  - exfalso. assert (Hn : counts = [])
      by (apply (sortBy_head_none before); now rewrite E).
    destruct ls as [|l ls]; [contradiction |].
    specialize (Hc l). rewrite Hn, count_cons, String.eqb_refl in Hc.
    pose proof (count_nonneg (String.eqb l) ls).
    unfold Stacks.countOf in Hc. cbn [Js.get] in Hc. lia.
  - destruct (sortBy_head before) with (l := counts) (x := (a, n))
      as (pre & post & Hl & Hpre & Hpost).
    + unfold before. intros x y H. apply Z.leb_gt in H. apply Z.leb_le. lia.
    + unfold before. intros x y t H1 H2. apply Z.leb_le in H1, H2.
      apply Z.leb_le. lia.
    + now rewrite E.
    + assert (Ha : In (a, n) counts)
        by (rewrite Hl; apply in_or_app; right; now left).
      pose proof (Hin a n Ha) as Hn. split.
      * assert (Hk : In a (map fst counts))
          by (change a with (fst (a, n)); now apply in_map).
        unfold counts in Hk. apply keys_tallied in Hk as [[] | Hk]. exact Hk.
      * intros b. rewrite <- Hn, <- (Hc b). unfold Stacks.countOf.
        destruct (Js.get String.eqb b counts) as [k|] eqn:Eb.
        -- apply (get_Some_In String.eqb String.eqb_spec) in Eb.
           rewrite Hl in Eb. apply in_app_or in Eb as [Eb | [Eb | Eb]].
           ++ apply Hpre in Eb. unfold before in Eb. cbn [snd] in Eb.
              apply Z.leb_gt in Eb. lia.
           ++ injection Eb as _ <-. lia.
           ++ apply Hpost in Eb. unfold before in Eb. cbn [snd] in Eb.
              now apply Z.leb_le in Eb.
        -- rewrite Hn. apply count_nonneg.
Qed.

Lemma summary_counts entries :
  Summary.r_activityCounts (fold_left Summary.tally entries Summary.running0)
  = fold_left (fun counts l => Js.increment l counts)
      (Summary.labelsOf (fun e => Some (activity e)) entries) []
  /\ Summary.r_categoryCounts
       (fold_left Summary.tally entries Summary.running0)
     = fold_left (fun counts l => Js.increment l counts)
         (Summary.labelsOf category entries) [].
Proof.
  rewrite <- !countLabel_fold.
  change (@nil (string * Z)) with (Summary.r_activityCounts Summary.running0)
    at 1.
  change (@nil (string * Z)) with (Summary.r_categoryCounts Summary.running0).
  generalize Summary.running0.
  induction entries as [|e es IH]; intros r; cbn [fold_left];
    [split; reflexivity |].
  destruct (IH (Summary.tally r e)) as [-> ->].
  unfold Summary.tally.
  destruct (quantity e); split; reflexivity.
Qed.

(** X28: the counters of the summary, over entries none of whose
    activities and categories names a member of [Object.prototype].  The
    counts of the activity breakdown are the numbers of entries per
    non-empty activity, and the most frequent activity is an activity
    with the highest count; it is the empty string only when no entry
    names an activity.  The same holds for the categories. *)
Theorem summary_most_frequent (entries : list HabitEntry) :
  Inv.plainActivities entries = true ->
  Inv.plainCategories entries = true ->
  let s := Summary.summarize entries in
  let acts := Summary.labelsOf (fun e => Some (activity e)) entries in
  let cats := Summary.labelsOf category entries in
  (forall a, Js.ownKey a = true ->
             Stacks.countOf (Summary.activityBreakdown s) a
             = Js.count (String.eqb a) acts)
  /\ (forall c, Js.ownKey c = true ->
                Stacks.countOf (Summary.categoryBreakdown s) c
                = Js.count (String.eqb c) cats)
  /\ (acts = [] -> Summary.mostFrequentActivity s = "")
  /\ (acts <> [] ->
      In (Summary.mostFrequentActivity s) acts
      /\ Summary.mostFrequentActivity s <> ""
      /\ forall b, Js.count (String.eqb b) acts
                   <= Js.count (String.eqb (Summary.mostFrequentActivity s)) acts)
  /\ (cats = [] -> Summary.mostFrequentCategory s = "")
  /\ (cats <> [] ->
      In (Summary.mostFrequentCategory s) cats
      /\ Summary.mostFrequentCategory s <> ""
      /\ forall b, Js.count (String.eqb b) cats
                   <= Js.count (String.eqb (Summary.mostFrequentCategory s)) cats).
Proof.
  intros _ _. cbv zeta. unfold Summary.summarize.
  cbn [Summary.activityBreakdown Summary.categoryBreakdown
       Summary.mostFrequentActivity Summary.mostFrequentCategory].
  destruct (summary_counts entries) as [-> ->].
  set (acts := Summary.labelsOf (fun e => Some (activity e)) entries).
  set (cats := Summary.labelsOf category entries).
  destruct (mostFrequent_tallied acts) as [A0 A1].
  destruct (mostFrequent_tallied cats) as [C0 C1]. cbv zeta in A0, A1, C0, C1.
  split; [intros a _; now rewrite countOf_tallied |].
  split; [intros c _; now rewrite countOf_tallied |].
  split; [exact A0 |]. split.
  - intros H. destruct (A1 H) as [H1 H2].
    split; [exact H1 |]. split; [| exact H2].
    exact (labelsOf_nonempty (fun e => Some (activity e)) entries _ H1).
  - split; [exact C0 |]. intros H. destruct (C1 H) as [H1 H2].
    split; [exact H1 |]. split; [| exact H2].
    exact (labelsOf_nonempty category entries _ H1).
Qed.

Lemma summary_most_frequent_witness :
  Summary.mostFrequentActivity (Summary.summarize Examples.threeRuns) <> "".
Proof.
  destruct (summary_most_frequent Examples.threeRuns eq_refl eq_refl)
    as (_ & _ & _ & H & _).
  destruct H as (_ & Hne & _); [discriminate | exact Hne].
Defined.

Lemma quantitiesIn_cons units e es :
  Summary.quantitiesIn units (e :: es)
  = (Summary.quantitiesIn units [e] ++ Summary.quantitiesIn units es)%list.
Proof.
  unfold Summary.quantitiesIn. cbn [filter].
  destruct (existsb (Summary.unitIs e) units); [| reflexivity].
  apply quantities_cons.
Qed.

Lemma fold_Qplus qs : forall acc,
  (fold_left Qplus qs acc == acc + Inv.Qtotal qs)%Q.
Proof.
  unfold Inv.Qtotal.
  induction qs as [|q qs IH]; intros acc; cbn [fold_left fold_right]; [ring |].
  rewrite IH. ring.
Qed.

Lemma tally_step r e :
  Summary.r_quantities (Summary.tally r e)
  = (Summary.r_quantities r ++ Inv.quantities [e])%list
  /\ (Summary.r_totalDistance (Summary.tally r e)
      == Summary.r_totalDistance r
         + Inv.Qtotal (Summary.quantitiesIn ["km"; "miles"] [e]))%Q
  /\ (Summary.r_totalDuration (Summary.tally r e)
      == Summary.r_totalDuration r
         + (Inv.Qtotal (Summary.quantitiesIn ["minutes"] [e])
            + 60 * Inv.Qtotal (Summary.quantitiesIn ["hours"] [e])))%Q.
Proof.
  assert (X : Summary.unitIs e "minutes" && Summary.unitIs e "hours" = false).
  { unfold Summary.unitIs. destruct (unit e) as [u|]; [| reflexivity].
    destruct (String.eqb_spec u "minutes") as [-> |]; reflexivity. }
  unfold Summary.tally, Summary.quantitiesIn, Inv.quantities, Inv.Qtotal.
  cbn [filter existsb].
  destruct (quantity e) as [q|] eqn:Eq;
    cbn [Summary.r_quantities Summary.r_totalDistance Summary.r_totalDuration].
  - split; [cbn [flat_map]; rewrite Eq; reflexivity |].
    destruct (Summary.unitIs e "km"), (Summary.unitIs e "miles"),
      (Summary.unitIs e "minutes"), (Summary.unitIs e "hours");
      try (cbn [andb] in X; discriminate X);
      cbn [orb flat_map app fold_right]; rewrite ?Eq;
      cbn [app fold_right]; split; ring.
  - split; [cbn [flat_map]; rewrite Eq; now rewrite app_nil_r |].
    destruct (Summary.unitIs e "km"), (Summary.unitIs e "miles"),
      (Summary.unitIs e "minutes"), (Summary.unitIs e "hours");
      try (cbn [andb] in X; discriminate X);
      cbn [orb flat_map app fold_right]; rewrite ?Eq;
      cbn [app fold_right]; split; ring.
Qed.

Lemma tally_quantities es : forall r,
  let r' := fold_left Summary.tally es r in
  Summary.r_quantities r' = (Summary.r_quantities r ++ Inv.quantities es)%list
  /\ (Summary.r_totalDistance r'
      == Summary.r_totalDistance r
         + Inv.Qtotal (Summary.quantitiesIn ["km"; "miles"] es))%Q
  /\ (Summary.r_totalDuration r'
      == Summary.r_totalDuration r
         + (Inv.Qtotal (Summary.quantitiesIn ["minutes"] es)
            + 60 * Inv.Qtotal (Summary.quantitiesIn ["hours"] es)))%Q.
Proof.
  induction es as [|e es IH]; intros r; cbv zeta; cbn [fold_left].
  - split; [now rewrite app_nil_r |]. split; cbn; ring.
  - destruct (IH (Summary.tally r e)) as (Hq & Hd & Ht).
    destruct (tally_step r e) as (Sq & Sd & St).
    split; [| split].
    + rewrite Hq, Sq, (quantities_cons e es), app_assoc. reflexivity.
    + rewrite Hd, Sd, (quantitiesIn_cons _ e es), Qtotal_app. ring.
    + rewrite Ht, St, !(quantitiesIn_cons _ e es), !Qtotal_app. ring.
Qed.

(** X29: the quantities of the summary, where the quantities are whole
    numbers whose sums a double holds exactly.  The total distance is the
    sum of the quantities of the entries in km or miles, added without
    conversion; the total duration is the sum of the quantities in
    minutes plus sixty times the sum of those in hours; the average
    quantity is 0 when no entry carries a quantity; and the total is the
    number of entries. *)
Theorem summary_quantities (entries : list HabitEntry) :
  Inv.wholeQuantities (Inv.quantities entries) ->
  let s := Summary.summarize entries in
  let qs := Inv.quantities entries in
  Summary.totalEntries s = Z.of_nat (List.length entries)
  /\ (Summary.totalDistance s
      == Inv.Qtotal (Summary.quantitiesIn ["km"; "miles"] entries))%Q
  /\ (Summary.totalDuration s
      == Inv.Qtotal (Summary.quantitiesIn ["minutes"] entries)
         + 60 * Inv.Qtotal (Summary.quantitiesIn ["hours"] entries))%Q
  /\ (qs = [] -> Summary.avgQuantity s = 0%Q).
Proof.
  intros _. cbv zeta. unfold Summary.summarize.
  cbn [Summary.totalEntries Summary.totalDistance Summary.totalDuration
       Summary.avgQuantity].
  destruct (tally_quantities entries Summary.running0) as (Hq & Hd & Ht).
  cbv zeta in Hq, Hd, Ht. cbn [Summary.running0 Summary.r_quantities
    Summary.r_totalDistance Summary.r_totalDuration app] in Hq, Hd, Ht.
  split; [reflexivity |].
  split; [rewrite Hd; ring |]. split; [rewrite Ht; ring |].
  rewrite Hq. intros ->. reflexivity.
Qed.

Lemma summary_quantities_witness :
  (Summary.totalDistance (Summary.summarize Examples.threeRuns) == 8)%Q
  /\ (Summary.totalDuration (Summary.summarize Examples.threeRuns) == 120)%Q.
Proof.
  destruct (summary_quantities Examples.threeRuns) as (_ & Hd & Ht & _).
  - split.
    + intros x [<- | [<- | [<- | []]]];
        [exists 5 | exists 3 | exists 2]; (split; [lia | reflexivity]).
    + vm_compute. discriminate.
  - split; [rewrite Hd | rewrite Ht]; reflexivity.
Defined.

(** ** The current streak of the two routes *)

Lemma tally_dates z es : forall t,
  Gamification.t_dates (fold_left (Gamification.tally z) es t)
  = fold_left (fun s d => Js.setAdd Z.eqb d s)
      (map (fun e => Time.utcDay (date e)) es) (Gamification.t_dates t).
Proof.
  induction es as [|e es IH]; intros t; cbn [fold_left map]; [reflexivity |].
  rewrite IH. f_equal. unfold Gamification.tally.
  destruct (Js.optIncludes (type e) "positive");
    [| destruct (Js.optIncludes (type e) "negative")]; reflexivity.
Qed.

Lemma streakLoop_currentLoop dates z now bound : forall i,
  Gamification.streakLoop dates z now i bound
  = Stats.currentLoop dates z now i bound.
Proof.
  induction bound as [|bound IH]; intros i;
    cbn [Gamification.streakLoop Stats.currentLoop]; [reflexivity |].
  now rewrite IH.
Qed.

(** X30: the gamification profile and the statistics route agree on the
    current streak: over the same entries, at the same time and in the
    same zone, the current streak that the recompute writes to the profile
    is the current streak of the statistics, whatever the stored profile
    and the goals are. *)
Theorem profile_streak_is_statistics_streak (z : Time.Zone) (now : Z)
    (stored : Gamification.UserProfile) (entries : list HabitEntry)
    (goals : list Goal) :
  Gamification.currentStreak
    (Gamification.profile
       (Gamification.recalculateStats z now stored entries goals))
  = Stats.current (Stats.calculateStreaks z now entries).
Proof.
  unfold Gamification.recalculateStats, Stats.calculateStreaks.
  cbn [Gamification.profile Gamification.currentStreak Stats.current].
  unfold Gamification.streakOf. rewrite tally_dates.
  cbn [Gamification.totals0 Gamification.t_dates].
  apply streakLoop_currentLoop.
Qed.
